(** * SistemaAprodmayo: workshop status, member dues, search endpoints

    A shallow embedding of the business rules of the Django project
    (apps [talleres], [finanzas], [beneficiarias], [reportes]) and the
    properties its specification states about them.

    Conventions of the embedding:
    - a [datetime.date] is its day number ([date.toordinal()]), a [Z];
      date comparison is [<], [≤] on [Z] and [(a - b).days] is [a - b];
    - a database table is a finite map from primary key to row
      ([gmap Z row]); a queryset is the list of its (pk, row) pairs,
      fetched once when the [for] loop starts;
    - an exception is a value of [result], never a silent default;
    - what a management command prints is left out, the counters it
      keeps are not. *)

From Stdlib Require Import Ascii String Qcanon.
From stdpp Require Import gmap strings list sorting pretty.
From Equations Require Import Equations.

Local Open Scope Z_scope.

(** ** Outcomes of fallible code *)

Inductive excepcion :=
  | ZeroDivisionError
  | FieldError (keyword : string)
  | AttributeError (atributo : string)
  | ValueError
  | ProtectedError (detalle : string)
  | Http404.

Inductive result (A : Type) :=
  | Ok (a : A)
  | Raise (e : excepcion).
Arguments Ok {A} a.
Arguments Raise {A} e.

(** ** django.contrib.messages *)

Inductive nivel := SUCCESS | ERROR.

Record Message := { level : nivel; text : string }.

(** ** django.http responses *)

(** What the views hand to [JsonResponse]: a list of [dict]s from keys
    to numbers and strings. *)
Inductive valor :=
  | JInt (n : Z)
  | JStr (s : string).

Definition dict := list (string * valor).

Inductive respuesta :=
  | HttpResponseRedirect (url_name : string)
  | HttpResponse (content : string) (content_type : string)
  | JsonResponse (data : list dict).

(** * Python built-ins used by the views and models

    Strings are [string]s of one-byte characters: the embedding covers
    ASCII text, where [len] is [String.length] and case folding touches
    the letters A-Z only. *)

Module Python.

(** Characters that [int()] strips around the number: TAB, LF, VT, FF, CR,
    FS, GS, RS, US and the space. *)
Definition es_espacio (c : ascii) : bool :=
  let n := nat_of_ascii c in
  ((9 <=? n) && (n <=? 13) || (28 <=? n) && (n <=? 32))%nat.

Definition digito (c : ascii) : option Z :=
  let n := nat_of_ascii c in
  if ((48 <=? n) && (n <=? 57))%nat then Some (Z.of_nat n - 48) else None.

Fixpoint lstrip (s : string) : string :=
  match s with
  | String c s' => if es_espacio c then lstrip s' else s
  | EmptyString => EmptyString
  end.

Definition strip (s : string) : string :=
  String.rev (lstrip (String.rev (lstrip s))).

(** The digits of a base-10 literal; a single underscore may separate
    two digits. [tras_digito] says the previous character was a digit. *)
Fixpoint leer_digitos (acc : Z) (tras_digito : bool) (s : string) : option Z :=
  match s with
  | EmptyString => if tras_digito then Some acc else None
  | String c s' =>
      match digito c with
      | Some d => leer_digitos (10 * acc + d) true s'
      | None =>
          if bool_decide (c = "_"%char) && tras_digito
          then leer_digitos acc false s'
          else None
      end
  end.

(** [int(s)] for a [str] argument; [ValueError] when [s] is not a literal. *)
Definition int (s : string) : result Z :=
  let valor :=
    match strip s with
    | String "+" r => leer_digitos 0 false r
    | String "-" r => Z.opp <$> leer_digitos 0 false r
    | r => leer_digitos 0 false r
    end in
  match valor with
  | Some n => Ok n
  | None => Raise ValueError
  end.

(** [str(n)] for an [int]. *)
Definition str (n : Z) : string := pretty n.

(** ASCII case folding, as the database does it for [icontains]. *)
Definition minuscula (c : ascii) : ascii :=
  let n := nat_of_ascii c in
  if ((65 <=? n) && (n <=? 90))%nat then ascii_of_nat (n + 32) else c.

Fixpoint lower (s : string) : string :=
  match s with
  | String c s' => String (minuscula c) (lower s')
  | EmptyString => EmptyString
  end.

(** [needle in haystack] *)
Fixpoint contiene (needle haystack : string) : bool :=
  String.prefix needle haystack ||
  match haystack with
  | String _ resto => contiene needle resto
  | EmptyString => false
  end.

(** The [field__icontains=term] lookup on one text value. *)
Definition icontains (valor term : string) : bool :=
  contiene (lower term) (lower valor).

End Python.

(** * App [beneficiarias] *)

Module Beneficiarias.

(** The columns of [beneficiarias.models.Beneficiaria] that the search
    endpoints read. The model has no column called [dni]: the document
    number is [documento_identidad] (models.py, line 16). *)
Record Beneficiaria := {
  nombres : string;
  apellidos : string;
  documento_identidad : string;
  telefono : string;
  correo : string
}.

(** Resolution of a keyword to a text column of the model. *)
Definition columna (keyword : string) : option (Beneficiaria → string) :=
  if bool_decide (keyword = "nombres") then Some nombres
  else if bool_decide (keyword = "apellidos") then Some apellidos
  else if bool_decide (keyword = "documento_identidad") then Some documento_identidad
  else if bool_decide (keyword = "telefono") then Some telefono
  else if bool_decide (keyword = "correo") then Some correo
  else None.

(** [Q(campo__icontains=term)] and [Q | Q]: a [Q] object is syntax until
    [filter] compiles it. *)
Inductive Q :=
  | Q_icontains (campo term : string)
  | Q_or (a b : Q).

(** [filter] resolves every keyword first; an unknown one raises
    [FieldError]. *)
Fixpoint resolver (q : Q) : result (Beneficiaria → bool) :=
  match q with
  | Q_icontains campo term =>
      match columna campo with
      | Some leer => Ok (λ b, Python.icontains (leer b) term)
      | None => Raise (FieldError campo)
      end
  | Q_or a b =>
      match resolver a with
      | Raise e => Raise e
      | Ok pa =>
          match resolver b with
          | Raise e => Raise e
          | Ok pb => Ok (λ x, pa x || pb x)
          end
      end
  end.

(** [Beneficiaria.objects.filter(q)] *)
Definition objects_filter (q : Q) (tabla : gmap Z Beneficiaria)
  : result (list (Z * Beneficiaria)) :=
  match resolver q with
  | Ok p => Ok (filter (λ kv, p kv.2 = true) (map_to_list tabla))
  | Raise e => Raise e
  end.

(** [request.GET.get(key, default)] *)
Definition GET_get (GET : gmap string string) (key default : string) : string :=
  match GET !! key with
  | Some v => v
  | None => default
  end.

(** One entry of [data] in [buscar_beneficiarias_api]. *)
Definition fila_api (fila : Z * Beneficiaria) : dict :=
  let '(id, b) := fila in
  [ ("id", JInt id);
          ("nombres", JStr (nombres b));
          ("apellidos", JStr (apellidos b));
          ("dni", JStr (documento_identidad b));
          ("telefono", JStr (telefono b));
          ("correo", JStr (correo b)) ].

(** [buscar_beneficiarias_api], beneficiarias/views.py lines 161-187. *)
Definition buscar_beneficiarias_api (GET : gmap string string)
    (tabla : gmap Z Beneficiaria) : result respuesta :=
  let term := GET_get GET "term" "" in
  if bool_decide (String.length term < 3)%nat then Ok (JsonResponse [])
  else
    match objects_filter
            (Q_or (Q_or (Q_icontains "nombres" term)
                        (Q_icontains "apellidos" term))
                  (Q_icontains "documento_identidad" term)) tabla with
    | Raise e => Raise e
    | Ok qs =>
        let beneficiarias := take 10 qs in
        Ok (JsonResponse (fila_api <$> beneficiarias))
    end.

End Beneficiarias.

(** * App [talleres] *)

Module Talleres.

(** [Taller.ESTADO_CHOICES] *)
Inductive Estado := PROGRAMADO | EN_CURSO | FINALIZADO | CANCELADO.

#[global] Instance Estado_eq_dec : EqDecision Estado.
Proof. solve_decision. Defined.

(** The fields of [talleres.models.Taller] that the rules read. *)
Record Taller := {
  nombre : string;
  fecha_inicio : Z;
  fecha_fin : Z;
  capacidad : Z;
  estado : Estado
}.

(** [taller.estado = e] on the in-memory instance. *)
Definition set_estado (e : Estado) (t : Taller) : Taller :=
  {| nombre := nombre t; fecha_inicio := fecha_inicio t;
     fecha_fin := fecha_fin t; capacidad := capacidad t; estado := e |}.

(** [Taller.objects.all()] and [Taller.objects.exclude(estado='CANCELADO')],
    evaluated when iteration starts. *)
Definition objects_all (db : gmap Z Taller) : list (Z * Taller) :=
  map_to_list db.

Definition objects_exclude_cancelado (db : gmap Z Taller) : list (Z * Taller) :=
  map_to_list (filter (λ kv, estado kv.2 ≠ CANCELADO) db).

(** [t.save()] writes every field of the instance to the row [pk];
    [t.save(update_fields=['estado'])] writes the one column. A row
    holds the columns the rules read. The timestamp [actualizado]
    ([auto_now], models.py lines 101-104), which a plain [save()] sets to
    the time of the call and [save(update_fields=['estado'])] leaves
    alone, is not one of them. *)
Definition save (pk : Z) (t : Taller) (db : gmap Z Taller) : gmap Z Taller :=
  <[pk := t]> db.

Definition save_update_estado (pk : Z) (t : Taller) (db : gmap Z Taller)
  : gmap Z Taller :=
  alter (set_estado (estado t)) pk db.

(** ** talleres/management/commands/actualizar_estados.py *)

(** Lines 29-34 of [Command.handle]: the [if]/[elif]/[else] on the dates. *)
Definition nuevo_estado_comando (hoy : Z) (taller : Taller) : Estado :=
  if bool_decide (hoy < fecha_inicio taller) then PROGRAMADO
  else if bool_decide (hoy ≤ fecha_fin taller) then EN_CURSO
  else FINALIZADO.

(** One iteration of the loop; the second component is
    [talleres_actualizados]. *)
Definition paso_comando (hoy : Z) (st : gmap Z Taller * nat)
    (fila : Z * Taller) : gmap Z Taller * nat :=
  let '(db, talleres_actualizados) := st in
  let '(pk, taller) := fila in
  let nuevo_estado := nuevo_estado_comando hoy taller in
  if bool_decide (estado taller ≠ nuevo_estado)
  then (save_update_estado pk (set_estado nuevo_estado taller) db,
        S talleres_actualizados)
  else (db, talleres_actualizados).

Definition handle_actualizar_estados (hoy : Z) (db : gmap Z Taller)
  : gmap Z Taller * nat :=
  foldl (paso_comando hoy) (db, 0%nat) (objects_exclude_cancelado db).

(** ** talleres/management/commands/actualizar_estados_talleres.py *)

(** Lines 18-23 of [Command.handle]: the chained comparison
    [t.fecha_inicio <= today <= t.fecha_fin] in the [elif]. *)
Definition estado_comando_talleres (today : Z) (t : Taller) : Estado :=
  if bool_decide (today < fecha_inicio t) then PROGRAMADO
  else if bool_decide (fecha_inicio t ≤ today) && bool_decide (today ≤ fecha_fin t)
       then EN_CURSO
  else FINALIZADO.

(** One iteration; the counters are [actualizados] and [sin_cambios]. *)
Definition paso_comando_talleres (today : Z) (st : gmap Z Taller * (nat * nat))
    (fila : Z * Taller) : gmap Z Taller * (nat * nat) :=
  let '(db, (actualizados, sin_cambios)) := st in
  let '(pk, t) := fila in
  let estado_anterior := estado t in
  let t := set_estado (estado_comando_talleres today t) t in
  if bool_decide (estado t ≠ estado_anterior)
  then (save pk t db, (S actualizados, sin_cambios))
  else (db, (actualizados, S sin_cambios)).

Definition handle_actualizar_estados_talleres (today : Z) (db : gmap Z Taller)
  : gmap Z Taller * (nat * nat) :=
  foldl (paso_comando_talleres today) (db, (0%nat, 0%nat)) (objects_all db).

(** ** actualizar_estados.py (the standalone script) *)

Definition estado_script (today : Z) (t : Taller) : Estado :=
  if bool_decide (today < fecha_inicio t) then PROGRAMADO
  else if bool_decide (fecha_inicio t ≤ today) && bool_decide (today ≤ fecha_fin t)
       then EN_CURSO
  else FINALIZADO.

Definition paso_script (today : Z) (db : gmap Z Taller) (fila : Z * Taller)
  : gmap Z Taller :=
  let '(pk, t) := fila in
  let estado_anterior := estado t in
  let t := set_estado (estado_script today t) t in
  if bool_decide (estado t ≠ estado_anterior) then save pk t db else db.

Definition actualizar_estados (today : Z) (db : gmap Z Taller) : gmap Z Taller :=
  foldl (paso_script today) db (objects_all db).

(** ** talleres/views.py *)

(** [TallerListView.actualizar_estados_talleres], lines 74-99. *)
Definition nuevo_estado_lista (hoy : Z) (taller : Taller) : Estado :=
  if bool_decide (hoy < fecha_inicio taller) then PROGRAMADO
  else if bool_decide (hoy ≤ fecha_fin taller) then EN_CURSO
  else FINALIZADO.

Definition paso_lista (hoy : Z) (db : gmap Z Taller) (fila : Z * Taller)
  : gmap Z Taller :=
  let '(pk, taller) := fila in
  let nuevo_estado := nuevo_estado_lista hoy taller in
  if bool_decide (estado taller ≠ nuevo_estado)
  then save_update_estado pk (set_estado nuevo_estado taller) db
  else db.

Definition actualizar_estados_talleres (hoy : Z) (db : gmap Z Taller)
  : gmap Z Taller :=
  foldl (paso_lista hoy) db (objects_exclude_cancelado db).

(** [TallerDetailView.get_object], lines 177-201. [super().get_object]
    raises [Http404] when the row does not exist. *)
Definition nuevo_estado_detalle (hoy : Z) (taller : Taller) : Estado :=
  if bool_decide (hoy < fecha_inicio taller) then PROGRAMADO
  else if bool_decide (hoy ≤ fecha_fin taller) then EN_CURSO
  else FINALIZADO.

Definition get_object (hoy : Z) (pk : Z) (db : gmap Z Taller)
  : result (Taller * gmap Z Taller) :=
  match db !! pk with
  | None => Raise Http404
  | Some taller =>
      if bool_decide (estado taller ≠ CANCELADO) then
        let nuevo_estado := nuevo_estado_detalle hoy taller in
        if bool_decide (estado taller ≠ nuevo_estado) then
          let taller := set_estado nuevo_estado taller in
          Ok (taller, save_update_estado pk taller db)
        else Ok (taller, db)
      else Ok (taller, db)
  end.

(** [TallerCreateView.form_valid], lines 137-163. The argument [form] is
    [form.instance]: a valid [ModelForm] has already copied its
    [cleaned_data] into the instance, and [estado] is one of the form's
    fields, so [form.cleaned_data.get('estado')] is [estado form].
    [super().form_valid] saves the instance under a new primary key. *)
Definition estado_crear (hoy : Z) (taller : Taller) : Estado :=
  if bool_decide (hoy < fecha_inicio taller) then PROGRAMADO
  else if bool_decide (hoy ≤ fecha_fin taller) then EN_CURSO
  else FINALIZADO.

Definition crear_form_valid (hoy : Z) (form : Taller)
    (db : gmap Z Taller) (msgs : list Message)
  : Z * gmap Z Taller * list Message :=
  let taller :=
    if bool_decide (estado form ≠ CANCELADO)
    then set_estado (estado_crear hoy form) form
    else form in
  let msgs := msgs ++ [ {| level := SUCCESS; text := "Taller creado exitosamente." |} ] in
  let pk := fresh (dom db) in
  (pk, save pk taller db, msgs).

(** [TallerUpdateView.form_valid], lines 257-283; [pk] is the row edited. *)
Definition estado_editar (hoy : Z) (taller : Taller) : Estado :=
  if bool_decide (hoy < fecha_inicio taller) then PROGRAMADO
  else if bool_decide (hoy ≤ fecha_fin taller) then EN_CURSO
  else FINALIZADO.

Definition editar_form_valid (hoy : Z) (pk : Z) (form : Taller)
    (db : gmap Z Taller) : gmap Z Taller :=
  let taller :=
    if bool_decide (estado form ≠ CANCELADO)
    then set_estado (estado_editar hoy form) form
    else form in
  save pk taller db.

(** ** talleres/models.py: occupancy of a workshop *)

(** [Participante]: the foreign key to its workshop is all the counting
    methods read. *)
Record Participante := {
  taller_id : Z;
  dni : string
}.

(** [self.participante_set.count()], lines 124-131. *)
Definition inscritos_count (participantes : gmap Z Participante) (pk : Z) : Z :=
  Z.of_nat (size (filter (λ kv, taller_id kv.2 = pk) participantes)).

(** [Taller.disponibilidad], lines 133-140. *)
Definition disponibilidad (participantes : gmap Z Participante) (pk : Z)
    (self : Taller) : Z :=
  Z.max 0 (capacidad self - inscritos_count participantes pk).

(** [Taller.esta_lleno], lines 142-149. *)
Definition esta_lleno (participantes : gmap Z Participante) (pk : Z)
    (self : Taller) : bool :=
  bool_decide (inscritos_count participantes pk >= capacidad self).

(** [Taller.porcentaje_ocupacion], lines 151-160. The quotient of two
    [int]s is a [float]; the float type and its two operations are
    parameters, and what [/] does on a zero divisor is written out. *)
Section Ocupacion.
Context {float : Type}.
Context (int_truediv : Z → Z → float) (float_mul_int : float → Z → float).

Inductive numero :=
  | PyInt (n : Z)
  | PyFloat (x : float).

(** [a / b] on [int]s *)
Definition truediv (a b : Z) : result float :=
  if bool_decide (b = 0) then Raise ZeroDivisionError
  else Ok (int_truediv a b).

Definition porcentaje_ocupacion (participantes : gmap Z Participante)
    (pk : Z) (self : Taller) : result numero :=
  if bool_decide (capacidad self ≤ 0) then Ok (PyInt 0)
  else
    match truediv (inscritos_count participantes pk) (capacidad self) with
    | Ok q => Ok (PyFloat (float_mul_int q 100))
    | Raise e => Raise e
    end.
End Ocupacion.

(** ** talleres/views.py: the first [buscar_beneficiarias], lines 397-436

    The body of the function, under [permiso_talleres_required]. The
    file defines the name again at line 1698 ([TalleresViews] below), and
    that second function is the one the route gets. *)

(** [beneficiaria.<atributo>] for a text attribute *)
Definition getattr (b : Beneficiarias.Beneficiaria) (atributo : string)
  : result string :=
  match Beneficiarias.columna atributo with
  | Some leer => Ok (leer b)
  | None => Raise (AttributeError atributo)
  end.

(** One entry of [results]; [hasattr(beneficiaria, 'email')] is false on
    this model, so [email] is the empty string. *)
Definition fila_resultado (fila : Z * Beneficiarias.Beneficiaria) : result dict :=
  let '(id, beneficiaria) := fila in
  match getattr beneficiaria "dni" with
  | Raise e => Raise e
  | Ok dni =>
      Ok ([ ("id", JInt id);
                  ("label", JStr (Beneficiarias.nombres beneficiaria +:+ " "
                                  +:+ Beneficiarias.apellidos beneficiaria
                                  +:+ " (DNI: " +:+ dni +:+ ")"));
                  ("value", JInt id);
                  ("nombres", JStr (Beneficiarias.nombres beneficiaria));
                  ("apellidos", JStr (Beneficiarias.apellidos beneficiaria));
                  ("dni", JStr dni);
                  ("telefono", JStr (Beneficiarias.telefono beneficiaria));
                  ("email", JStr "") ] : dict)
  end.

(** The [for] loop that fills [results]; the first exception ends it. *)
Fixpoint formatear (beneficiarias : list (Z * Beneficiarias.Beneficiaria))
  : result (list dict) :=
  match beneficiarias with
  | [] => Ok []
  | fila :: resto =>
      match fila_resultado fila with
      | Raise e => Raise e
      | Ok r =>
          match formatear resto with
          | Raise e => Raise e
          | Ok rs => Ok (r :: rs)
          end
      end
  end.

Definition buscar_beneficiarias (GET : gmap string string)
    (tabla : gmap Z Beneficiarias.Beneficiaria) : result respuesta :=
  let term := Beneficiarias.GET_get GET "term" "" in
  if bool_decide (term = "") || bool_decide (String.length term < 3)%nat
  then Ok (JsonResponse [])
  else
    match Beneficiarias.objects_filter
            (Beneficiarias.Q_or
               (Beneficiarias.Q_or (Beneficiarias.Q_icontains "nombres" term)
                                   (Beneficiarias.Q_icontains "apellidos" term))
               (Beneficiarias.Q_icontains "dni" term)) tabla with
    | Raise e => Raise e
    | Ok qs =>
        match formatear (take 10 qs) with
        | Raise e => Raise e
        | Ok results => Ok (JsonResponse results)
        end
    end.

(** ** What a recomputation leaves in one row

    [con_regla] rewrites the status of every row; [salvo_cancelado]
    leaves a cancelled row as it is. The loops above are proved to act
    row by row as one of the two. *)
Definition con_regla (regla : Taller → Estado) (t : Taller) : Taller :=
  set_estado (regla t) t.

Definition salvo_cancelado (regla : Taller → Estado) (t : Taller) : Taller :=
  if bool_decide (estado t ≠ CANCELADO) then set_estado (regla t) t else t.

End Talleres.

(** * App [finanzas] *)

Module Finanzas.

(** The fields of [Socio] and [PagoSocio] that the dues rules read. *)
Record Socio := {
  fecha_registro : Z
}.

Record PagoSocio := {
  socio_id : Z;
  fecha : Z;
  comprobante : string
}.

(** [QuerySet.first()] *)
Definition first {A} (qs : list A) : option A := head qs.

(** [self.pagos]: the payments whose foreign key is this member. *)
Definition pagos (tabla : gmap Z PagoSocio) (socio_pk : Z)
  : list (Z * PagoSocio) :=
  map_to_list (filter (λ kv, socio_id kv.2 = socio_pk) tabla).

(** [.order_by('-fecha')]: the later payment comes first. *)
Definition fecha_desc (a b : Z * PagoSocio) : Prop := fecha b.2 ≤ fecha a.2.

#[global] Instance fecha_desc_dec : RelDecision fecha_desc.
Proof. intros a b. unfold fecha_desc. apply _. Defined.

Definition order_by_fecha_desc (qs : list (Z * PagoSocio))
  : list (Z * PagoSocio) :=
  merge_sort fecha_desc qs.

(** [.order_by('-id')]: the larger primary key comes first. *)
Definition id_desc (a b : Z * PagoSocio) : Prop := b.1 ≤ a.1.

#[global] Instance id_desc_dec : RelDecision id_desc.
Proof. intros a b. unfold id_desc. apply _. Defined.

Definition order_by_id_desc (qs : list (Z * PagoSocio))
  : list (Z * PagoSocio) :=
  merge_sort id_desc qs.

(** [Socio.get_ultima_cuota], lines 80-83. *)
Definition get_ultima_cuota (tabla : gmap Z PagoSocio) (socio_pk : Z)
  : option Z :=
  let ultimo_pago := first (order_by_fecha_desc (pagos tabla socio_pk)) in
  match ultimo_pago with
  | Some ultimo_pago => Some (fecha ultimo_pago.2)
  | None => None
  end.

(** [Socio.esta_al_dia], lines 85-104. A [date] is always truthy, so
    [if ultimo_pago:] tests for [None]. *)
Definition esta_al_dia (hoy : Z) (tabla : gmap Z PagoSocio) (socio_pk : Z)
    (self : Socio) : bool :=
  match get_ultima_cuota tabla socio_pk with
  | Some ultimo_pago =>
      let dias_desde_ultimo_pago := hoy - ultimo_pago in
      bool_decide (dias_desde_ultimo_pago ≤ 40)
  | None =>
      let dias_desde_registro := hoy - fecha_registro self in
      bool_decide (dias_desde_registro ≤ 40)
  end.

(** [PagoSocio.get_next_comprobante], lines 136-158. *)
Definition get_next_comprobante (tabla : gmap Z PagoSocio) : string :=
  match first (order_by_id_desc (map_to_list tabla)) with
  | None => "1"
  | Some ultimo_pago =>
      if bool_decide (comprobante ultimo_pago.2 = "") then "1"
      else
        match Python.int (comprobante ultimo_pago.2) with
        | Ok ultimo_numero => Python.str (ultimo_numero + 1)
        | Raise _ => "1"
        end
  end.

(** ** Categories and the records that protect them *)

Inductive Tipo := INGRESO | EGRESO.

Record Categoria := {
  nombre : string;
  tipo : Tipo
}.

(** [Ingreso.categoria] and [Egreso.categoria] are
    [ForeignKey(Categoria, on_delete=models.PROTECT)]. *)
Record Ingreso := { ingreso_categoria_id : Z }.
Record Egreso := { egreso_categoria_id : Z }.

Record BD := {
  categorias : gmap Z Categoria;
  ingresos : gmap Z Ingreso;
  egresos : gmap Z Egreso
}.

(** Some income or expense row points at the category. *)
Definition referenciada (pk : Z) (bd : BD) : bool :=
  bool_decide (filter (λ kv, ingreso_categoria_id kv.2 = pk) (ingresos bd) ≠ ∅)
  || bool_decide (filter (λ kv, egreso_categoria_id kv.2 = pk) (egresos bd) ≠ ∅).

(** [Categoria.delete()]: the collector raises [ProtectedError] (an
    [IntegrityError]) before anything is removed. *)
Definition categoria_delete (pk : Z) (bd : BD) : result BD :=
  if referenciada pk bd
  then Raise (ProtectedError
    "Cannot delete some instances of model 'Categoria' because they are referenced through protected foreign keys")
  else Ok {| categorias := delete pk (categorias bd);
             ingresos := ingresos bd; egresos := egresos bd |}.

(** [DeleteView.delete]: fetch the object (or 404), delete it, redirect
    to [success_url]. *)
Definition super_delete (success_url : string) (pk : Z) (bd : BD)
  : result (BD * respuesta) :=
  match categorias bd !! pk with
  | None => Raise Http404
  | Some _ =>
      match categoria_delete pk bd with
      | Ok bd' => Ok (bd', HttpResponseRedirect success_url)
      | Raise e => Raise e
      end
  end.

(** [str(e)] *)
Definition str_excepcion (e : excepcion) : string :=
  match e with
  | ZeroDivisionError => "division by zero"
  | FieldError k => "Cannot resolve keyword '" +:+ k +:+ "' into field."
  | AttributeError a => "object has no attribute '" +:+ a +:+ "'"
  | ValueError => "invalid literal for int() with base 10"
  | ProtectedError d => d
  | Http404 => "No Categoría matches the given query."
  end.

(** [CategoriaDeleteView.delete], lines 81-88; [msgs] is the request's
    message storage. *)
Module CategoriaDeleteView.
Definition delete (pk : Z) (bd : BD) (msgs : list Message)
  : BD * list Message * respuesta :=
  match super_delete "categoria_list" pk bd with
  | Ok (bd', response) =>
      (bd',
       msgs ++ [ {| level := SUCCESS; text := "Categoría eliminada exitosamente" |} ],
       response)
  | Raise e =>
      (bd,
       msgs ++ [ {| level := ERROR;
                    text := "No se puede eliminar la categoría porque está siendo utilizada: "
                            +:+ str_excepcion e |} ],
       HttpResponseRedirect "categoria_list")
  end.

(** The handler the framework's [DeleteView] runs for a POST request is
    not code of this repository and depends on the Django release, which
    the sources do not fix. Before Django 4.0, [DeletionMixin.post] calls
    [self.delete(request, ...)], the method above. From Django 4.0 on,
    [BaseDeleteView.post] sets [self.object = self.get_object()] and, the
    empty confirmation form being valid, calls [self.form_valid(form)],
    which this class does not override; the [delete] above is then run
    only for a request of method DELETE. *)
Inductive django := Antes_de_4_0 | Desde_4_0.

(** [BaseDeleteView.form_valid] of Django 4.0 and later:
    [self.object.delete()], then the redirect to [success_url]. *)
Definition form_valid (pk : Z) (bd : BD) : result (BD * respuesta) :=
  match categoria_delete pk bd with
  | Ok bd' => Ok (bd', HttpResponseRedirect "categoria_list")
  | Raise e => Raise e
  end.

(** A POST to [categorias/<pk>/eliminar/] (finanzas/urls.py, line 16) by
    a user [FinanzasRequiredMixin] lets through. *)
Definition post (version : django) (pk : Z) (bd : BD) (msgs : list Message)
  : result (BD * list Message * respuesta) :=
  match version with
  | Antes_de_4_0 => Ok (delete pk bd msgs)
  | Desde_4_0 =>
      match categorias bd !! pk with
      | None => Raise Http404
      | Some _ =>
          match form_valid pk bd with
          | Ok (bd', response) => Ok (bd', msgs, response)
          | Raise e => Raise e
          end
      end
  end.
End CategoriaDeleteView.

End Finanzas.

(** * App [reportes] *)

Module Reportes.

Section Exportar.
(** The template context is a [dict] the stubs never look at. *)
Context {Contexto : Type}.

(** [generar_pdf], reportes/views.py lines 378-384. *)
Definition generar_pdf (template_path : string) (context : Contexto)
  : respuesta :=
  HttpResponse
    "Funcionalidad de PDF temporalmente deshabilitada por falta de dependencias del sistema"
    "text/plain".

(** [exportar_balance_financiero_excel], lines 414-420: the statements
    after the [return] are dead code. *)
Definition exportar_balance_financiero_excel (context : Contexto)
  : respuesta :=
  HttpResponse
    "Funcionalidad de Excel temporalmente deshabilitada por falta de dependencias del sistema"
    "text/plain".
End Exportar.

End Reportes.

(** * More of [talleres/views.py]: what the detail and list pages show *)

Module TallerDetailView.

(** [date.weekday()]: 0 is Monday, 6 is Sunday; day number 1 is a Monday. *)
Definition weekday (d : Z) : Z := (d + 6) `mod` 7.

(** [date.max.toordinal()]: 31 December 9999, the last day a [date]
    can hold. *)
Definition date_max : Z := 3652059.

(** What building the page can raise: an exception of the model layer,
    or the [OverflowError] of [date + timedelta] past [date.max]. *)
Inductive error :=
  | Excepcion (e : excepcion)
  | OverflowError.

Definition resultado (A : Type) : Type := A + error.

(** The [while fecha_actual <= taller.fecha_fin] loop of lines 236-241;
    [fecha_actual += datetime.timedelta(days=1)] raises when the next day
    does not exist. *)
Equations? fechas_bucle (fecha_actual fecha_fin : Z) (fechas_taller : list Z)
  : resultado (list Z) by wf (Z.to_nat (fecha_fin - fecha_actual + 1)) lt :=
fechas_bucle fecha_actual fecha_fin fechas_taller
  with decide (fecha_actual ≤ fecha_fin) := {
  | left _ =>
      let fechas_taller :=
        if bool_decide (weekday fecha_actual < 5)
        then fechas_taller ++ [fecha_actual]
        else fechas_taller in
      if bool_decide (date_max < fecha_actual + 1) then inr OverflowError
      else fechas_bucle (fecha_actual + 1) fecha_fin fechas_taller
  | right _ => inl fechas_taller }.
Proof. lia. Qed.

(** [Material]: the columns the page reads. *)
Record Material := {
  material_taller_id : Z;
  fecha_creacion : Z
}.

(** [.order_by('-fecha_creacion')] *)
Definition creacion_desc (a b : Z * Material) : Prop :=
  fecha_creacion b.2 ≤ fecha_creacion a.2.

#[global] Instance creacion_desc_dec : RelDecision creacion_desc.
Proof. intros a b. unfold creacion_desc. apply _. Defined.

Section Contexto.
Context {float : Type}.
Context (int_truediv : Z → Z → float) (float_mul_int : float → Z → float).

(** The entries [get_context_data] adds to the template context. *)
Record context := {
  participantes : list (Z * Talleres.Participante);
  total_participantes : Z;
  disponibilidad : Z;
  porcentaje_ocupacion : Talleres.numero (float := float);
  materiales : list (Z * Material);
  total_sesiones : Z;
  es_taller_actual : bool;
  es_taller_pasado : bool;
  es_taller_futuro : bool;
  fechas_taller : list Z
}.

(** [TallerDetailView.get_context_data], lines 203-245; [taller] is
    [self.object], the row [pk] as [get_object] returned it. *)
Definition get_context_data (hoy : Z) (pk : Z) (taller : Talleres.Taller)
    (tabla_participantes : gmap Z Talleres.Participante)
    (tabla_materiales : gmap Z Material) : resultado context :=
  let inscritos :=
    filter (λ kv, Talleres.taller_id kv.2 = pk) tabla_participantes in
  match Talleres.porcentaje_ocupacion int_truediv float_mul_int
          tabla_participantes pk taller,
        fechas_bucle (Talleres.fecha_inicio taller) (Talleres.fecha_fin taller) []
  with
  | Raise e, _ => inr (Excepcion e)
  | Ok _, inr e => inr e
  | Ok porcentaje, inl fechas =>
      inl {| participantes := map_to_list inscritos;
            total_participantes := Z.of_nat (size inscritos);
            disponibilidad := Talleres.disponibilidad tabla_participantes pk taller;
            porcentaje_ocupacion := porcentaje;
            materiales :=
              merge_sort creacion_desc
                (map_to_list (filter (λ kv, material_taller_id kv.2 = pk)
                                tabla_materiales));
            total_sesiones :=
              (Talleres.fecha_fin taller - Talleres.fecha_inicio taller) + 1;
            es_taller_actual :=
              bool_decide (Talleres.fecha_inicio taller ≤ hoy)
              && bool_decide (hoy ≤ Talleres.fecha_fin taller);
            es_taller_pasado := bool_decide (Talleres.fecha_fin taller < hoy);
            es_taller_futuro := bool_decide (Talleres.fecha_inicio taller > hoy);
            fechas_taller := fechas |}
  end.
End Contexto.

End TallerDetailView.

Module TallerListView.

(** The entries [get_context_data] adds, lines 101-124. *)
Record context := {
  total_talleres : Z;
  talleres_activos : Z;
  talleres_proximos : Z;
  talleres_finalizados : Z;
  current_filters : string
}.

(** [Taller.objects.filter(...).count()] *)
Definition count (P : Talleres.Taller → Prop) `{!∀ t, Decision (P t)}
    (db : gmap Z Talleres.Taller) : Z :=
  Z.of_nat (size (filter (λ kv, P kv.2) db)).

(** [GET] is the query string as the pairs [request.GET.items()] yields. *)
Definition get_context_data (hoy : Z) (GET : list (string * string))
    (db : gmap Z Talleres.Taller) : context :=
  {| total_talleres := Z.of_nat (size db);
     talleres_activos :=
       count (λ t, Talleres.fecha_inicio t ≤ hoy ∧ Talleres.fecha_fin t >= hoy) db;
     talleres_proximos := count (λ t, Talleres.fecha_inicio t > hoy) db;
     talleres_finalizados := count (λ t, Talleres.fecha_fin t < hoy) db;
     current_filters :=
       String.concat "&"
         ((λ kv, kv.1 +:+ "=" +:+ kv.2) <$>
            filter (λ kv, kv.1 ≠ "page") GET) |}.

End TallerListView.

(** * [talleres/forms.py]: the validation of the forms *)

(** [self.add_error(field, ValidationError(message))] *)
Definition form_error := (string * string)%type.

Module TallerForm.

(** [cleaned_data]: a field that failed its own validation is absent. *)
Record cleaned_data := {
  nombre : option string;
  fecha_inicio : option Z;
  fecha_fin : option Z;
  capacidad : option Z;
  estado : option Talleres.Estado
}.

(** [TallerForm.clean], lines 59-88. A date is truthy; an [int] is
    truthy unless it is 0. *)
Definition clean (cd : cleaned_data) : list form_error :=
  let errores_fecha :=
    match fecha_inicio cd, fecha_fin cd with
    | Some inicio, Some fin =>
        if bool_decide (fin < inicio)
        then [ ("fecha_fin",
                "La fecha de finalización debe ser posterior a la fecha de inicio.") ]
        else []
    | _, _ => []
    end in
  let errores_capacidad :=
    match capacidad cd with
    | Some c =>
        if bool_decide (c ≠ 0) && bool_decide (c ≤ 0)
        then [ ("capacidad", "La capacidad debe ser un número positivo.") ]
        else []
    | None => []
    end in
  errores_fecha ++ errores_capacidad.

(** The instance a valid form saves: every field from [cleaned_data]. *)
Definition instance (cd : cleaned_data) : option Talleres.Taller :=
  match nombre cd, fecha_inicio cd, fecha_fin cd, capacidad cd, estado cd with
  | Some n, Some inicio, Some fin, Some c, Some e =>
      Some {| Talleres.nombre := n; Talleres.fecha_inicio := inicio;
              Talleres.fecha_fin := fin; Talleres.capacidad := c;
              Talleres.estado := e |}
  | _, _, _, _, _ => None
  end.

End TallerForm.

Module AsistenciaForm.

(** [cleaned_data]: [participante] is the chosen participant together
    with [participante.taller], the workshop its foreign key loads. *)
Record cleaned_data := {
  participante : option (Talleres.Participante * Talleres.Taller);
  fecha : option Z
}.

(** [AsistenciaForm.clean], lines 248-271. *)
Definition clean (cd : cleaned_data) : list form_error :=
  match participante cd, fecha cd with
  | Some (_, taller), Some fecha =>
      if bool_decide (fecha < Talleres.fecha_inicio taller)
         || bool_decide (fecha > Talleres.fecha_fin taller)
      then [ ("fecha",
              "La fecha de asistencia debe estar dentro del período del taller.") ]
      else []
  | _, _ => []
  end.

End AsistenciaForm.

(** * App [usuarios]: who reaches a view *)

Module Usuarios.

(** The fields of [usuarios.models.Usuario] that the access rules read. *)
Record Usuario := {
  role : string;
  permiso_beneficiarias : bool;
  permiso_finanzas : bool;
  permiso_talleres : bool;
  permiso_reportes : bool
}.

Definition ADMINISTRADOR : string := "administrador".
Definition EMPLEADO : string := "empleado".

(** usuarios/models.py, lines 52-104 *)
Definition is_admin (self : Usuario) : bool :=
  bool_decide (role self = ADMINISTRADOR).

Definition is_empleado (self : Usuario) : bool :=
  bool_decide (role self = EMPLEADO).

Definition can_access_beneficiarias (self : Usuario) : bool :=
  is_admin self || permiso_beneficiarias self.

Definition can_access_finanzas (self : Usuario) : bool :=
  is_admin self || permiso_finanzas self.

Definition can_access_talleres (self : Usuario) : bool :=
  is_admin self || permiso_talleres self.

Definition can_access_reportes (self : Usuario) : bool :=
  is_admin self || permiso_reportes self.

(** [request.user]: a [Usuario], or Django's [AnonymousUser], which has
    [is_authenticated] and none of the methods above. *)
Inductive user :=
  | AnonymousUser
  | Autenticado (u : Usuario).

Definition is_authenticated (u : user) : bool :=
  match u with
  | AnonymousUser => false
  | Autenticado _ => true
  end.

(** [request.user.<metodo>()] *)
Definition llamar (metodo : string) (f : Usuario → bool) (u : user)
  : result bool :=
  match u with
  | AnonymousUser => Raise (AttributeError metodo)
  | Autenticado x => Ok (f x)
  end.

(** [a and b()]: [b] is not evaluated when [a] is false. *)
Definition y_luego (a : bool) (b : result bool) : result bool :=
  if a then b else Ok false.

(** A view as the decorators see it: it may add messages to the request
    and answers or raises. *)
Definition vista : Type := list Message → result (respuesta * list Message).

(** usuarios/decorators.py, lines 48-106: the four function decorators. *)
Definition permiso_beneficiarias_required (u : user) (function : vista) : vista :=
  λ msgs,
    match y_luego (is_authenticated u)
            (llamar "can_access_beneficiarias" can_access_beneficiarias u) with
    | Raise e => Raise e
    | Ok true => function msgs
    | Ok false =>
        let msgs := msgs ++ [ {| level := ERROR;
          text := "No tienes permiso para acceder al módulo de beneficiarias." |} ] in
        if is_authenticated u then Ok (HttpResponseRedirect "dashboard", msgs)
        else Ok (HttpResponseRedirect "login", msgs)
    end.

Definition permiso_finanzas_required (u : user) (function : vista) : vista :=
  λ msgs,
    match y_luego (is_authenticated u)
            (llamar "can_access_finanzas" can_access_finanzas u) with
    | Raise e => Raise e
    | Ok true => function msgs
    | Ok false =>
        let msgs := msgs ++ [ {| level := ERROR;
          text := "No tienes permiso para acceder al módulo de finanzas." |} ] in
        if is_authenticated u then Ok (HttpResponseRedirect "dashboard", msgs)
        else Ok (HttpResponseRedirect "login", msgs)
    end.

Definition permiso_talleres_required (u : user) (function : vista) : vista :=
  λ msgs,
    match y_luego (is_authenticated u)
            (llamar "can_access_talleres" can_access_talleres u) with
    | Raise e => Raise e
    | Ok true => function msgs
    | Ok false =>
        let msgs := msgs ++ [ {| level := ERROR;
          text := "No tienes permiso para acceder al módulo de talleres." |} ] in
        if is_authenticated u then Ok (HttpResponseRedirect "dashboard", msgs)
        else Ok (HttpResponseRedirect "login", msgs)
    end.

Definition permiso_reportes_required (u : user) (function : vista) : vista :=
  λ msgs,
    match y_luego (is_authenticated u)
            (llamar "can_access_reportes" can_access_reportes u) with
    | Raise e => Raise e
    | Ok true => function msgs
    | Ok false =>
        let msgs := msgs ++ [ {| level := ERROR;
          text := "No tienes permiso para acceder a los reportes." |} ] in
        if is_authenticated u then Ok (HttpResponseRedirect "dashboard", msgs)
        else Ok (HttpResponseRedirect "login", msgs)
    end.

(** [TalleresRequiredMixin], lines 135-146: [test_func] and
    [handle_no_permission]. *)
Module TalleresRequiredMixin.
Definition test_func (u : user) : result bool :=
  y_luego (is_authenticated u)
    (llamar "can_access_talleres" can_access_talleres u).

Definition handle_no_permission (msgs : list Message)
  : result (respuesta * list Message) :=
  Ok (HttpResponseRedirect "dashboard",
      msgs ++ [ {| level := ERROR;
        text := "No tienes permiso para acceder al módulo de talleres." |} ]).

(** [dispatch] as the two Django mixins the class inherits from run it:
    [LoginRequiredMixin] refuses a user who is not authenticated, then
    [UserPassesTestMixin] refuses one who fails [test_func]; both refuse
    through [handle_no_permission]. *)
Definition dispatch (u : user) (view : vista) : vista :=
  λ msgs,
    if negb (is_authenticated u) then handle_no_permission msgs
    else
      match test_func u with
      | Raise e => Raise e
      | Ok true => view msgs
      | Ok false => handle_no_permission msgs
      end.
End TalleresRequiredMixin.

(** Django's [login_required]: an anonymous request is redirected to the
    login URL of the settings. *)
Definition login_required (login_url : string) (u : user) (function : vista)
  : vista :=
  λ msgs,
    if is_authenticated u then function msgs
    else Ok (HttpResponseRedirect login_url, msgs).

(** talleres/views.py, lines 396-436: the first function the file defines
    under the name [buscar_beneficiarias], with its decorator. *)
Definition buscar_beneficiarias (u : user) (GET : gmap string string)
    (tabla : gmap Z Beneficiarias.Beneficiaria) : vista :=
  permiso_talleres_required u
    (λ msgs,
       match Talleres.buscar_beneficiarias GET tabla with
       | Ok r => Ok (r, msgs)
       | Raise e => Raise e
       end).

(** reportes/views.py, lines 75-78: the three decorators stacked on
    [reporte_balance_financiero]; [cuerpo] is the function under them. *)
Definition reporte_balance_financiero (login_url : string) (u : user)
    (cuerpo : vista) : vista :=
  login_required login_url u
    (permiso_reportes_required u (permiso_finanzas_required u cuerpo)).

End Usuarios.

(** * The two [buscar_beneficiarias] of [talleres/views.py] *)

Module TalleresViews.
Import Beneficiarias.

(** One entry of [data] in the second [buscar_beneficiarias], lines
    1722-1729; [hasattr(b, 'correo')] holds for every row. *)
Definition fila_data (fila : Z * Beneficiaria) : dict :=
  let '(id, b) := fila in
  [ ("id", JInt id);
    ("nombres", JStr (nombres b));
    ("apellidos", JStr (apellidos b));
    ("dni", JStr (documento_identidad b));
    ("telefono", JStr (telefono b));
    ("email", JStr (correo b)) ].

(** The function under the decorator, lines 1699-1732. *)
Definition buscar_beneficiarias_function (GET : gmap string string)
    (tabla : gmap Z Beneficiaria) : result respuesta :=
  let term := GET_get GET "term" "" in
  if bool_decide (String.length term < 3)%nat then Ok (JsonResponse [])
  else
    match objects_filter
            (Q_or (Q_or (Q_icontains "nombres" term)
                        (Q_icontains "apellidos" term))
                  (Q_icontains "documento_identidad" term)) tabla with
    | Raise e => Raise e
    | Ok qs =>
        let beneficiarias := take 10 qs in
        Ok (JsonResponse (fila_data <$> beneficiarias))
    end.

(** talleres/views.py, lines 1698-1732: the second function the file
    defines under the name [buscar_beneficiarias], with its decorator. *)
Definition buscar_beneficiarias (u : Usuarios.user) (GET : gmap string string)
    (tabla : gmap Z Beneficiaria) : Usuarios.vista :=
  Usuarios.permiso_talleres_required u
    (λ msgs,
       match buscar_beneficiarias_function GET tabla with
       | Ok r => Ok (r, msgs)
       | Raise e => Raise e
       end).

Definition view : Type :=
  Usuarios.user → gmap string string → gmap Z Beneficiaria → Usuarios.vista.

(** Importing the module runs its statements in order, and each [def]
    binds its name in the namespace of the module, in place of what the
    name was bound to. These are the two [def buscar_beneficiarias], in
    the order of the file. *)
Definition sentencias : list (string * view) :=
  [ ("buscar_beneficiarias", Usuarios.buscar_beneficiarias);
    ("buscar_beneficiarias", buscar_beneficiarias) ].

Definition importar (sentencias : list (string * view)) : gmap string view :=
  foldl (λ namespace sentencia, <[sentencia.1 := sentencia.2]> namespace)
    ∅ sentencias.

(** talleres/urls.py, line 41: the route [buscar-beneficiarias/] is given
    [views.buscar_beneficiarias]. *)
Definition url_buscar_beneficiarias : option view :=
  importar sentencias !! "buscar_beneficiarias".

End TalleresViews.

(** * [finanzas/templatetags/finanzas_filters.py] *)

Module FinanzasFilters.

(** A filter argument comes from the template as a number or as text. *)
Inductive arg :=
  | ArgInt (n : Z)
  | ArgStr (s : string).

(** [int(x)] *)
Definition int (x : arg) : result Z :=
  match x with
  | ArgInt n => Ok n
  | ArgStr s => Python.int s
  end.

(** [str(x)] *)
Definition str (x : arg) : string :=
  match x with
  | ArgInt n => Python.str n
  | ArgStr s => s
  end.

(** [l[i]] on a list: a negative index counts from the end; [None] is
    [IndexError]. *)
Definition getitem {A} (l : list A) (i : Z) : option A :=
  if bool_decide (0 ≤ i) then l !! Z.to_nat i
  else if bool_decide (- Z.of_nat (length l) ≤ i)
       then l !! Z.to_nat (Z.of_nat (length l) + i)
  else None.

(** [get_item], lines 67-82; the result [None] is Python's [None]. *)
Definition get_item {A} (list_obj : list A) (index : arg) : option A :=
  match int index with
  | Ok i => getitem list_obj i
  | Raise _ => None
  end.

Definition nombres_meses : list string :=
  [ "Enero"; "Febrero"; "Marzo"; "Abril"; "Mayo"; "Junio";
    "Julio"; "Agosto"; "Septiembre"; "Octubre"; "Noviembre"; "Diciembre" ].

(** [nombre_mes], lines 159-183. *)
Definition nombre_mes (numero_mes : arg) : string :=
  let mes :=
    match numero_mes with
    | ArgStr s => Python.int s
    | ArgInt n => Ok n
    end in
  match mes with
  | Raise _ => str numero_mes
  | Ok mes =>
      match getitem nombres_meses (mes - 1) with
      | Some nombre => nombre
      | None => str numero_mes
      end
  end.

End FinanzasFilters.

(** * [beneficiarias/views.py]: the detail endpoint *)

Module BeneficiariasDetalle.

(** [JsonResponse(data, status=...)] with a [dict] as data. *)
Record JsonResponse := {
  data : dict;
  status : Z
}.

(** [detalle_beneficiaria_api], lines 189-206. *)
Definition detalle_beneficiaria_api (pk : Z)
    (tabla : gmap Z Beneficiarias.Beneficiaria) : JsonResponse :=
  match tabla !! pk with
  | Some beneficiaria =>
      {| data := [ ("id", JInt pk);
                   ("nombres", JStr (Beneficiarias.nombres beneficiaria));
                   ("apellidos", JStr (Beneficiarias.apellidos beneficiaria));
                   ("dni", JStr (Beneficiarias.documento_identidad beneficiaria));
                   ("telefono", JStr (Beneficiarias.telefono beneficiaria));
                   ("correo", JStr (Beneficiarias.correo beneficiaria)) ];
         status := 200 |}
  | None =>
      {| data := [ ("error", JStr "Beneficiaria no encontrada") ];
         status := 404 |}
  end.

End BeneficiariasDetalle.

(** * Validation of a participant: model and form *)

Module ParticipanteValidacion.

(** The nullable fields of [Participante] that the two [clean] methods
    read; [None] is a missing value, as the empty string is. *)
Record datos := {
  beneficiaria : option Z;
  nombres : option string;
  apellidos : option string;
  dni : option string
}.

(** [not x] for an optional text *)
Definition falta (x : option string) : bool :=
  match x with
  | None => true
  | Some s => bool_decide (s = "")
  end.

(** [Participante.clean], talleres/models.py lines 300-320: the
    [ValidationError] raised, if any, as (field, message). *)
Definition clean (self : datos) : option form_error :=
  match beneficiaria self with
  | Some _ => None
  | None =>
      if falta (nombres self)
      then Some ("nombres",
                 "Este campo es obligatorio si no se selecciona una beneficiaria")
      else if falta (apellidos self)
      then Some ("apellidos",
                 "Este campo es obligatorio si no se selecciona una beneficiaria")
      else if falta (dni self)
      then Some ("dni",
                 "Este campo es obligatorio si no se selecciona una beneficiaria")
      else None
  end.

(** [ParticipanteForm.clean], talleres/forms.py lines 179-203. *)
Definition form_clean (cleaned_data : datos) : list form_error :=
  (if falta (nombres cleaned_data)
   then [ ("nombres", "Este campo es obligatorio.") ] else [])
  ++ (if falta (apellidos cleaned_data)
      then [ ("apellidos", "Este campo es obligatorio.") ] else [])
  ++ (if falta (dni cleaned_data)
      then [ ("dni", "Este campo es obligatorio.") ] else []).

End ParticipanteValidacion.

(** * Text without blanks *)

Module Cadenas.

(** No character of the text is one that [int()] strips. *)
Fixpoint sin_espacios (s : string) : bool :=
  match s with
  | EmptyString => true
  | String c resto => negb (Python.es_espacio c) && sin_espacios resto
  end.

End Cadenas.

(** * [finanzas]: registering and editing a payment *)

#[global] Instance Tipo_eq_dec : EqDecision Finanzas.Tipo.
Proof. solve_decision. Defined.

(** The primary key the database gives a new row. A sequence gives a
    key above every key in use; the model takes the least such key, and
    what is proved of a new row uses only that its key is above the keys
    in use. *)
Definition siguiente_pk {A} (tabla : gmap Z A) : Z :=
  1 + foldr Z.max 0 (map_to_list tabla).*1.

Module PagoSocioForm.

(** [OPCIONES_MESES], finanzas/forms.py lines 91-104. *)
Definition OPCIONES_MESES : list (string * string) :=
  [ ("1", "Enero"); ("2", "Febrero"); ("3", "Marzo"); ("4", "Abril");
    ("5", "Mayo"); ("6", "Junio"); ("7", "Julio"); ("8", "Agosto");
    ("9", "Septiembre"); ("10", "Octubre"); ("11", "Noviembre");
    ("12", "Diciembre") ].

(** [dict(pares).get(clave)]; the keys of the lists it is used on are
    distinct. *)
Definition dict_get (pares : list (string * string)) (clave : string)
  : option string :=
  (list_to_map pares : gmap string string) !! clave.

(** [f"{x}"] for an optional text: [None] prints as the word None. *)
Definition formato (x : option string) : string :=
  match x with
  | Some s => s
  | None => "None"
  end.

(** A bound, valid form: the reference of [form.instance] in the object
    store and the cleaned values that are not model fields. *)
Record form := {
  instance : nat;
  periodo_mes : string;
  periodo_anio : string;
  registrar_ingreso : bool
}.

(** What a request works on: the Python objects it holds, by reference,
    and the database tables and the message storage it writes to. *)
Record estado := {
  objetos : gmap nat Finanzas.PagoSocio;
  pagos : gmap Z Finanzas.PagoSocio;
  bd : Finanzas.BD;
  msgs : list Message
}.

(** An exception that nothing in the view catches. *)
Inductive error :=
  | MultipleObjectsReturned
  | ObjetoPerdido.

(** [Categoria.objects.get(nombre='Cuota de Socio', tipo='INGRESO')],
    with [Categoria.objects.create(...)] when it does not exist. *)
Definition categoria_cuota (cs : gmap Z Finanzas.Categoria)
  : (gmap Z Finanzas.Categoria * Z) + error :=
  match map_to_list
          (filter (λ kv, Finanzas.nombre kv.2 = "Cuota de Socio"
                         ∧ Finanzas.tipo kv.2 = Finanzas.INGRESO) cs) with
  | [] =>
      let pk := siguiente_pk cs in
      inl (<[pk := {| Finanzas.nombre := "Cuota de Socio";
                      Finanzas.tipo := Finanzas.INGRESO |}]> cs, pk)
  | [ (pk, _) ] => inl (cs, pk)
  | _ => inr MultipleObjectsReturned
  end.

(** [PagoSocioForm.save(commit=True)], lines 200-236: [pk] is the row
    the instance already has, if any. The answer is the state after,
    the primary key of the saved payment and the exception raised on
    the way, if any. *)
Definition save (self : form) (pk : option Z) (st : estado)
  : estado * Z * option error :=
  match objetos st !! instance self with
  | None => (st, 0, Some ObjetoPerdido)
  | Some pago =>
      let pk := match pk with Some k => k | None => siguiente_pk (pagos st) end in
      let st := {| objetos := objetos st; pagos := <[pk := pago]> (pagos st);
                   bd := bd st; msgs := msgs st |} in
      if registrar_ingreso self then
        match categoria_cuota (Finanzas.categorias (bd st)) with
        | inr e => (st, pk, Some e)
        | inl (cs, categoria) =>
            let ingresos := Finanzas.ingresos (bd st) in
            let bd' :=
              {| Finanzas.categorias := cs;
                 Finanzas.ingresos :=
                   <[siguiente_pk ingresos :=
                       {| Finanzas.ingreso_categoria_id := categoria |}]> ingresos;
                 Finanzas.egresos := Finanzas.egresos (bd st) |} in
            ({| objetos := objetos st; pagos := pagos st; bd := bd';
                msgs := msgs st |}, pk, None)
        end
      else (st, pk, None)
  end.

End PagoSocioForm.

(** What a payment view answers with. *)
Inductive salida_pago :=
  | RedirectSocioDetail (pk : Z)
  | Error500 (e : PagoSocioForm.error).

(** [pago.comprobante = c] on the object behind a reference *)
Definition set_comprobante (c : string) (p : Finanzas.PagoSocio)
  : Finanzas.PagoSocio :=
  {| Finanzas.socio_id := Finanzas.socio_id p; Finanzas.fecha := Finanzas.fecha p;
     Finanzas.comprobante := c |}.

Module PagoSocioCreateView.
Import PagoSocioForm.

(** [PagoSocioCreateView.form_valid], finanzas/views.py lines 300-313. *)
Definition form_valid (form : PagoSocioForm.form) (st : estado)
  : estado * salida_pago :=
  match objetos st !! instance form with
  | None => (st, Error500 ObjetoPerdido)
  | Some pago =>
      let pago :=
        if bool_decide (Finanzas.comprobante pago = "")
        then set_comprobante (Finanzas.get_next_comprobante (pagos st)) pago
        else pago in
      let mes_nombre := dict_get OPCIONES_MESES (periodo_mes form) in
      let anio := periodo_anio form in
      let st :=
        {| objetos := <[instance form := pago]> (objetos st);
           pagos := pagos st; bd := bd st;
           msgs := msgs st ++
             [ {| level := SUCCESS;
                  text := "Pago por el mes de " +:+ formato mes_nombre +:+ " "
                          +:+ anio
                          +:+ " registrado exitosamente con comprobante N° "
                          +:+ Finanzas.comprobante pago |} ] |} in
      match save form None st with
      | (st, _, Some e) => (st, Error500 e)
      | (st, _, None) => (st, RedirectSocioDetail (Finanzas.socio_id pago))
      end
  end.

(** The request as the generic view runs it: the form's instance is a new
    object holding the cleaned values, then [form_valid]. *)
Definition post (cleaned : Finanzas.PagoSocio) (periodo_mes periodo_anio : string)
    (registrar_ingreso : bool) (pagos : gmap Z Finanzas.PagoSocio)
    (bd : Finanzas.BD) (msgs : list Message) : estado * salida_pago :=
  form_valid
    {| instance := 0%nat; PagoSocioForm.periodo_mes := periodo_mes;
       PagoSocioForm.periodo_anio := periodo_anio;
       PagoSocioForm.registrar_ingreso := registrar_ingreso |}
    {| objetos := {[ 0%nat := cleaned ]}; PagoSocioForm.pagos := pagos;
       PagoSocioForm.bd := bd; PagoSocioForm.msgs := msgs |}.

End PagoSocioCreateView.

Module PagoSocioUpdateView.
Import PagoSocioForm.

(** [PagoSocioUpdateView.form_valid], lines 332-344: [self_object] is
    the reference held in [self.object], [pk] its primary key. *)
Definition form_valid (self_object : nat) (pk : Z) (form : PagoSocioForm.form)
    (st : estado) : estado * salida_pago :=
  match objetos st !! self_object with
  | None => (st, Error500 ObjetoPerdido)
  | Some objeto =>
      let objetos :=
        if bool_decide (Finanzas.comprobante objeto ≠ "")
        then alter (set_comprobante (Finanzas.comprobante objeto))
               (instance form) (objetos st)
        else objetos st in
      let mes_nombre := dict_get OPCIONES_MESES (periodo_mes form) in
      let anio := periodo_anio form in
      let st :=
        {| PagoSocioForm.objetos := objetos; pagos := pagos st; bd := bd st;
           msgs := msgs st ++
             [ {| level := SUCCESS;
                  text := "Pago por el mes de " +:+ formato mes_nombre +:+ " "
                          +:+ anio +:+ " actualizado exitosamente" |} ] |} in
      match save form (Some pk) st, PagoSocioForm.objetos st !! instance form with
      | (st, _, Some e), _ => (st, Error500 e)
      | (st, _, None), Some pago => (st, RedirectSocioDetail (Finanzas.socio_id pago))
      | (st, _, None), None => (st, Error500 ObjetoPerdido)
      end
  end.

(** The request as the generic update view runs it: [get_object] loads
    the row into a new object and keeps the reference in [self.object];
    the form is built with [instance=self.object], the same reference;
    validation copies the cleaned values into that object; then
    [form_valid]. A missing row is a 404. *)
Definition post (pk : Z) (cleaned : Finanzas.PagoSocio)
    (periodo_mes periodo_anio : string) (registrar_ingreso : bool)
    (pagos : gmap Z Finanzas.PagoSocio) (bd : Finanzas.BD)
    (msgs : list Message) : result (estado * salida_pago) :=
  match pagos !! pk with
  | None => Raise Http404
  | Some fila =>
      let self_object := 0%nat in
      let objetos : gmap nat Finanzas.PagoSocio := {[ self_object := fila ]} in
      let form :=
        {| instance := self_object; PagoSocioForm.periodo_mes := periodo_mes;
           PagoSocioForm.periodo_anio := periodo_anio;
           PagoSocioForm.registrar_ingreso := registrar_ingreso |} in
      let objetos := <[instance form := cleaned]> objetos in
      Ok (form_valid self_object pk form
            {| PagoSocioForm.objetos := objetos; PagoSocioForm.pagos := pagos;
               PagoSocioForm.bd := bd; PagoSocioForm.msgs := msgs |})
  end.

End PagoSocioUpdateView.

(** * The Python built-ins on sample inputs *)

Section PythonEjemplos.
Import Python.

Example int_espacios : int " 12 " = Ok 12.
Proof. reflexivity. Qed.

Example int_negativo : int "-5" = Ok (-5).
Proof. reflexivity. Qed.

Example int_guion_bajo : int "1_000" = Ok 1000.
Proof. reflexivity. Qed.

Example int_rechaza :
  int "1__0" = Raise ValueError ∧ int "_1" = Raise ValueError ∧
  int "1_" = Raise ValueError ∧ int "B-001" = Raise ValueError ∧
  int "" = Raise ValueError ∧ int "- 1" = Raise ValueError ∧
  int "12a" = Raise ValueError.
Proof. repeat split; reflexivity. Qed.

Example str_ejemplos : str (-4) = "-4" ∧ str 0 = "0" ∧ str 120 = "120".
Proof. repeat split; reflexivity. Qed.

Example icontains_ejemplos :
  icontains "Maria Lopez" "LOP" = true ∧
  icontains "Maria Lopez" "lpz" = false ∧
  icontains "45678912" "789" = true.
Proof. repeat split; reflexivity. Qed.

End PythonEjemplos.

(** * Properties of the workshop status recomputation *)

Section TalleresFilas.
Import Talleres.

Lemma set_estado_id (t : Taller) : set_estado (estado t) t = t.
Proof. by destruct t. Qed.

Lemma estado_set_estado (e : Estado) (t : Taller) : estado (set_estado e t) = e.
Proof. done. Qed.

(** A loop whose body rewrites only the row it was handed acts on the
    table row by row. *)
Lemma foldl_filas (f : Taller → Taller)
    (paso : gmap Z Taller → Z * Taller → gmap Z Taller) :
  (∀ db pk t k, db !! pk = Some t →
     paso db (pk, t) !! k = if decide (k = pk) then Some (f t) else db !! k) →
  ∀ (l : list (Z * Taller)) (db : gmap Z Taller),
    NoDup l.*1 →
    (∀ pk t, (pk, t) ∈ l → db !! pk = Some t) →
    ∀ k, foldl paso db l !! k
         = if decide (k ∈ l.*1) then f <$> db !! k else db !! k.
Proof.
  intros Hpaso l. induction l as [|[pk t] l IH]; intros db Hnd Hin k.
  - rewrite fmap_nil. cbn [foldl].
    case_decide as Hk; [by apply elem_of_nil in Hk | done].
  - rewrite fmap_cons in *. cbn [foldl fst] in *.
    apply NoDup_cons in Hnd as [Hpk Hnd].
    assert (db !! pk = Some t) as Hrow by (apply Hin; left).
    rewrite IH; [| done |].
    + rewrite Hpaso by done.
      destruct (decide (k = pk)) as [->|Hne].
      * rewrite decide_False by done.
        rewrite decide_True by left. by rewrite Hrow.
      * destruct (decide (k ∈ l.*1)) as [Hk|Hk].
        -- by rewrite decide_True by (by right).
        -- rewrite decide_False; [done|].
           intros [?|?]%elem_of_cons; done.
    + intros pk' t' Hin'. rewrite Hpaso by done.
      rewrite decide_False; [apply Hin; by right|].
      intros ->. apply Hpk. apply list_elem_of_fmap. by exists (pk, t').
Qed.

(** The counters a command keeps do not influence the table. *)
Lemma foldl_fst {A B C} (paso : A * C → B → A * C) (g : A → B → A) :
  (∀ a c x, (paso (a, c) x).1 = g a x) →
  ∀ l a c, (foldl paso (a, c) l).1 = foldl g a l.
Proof.
  intros Hpaso l. induction l as [|x l IH]; intros a c; simpl; [done|].
  specialize (Hpaso a c x).
  destruct (paso (a, c) x) as [a' c']. simpl in Hpaso. subst a'. apply IH.
Qed.

(** Iterating over [Taller.objects.all()] *)
Lemma foldl_objects_all (f : Taller → Taller)
    (paso : gmap Z Taller → Z * Taller → gmap Z Taller) (db : gmap Z Taller) :
  (∀ db pk t k, db !! pk = Some t →
     paso db (pk, t) !! k = if decide (k = pk) then Some (f t) else db !! k) →
  ∀ k, foldl paso db (objects_all db) !! k = f <$> db !! k.
Proof.
  intros Hpaso k. unfold objects_all.
  rewrite (foldl_filas f paso Hpaso).
  - case_decide as Hk; [done|].
    destruct (db !! k) as [t|] eqn:Hrow; [|done].
    exfalso. apply Hk. apply list_elem_of_fmap. exists (k, t).
    split; [done|]. by apply elem_of_map_to_list.
  - apply NoDup_fst_map_to_list.
  - intros pk t. by rewrite elem_of_map_to_list.
Qed.

(** Iterating over [Taller.objects.exclude(estado='CANCELADO')] *)
Lemma foldl_objects_exclude (regla : Taller → Estado)
    (paso : gmap Z Taller → Z * Taller → gmap Z Taller) (db : gmap Z Taller) :
  (∀ db pk t k, db !! pk = Some t →
     paso db (pk, t) !! k
     = if decide (k = pk) then Some (con_regla regla t) else db !! k) →
  ∀ k, foldl paso db (objects_exclude_cancelado db) !! k
       = salvo_cancelado regla <$> db !! k.
Proof.
  intros Hpaso k. unfold objects_exclude_cancelado.
  rewrite (foldl_filas (con_regla regla) paso Hpaso).
  - case_decide as Hk.
    + apply list_elem_of_fmap in Hk as [[pk t] [-> Hin]].
      apply elem_of_map_to_list, map_lookup_filter_Some in Hin as [Hrow Hest].
      simpl in *. rewrite Hrow. simpl. unfold salvo_cancelado.
      by rewrite bool_decide_true.
    + destruct (db !! k) as [t|] eqn:Hrow; [|done]. simpl.
      unfold salvo_cancelado. case_bool_decide as Hest; [|done].
      exfalso. apply Hk. apply list_elem_of_fmap. exists (k, t).
      split; [done|]. by apply elem_of_map_to_list, map_lookup_filter_Some.
  - apply NoDup_fst_map_to_list.
  - intros pk t Hin.
    by apply elem_of_map_to_list, map_lookup_filter_Some in Hin as [? _].
Qed.

End TalleresFilas.

Section TalleresPasos.
Import Talleres.

Lemma lookup_save_update_estado (pk k : Z) (e : Estado) (t : Taller)
    (db : gmap Z Taller) :
  db !! pk = Some t →
  save_update_estado pk (set_estado e t) db !! k
  = if decide (k = pk) then Some (set_estado e t) else db !! k.
Proof.
  intros Hrow. unfold save_update_estado. rewrite lookup_alter.
  destruct (decide (pk = k)) as [->|Hne].
  - rewrite decide_True by done. by rewrite Hrow.
  - by rewrite decide_False by done.
Qed.

Lemma lookup_save (pk k : Z) (t : Taller) (db : gmap Z Taller) :
  save pk t db !! k = if decide (k = pk) then Some t else db !! k.
Proof.
  unfold save. rewrite lookup_insert.
  destruct (decide (pk = k)) as [->|Hne].
  - by rewrite decide_True.
  - by rewrite decide_False.
Qed.

(** A row whose status already is the new one is left alone, which is
    the same as writing the new status into it. *)
Lemma lookup_sin_cambio (pk k : Z) (e : Estado) (t : Taller)
    (db : gmap Z Taller) :
  db !! pk = Some t → estado t = e →
  db !! k = if decide (k = pk) then Some (set_estado e t) else db !! k.
Proof.
  intros Hrow <-. case_decide as Hk; [|done].
  subst k. by rewrite set_estado_id.
Qed.

Lemma paso_lista_fila (hoy : Z) (db : gmap Z Taller) (pk k : Z) (t : Taller) :
  db !! pk = Some t →
  paso_lista hoy db (pk, t) !! k
  = if decide (k = pk) then Some (con_regla (nuevo_estado_lista hoy) t)
    else db !! k.
Proof.
  intros Hrow. unfold paso_lista, con_regla. case_bool_decide as Hcambio.
  - by apply lookup_save_update_estado.
  - apply lookup_sin_cambio; [done|].
    by destruct (decide (estado t = nuevo_estado_lista hoy t)).
Qed.

Lemma paso_comando_fila (hoy : Z) (db : gmap Z Taller) (n : nat)
    (pk k : Z) (t : Taller) :
  db !! pk = Some t →
  (paso_comando hoy (db, n) (pk, t)).1 !! k
  = if decide (k = pk) then Some (con_regla (nuevo_estado_comando hoy) t)
    else db !! k.
Proof.
  intros Hrow. unfold paso_comando, con_regla. case_bool_decide as Hcambio.
  - by apply lookup_save_update_estado.
  - apply lookup_sin_cambio; [done|].
    by destruct (decide (estado t = nuevo_estado_comando hoy t)).
Qed.

Lemma paso_script_fila (today : Z) (db : gmap Z Taller) (pk k : Z) (t : Taller) :
  db !! pk = Some t →
  paso_script today db (pk, t) !! k
  = if decide (k = pk) then Some (con_regla (estado_script today) t)
    else db !! k.
Proof.
  intros Hrow. unfold paso_script, con_regla.
  rewrite estado_set_estado. case_bool_decide as Hcambio.
  - apply lookup_save.
  - apply lookup_sin_cambio; [done|].
    by destruct (decide (estado t = estado_script today t)).
Qed.

Lemma paso_comando_talleres_fila (today : Z) (db : gmap Z Taller)
    (c : nat * nat) (pk k : Z) (t : Taller) :
  db !! pk = Some t →
  (paso_comando_talleres today (db, c) (pk, t)).1 !! k
  = if decide (k = pk) then Some (con_regla (estado_comando_talleres today) t)
    else db !! k.
Proof.
  intros Hrow. destruct c as [a s]. unfold paso_comando_talleres, con_regla.
  rewrite estado_set_estado. case_bool_decide as Hcambio.
  - apply lookup_save.
  - apply lookup_sin_cambio; [done|].
    by destruct (decide (estado t = estado_comando_talleres today t)).
Qed.

(** ** Row-by-row effect of each recomputation *)

Lemma actualizar_estados_talleres_lookup (hoy : Z) (db : gmap Z Taller) (k : Z) :
  actualizar_estados_talleres hoy db !! k
  = salvo_cancelado (nuevo_estado_lista hoy) <$> db !! k.
Proof.
  unfold actualizar_estados_talleres. apply foldl_objects_exclude.
  intros. by apply paso_lista_fila.
Qed.

Lemma handle_actualizar_estados_lookup (hoy : Z) (db : gmap Z Taller) (k : Z) :
  (handle_actualizar_estados hoy db).1 !! k
  = salvo_cancelado (nuevo_estado_comando hoy) <$> db !! k.
Proof.
  unfold handle_actualizar_estados.
  rewrite (foldl_fst (paso_comando hoy)
             (λ db fila, (paso_comando hoy (db, 0%nat) fila).1)).
  - apply foldl_objects_exclude. intros. by apply paso_comando_fila.
  - intros a c [pk t]. unfold paso_comando. by case_bool_decide.
Qed.

Lemma actualizar_estados_lookup (today : Z) (db : gmap Z Taller) (k : Z) :
  actualizar_estados today db !! k
  = con_regla (estado_script today) <$> db !! k.
Proof.
  unfold actualizar_estados. apply foldl_objects_all.
  intros. by apply paso_script_fila.
Qed.

Lemma handle_actualizar_estados_talleres_lookup (today : Z)
    (db : gmap Z Taller) (k : Z) :
  (handle_actualizar_estados_talleres today db).1 !! k
  = con_regla (estado_comando_talleres today) <$> db !! k.
Proof.
  unfold handle_actualizar_estados_talleres.
  rewrite (foldl_fst (paso_comando_talleres today)
             (λ db fila, (paso_comando_talleres today (db, (0%nat, 0%nat)) fila).1)).
  - apply foldl_objects_all. intros. by apply paso_comando_talleres_fila.
  - intros a [c1 c2] [pk t]. unfold paso_comando_talleres.
    by case_bool_decide.
Qed.

End TalleresPasos.

Section TalleresEstado.
Import Talleres.

(** The four date rules that skip the [elif]'s lower bound and the two
    that spell it out compute the same status. *)
Lemma estado_comando_talleres_eq (hoy : Z) (t : Taller) :
  estado_comando_talleres hoy t = nuevo_estado_comando hoy t.
Proof.
  unfold estado_comando_talleres, nuevo_estado_comando.
  case_bool_decide as H1; [done|].
  rewrite (bool_decide_true (fecha_inicio t ≤ hoy)) by lia. done.
Qed.

Lemma estado_script_eq (hoy : Z) (t : Taller) :
  estado_script hoy t = nuevo_estado_comando hoy t.
Proof. apply estado_comando_talleres_eq. Qed.

(** The date rule, case by case. *)
Lemma nuevo_estado_comando_spec (hoy : Z) (t : Taller) :
  (nuevo_estado_comando hoy t = PROGRAMADO ↔ hoy < fecha_inicio t) ∧
  (nuevo_estado_comando hoy t = EN_CURSO
     ↔ fecha_inicio t ≤ hoy ∧ hoy ≤ fecha_fin t) ∧
  (nuevo_estado_comando hoy t = FINALIZADO
     ↔ fecha_inicio t ≤ hoy ∧ hoy > fecha_fin t) ∧
  nuevo_estado_comando hoy t ≠ CANCELADO.
Proof.
  unfold nuevo_estado_comando.
  repeat case_bool_decide; repeat split; intros; try done; try lia.
Qed.

(** ** The paths that guard the cancelled status keep it *)

Lemma salvo_cancelado_keeps (regla : Taller → Estado) (t : Taller) :
  estado t = CANCELADO → salvo_cancelado regla t = t.
Proof.
  intros Hc. unfold salvo_cancelado. by rewrite bool_decide_false by naive_solver.
Qed.

Lemma cancelado_kept_by_command (hoy : Z) (db : gmap Z Taller) (pk : Z) (t : Taller) :
  db !! pk = Some t → estado t = CANCELADO →
  (handle_actualizar_estados hoy db).1 !! pk = Some t.
Proof.
  intros Hrow Hc. rewrite handle_actualizar_estados_lookup, Hrow. simpl.
  by rewrite salvo_cancelado_keeps.
Qed.

Lemma cancelado_kept_by_list_view (hoy : Z) (db : gmap Z Taller) (pk : Z) (t : Taller) :
  db !! pk = Some t → estado t = CANCELADO →
  actualizar_estados_talleres hoy db !! pk = Some t.
Proof.
  intros Hrow Hc. rewrite actualizar_estados_talleres_lookup, Hrow. simpl.
  by rewrite salvo_cancelado_keeps.
Qed.

Lemma cancelado_kept_by_detail_view (hoy : Z) (db : gmap Z Taller) (pk : Z) (t : Taller) :
  db !! pk = Some t → estado t = CANCELADO →
  get_object hoy pk db = Ok (t, db).
Proof.
  intros Hrow Hc. unfold get_object. rewrite Hrow.
  by rewrite bool_decide_false by naive_solver.
Qed.

Lemma cancelado_kept_by_create_view (hoy : Z) (form : Taller)
    (db : gmap Z Taller) (msgs : list Message) :
  estado form = CANCELADO →
  (crear_form_valid hoy form db msgs).1.2 !! (crear_form_valid hoy form db msgs).1.1
  = Some form.
Proof.
  intros Hc. unfold crear_form_valid. simpl.
  rewrite bool_decide_false by naive_solver. apply lookup_insert_eq.
Qed.

Lemma cancelado_kept_by_update_view (hoy : Z) (pk : Z) (form : Taller)
    (db : gmap Z Taller) :
  estado form = CANCELADO →
  editar_form_valid hoy pk form db !! pk = Some form.
Proof.
  intros Hc. unfold editar_form_valid.
  rewrite bool_decide_false by naive_solver. apply lookup_insert_eq.
Qed.

(** ** The two paths that iterate over every workshop do not *)

Lemma cancelado_lost_by_command_talleres (today : Z) (db : gmap Z Taller)
    (pk : Z) (t : Taller) :
  db !! pk = Some t →
  ∃ t', (handle_actualizar_estados_talleres today db).1 !! pk = Some t'
        ∧ estado t' ≠ CANCELADO.
Proof.
  intros Hrow. rewrite handle_actualizar_estados_talleres_lookup, Hrow.
  exists (con_regla (estado_comando_talleres today) t). split; [done|].
  unfold con_regla. rewrite estado_set_estado.
  rewrite estado_comando_talleres_eq. apply nuevo_estado_comando_spec.
Qed.

Lemma cancelado_lost_by_script (today : Z) (db : gmap Z Taller)
    (pk : Z) (t : Taller) :
  db !! pk = Some t →
  ∃ t', actualizar_estados today db !! pk = Some t' ∧ estado t' ≠ CANCELADO.
Proof.
  intros Hrow. rewrite actualizar_estados_lookup, Hrow.
  exists (con_regla (estado_script today) t). split; [done|].
  unfold con_regla. rewrite estado_set_estado.
  rewrite estado_script_eq. apply nuevo_estado_comando_spec.
Qed.

(** C1: a workshop cancelled by hand, with dates 10 to 20, is not left
    cancelled by the recomputation of day 30: the management command
    [actualizar_estados_talleres] and the standalone script both store
    FINALIZADO in its row, where the claim requires CANCELADO to stay. *)
Theorem C1_cancelado_overwritten :
  let t := {| nombre := "Costura"; fecha_inicio := 10; fecha_fin := 20;
              capacidad := 15; estado := CANCELADO |} in
  let db : gmap Z Taller := {[ 1 := t ]} in
  estado <$> (handle_actualizar_estados_talleres 30 db).1 !! 1 = Some FINALIZADO
  ∧ estado <$> actualizar_estados 30 db !! 1 = Some FINALIZADO
  ∧ estado <$> (handle_actualizar_estados 30 db).1 !! 1 = Some CANCELADO
  ∧ estado <$> actualizar_estados_talleres 30 db !! 1 = Some CANCELADO.
Proof.
  intros t db.
  rewrite handle_actualizar_estados_talleres_lookup, actualizar_estados_lookup,
    handle_actualizar_estados_lookup, actualizar_estados_talleres_lookup.
  subst db. rewrite lookup_singleton_eq. done.
Qed.

(** C2, as the specification words it, fails when the end date precedes
    the start date: on day 15 a workshop that starts on day 20 and ends
    on day 10 is PROGRAMADO although 15 > 10. *)
Lemma C2_counterexample :
  let t := {| nombre := "Tejido"; fecha_inicio := 20; fecha_fin := 10;
              capacidad := 8; estado := EN_CURSO |} in
  let db : gmap Z Taller := {[ 1 := t ]} in
  db !! 1 = Some t ∧ estado t ≠ CANCELADO ∧
  ∃ t', (handle_actualizar_estados 15 db).1 !! 1 = Some t' ∧
    ¬ ((estado t' = PROGRAMADO ↔ 15 < fecha_inicio t) ∧
       (estado t' = EN_CURSO ↔ fecha_inicio t ≤ 15 ∧ 15 ≤ fecha_fin t) ∧
       (estado t' = FINALIZADO ↔ 15 > fecha_fin t)).
Proof.
  intros t db. split; [by apply lookup_singleton_eq|]. split; [done|].
  eexists. split.
  - rewrite handle_actualizar_estados_lookup. subst db.
    rewrite lookup_singleton_eq. reflexivity.
  - simpl. intros (_ & _ & H). destruct H as [_ H].
    discriminate H. lia.
Qed.

(** C2 (amended): after the management command [actualizar_estados] or
    the list view's recomputation runs on day [hoy], a workshop that was
    not cancelled is PROGRAMADO iff hoy < start, EN_CURSO iff
    start ≤ hoy ≤ end, and FINALIZADO iff start ≤ hoy and hoy > end;
    when start ≤ end the last condition is just hoy > end. *)
Theorem C2_estado_por_fechas (hoy : Z) (db : gmap Z Taller) (pk : Z) (t : Taller) :
  db !! pk = Some t → estado t ≠ CANCELADO →
  ∃ t', (handle_actualizar_estados hoy db).1 !! pk = Some t' ∧
        actualizar_estados_talleres hoy db !! pk = Some t' ∧
        (estado t' = PROGRAMADO ↔ hoy < fecha_inicio t) ∧
        (estado t' = EN_CURSO ↔ fecha_inicio t ≤ hoy ∧ hoy ≤ fecha_fin t) ∧
        (estado t' = FINALIZADO ↔ fecha_inicio t ≤ hoy ∧ hoy > fecha_fin t) ∧
        (fecha_inicio t ≤ fecha_fin t →
           (estado t' = FINALIZADO ↔ hoy > fecha_fin t)).
Proof.
  intros Hrow Hest.
  exists (set_estado (nuevo_estado_comando hoy t) t).
  rewrite handle_actualizar_estados_lookup, actualizar_estados_talleres_lookup,
    Hrow. simpl. unfold salvo_cancelado. rewrite bool_decide_true by done.
  split; [done|]. split; [done|].
  destruct (nuevo_estado_comando_spec hoy t) as (HP & HE & HF & _).
  repeat split; try tauto; intros; try lia.
  apply HF. lia.
Qed.

Lemma C2_estado_por_fechas_witness :
  let t := {| nombre := "Tejido"; fecha_inicio := 10; fecha_fin := 20;
              capacidad := 8; estado := PROGRAMADO |} in
  ∃ t', (handle_actualizar_estados 15 {[ 1 := t ]}).1 !! 1 = Some t' ∧
        estado t' = EN_CURSO.
Proof.
  intros t.
  destruct (C2_estado_por_fechas 15 {[ 1 := t ]} 1 t) as (t' & H1 & _ & _ & HE & _).
  - apply lookup_singleton_eq.
  - simpl. discriminate.
  - exists t'. split; [exact H1|]. apply HE. simpl. lia.
Defined.

End TalleresEstado.

Section TalleresCopias.
Import Talleres.

(** The copies of the rule in the views are the command's, word for word. *)
Lemma copias_de_la_regla (hoy : Z) (t : Taller) :
  nuevo_estado_lista hoy t = nuevo_estado_comando hoy t ∧
  nuevo_estado_detalle hoy t = nuevo_estado_comando hoy t ∧
  estado_crear hoy t = nuevo_estado_comando hoy t ∧
  estado_editar hoy t = nuevo_estado_comando hoy t ∧
  estado_comando_talleres hoy t = nuevo_estado_comando hoy t ∧
  estado_script hoy t = nuevo_estado_comando hoy t.
Proof.
  repeat split; try reflexivity.
  - apply estado_comando_talleres_eq.
  - apply estado_script_eq.
Qed.

Lemma get_object_estado (hoy : Z) (pk : Z) (db : gmap Z Taller) (t : Taller) :
  db !! pk = Some t → estado t ≠ CANCELADO →
  ∃ t' db', get_object hoy pk db = Ok (t', db') ∧
            estado t' = nuevo_estado_detalle hoy t ∧
            estado <$> db' !! pk = Some (nuevo_estado_detalle hoy t).
Proof.
  intros Hrow Hest. unfold get_object. rewrite Hrow.
  rewrite bool_decide_true by done. case_bool_decide as Hcambio.
  - eexists _, _. split; [done|]. split; [done|].
    rewrite (lookup_save_update_estado pk pk _ t) by done.
    by rewrite decide_True.
  - assert (estado t = nuevo_estado_detalle hoy t) as Heq
      by (by destruct (decide (estado t = nuevo_estado_detalle hoy t))).
    eexists _, _. split; [done|]. split; [done|]. by rewrite Hrow, <- Heq.
Qed.

(** C5: for a workshop that is not cancelled, the two management
    commands, the list view, the detail view and the create view all
    arrive at one and the same status, whatever today's date and the
    workshop's start and end dates are. *)
Theorem C5_copias_equivalentes (hoy : Z) (db : gmap Z Taller) (pk : Z)
    (t : Taller) (msgs : list Message) :
  db !! pk = Some t → estado t ≠ CANCELADO →
  ∃ e : Estado,
    estado <$> (handle_actualizar_estados hoy db).1 !! pk = Some e ∧
    estado <$> (handle_actualizar_estados_talleres hoy db).1 !! pk = Some e ∧
    estado <$> actualizar_estados_talleres hoy db !! pk = Some e ∧
    (∃ t' db', get_object hoy pk db = Ok (t', db') ∧ estado t' = e
               ∧ estado <$> db' !! pk = Some e) ∧
    (∃ pk' db' msgs', crear_form_valid hoy t db msgs = (pk', db', msgs')
               ∧ estado <$> db' !! pk' = Some e).
Proof.
  intros Hrow Hest. exists (nuevo_estado_comando hoy t).
  rewrite handle_actualizar_estados_lookup,
    handle_actualizar_estados_talleres_lookup,
    actualizar_estados_talleres_lookup, Hrow.
  simpl. unfold salvo_cancelado. rewrite bool_decide_true by done.
  split; [done|]. split.
  { by rewrite estado_comando_talleres_eq. }
  split; [done|]. split.
  { destruct (get_object_estado hoy pk db t Hrow Hest) as (t' & db' & ? & ? & ?).
    by exists t', db'. }
  unfold crear_form_valid. rewrite bool_decide_true by done.
  eexists _, _, _. split; [done|].
  unfold save. by rewrite lookup_insert_eq.
Qed.

Lemma C5_copias_equivalentes_witness :
  let t := {| nombre := "Repostería"; fecha_inicio := 10; fecha_fin := 20;
              capacidad := 12; estado := PROGRAMADO |} in
  ∃ e : Estado,
    estado <$> (handle_actualizar_estados 25 {[ 7 := t ]}).1 !! 7 = Some e ∧
    estado <$> (handle_actualizar_estados_talleres 25 {[ 7 := t ]}).1 !! 7 = Some e.
Proof.
  intros t.
  destruct (C5_copias_equivalentes 25 {[ 7 := t ]} 7 t []) as (e & H1 & H2 & _).
  - apply lookup_singleton_eq.
  - simpl. discriminate.
  - exists e. split; [exact H1 | exact H2].
Defined.

(** The standalone script and the update view agree with them too. *)
Lemma script_y_editar_equivalentes (hoy : Z) (db : gmap Z Taller) (pk : Z)
    (t : Taller) :
  db !! pk = Some t → estado t ≠ CANCELADO →
  estado <$> actualizar_estados hoy db !! pk = Some (nuevo_estado_comando hoy t) ∧
  estado <$> editar_form_valid hoy pk t db !! pk = Some (nuevo_estado_comando hoy t).
Proof.
  intros Hrow Hest. rewrite actualizar_estados_lookup, Hrow. split.
  - simpl. by rewrite estado_script_eq.
  - unfold editar_form_valid, save. rewrite bool_decide_true by done.
    by rewrite lookup_insert_eq.
Qed.

End TalleresCopias.

(** * Properties of the occupancy methods *)

Section TalleresOcupacion.
Import Talleres.

Lemma inscritos_count_nonneg (participantes : gmap Z Participante) (pk : Z) :
  0 ≤ inscritos_count participantes pk.
Proof. unfold inscritos_count. lia. Qed.

(** C9: [disponibilidad] is max(0, capacidad − inscritos) and so never
    negative; [esta_lleno] holds exactly when inscritos ≥ capacidad,
    which for capacidad ≥ 1 is exactly when [disponibilidad] is 0. *)
Theorem C9_disponibilidad_esta_lleno (participantes : gmap Z Participante)
    (pk : Z) (self : Taller) :
  disponibilidad participantes pk self
    = Z.max 0 (capacidad self - inscritos_count participantes pk) ∧
  0 ≤ disponibilidad participantes pk self ∧
  (esta_lleno participantes pk self = true
     ↔ inscritos_count participantes pk >= capacidad self) ∧
  (capacidad self >= 1 →
     (esta_lleno participantes pk self = true
        ↔ disponibilidad participantes pk self = 0)).
Proof.
  unfold disponibilidad, esta_lleno.
  split; [done|]. split; [lia|].
  rewrite bool_decide_eq_true. split; [done|]. intros _. lia.
Qed.

(** Two enrolments in a workshop of capacity one: no negative
    availability, and the workshop is full. *)
Example disponibilidad_sobrecupo :
  let ps : gmap Z Participante :=
    {[ 1 := {| taller_id := 5; dni := "11111111" |};
       2 := {| taller_id := 5; dni := "22222222" |};
       3 := {| taller_id := 6; dni := "33333333" |} ]} in
  let self := {| nombre := "Cocina"; fecha_inicio := 1; fecha_fin := 2;
                 capacidad := 1; estado := EN_CURSO |} in
  inscritos_count ps 5 = 2 ∧ disponibilidad ps 5 self = 0
  ∧ esta_lleno ps 5 self = true.
Proof. vm_compute. done. Qed.

(** C8: [porcentaje_ocupacion] never raises [ZeroDivisionError] (nor
    anything else): it returns the integer 0 when capacidad ≤ 0 and
    otherwise (inscritos / capacidad) * 100, the division being reached
    only with a positive divisor. *)
Theorem C8_porcentaje_ocupacion {float : Type}
    (int_truediv : Z → Z → float) (float_mul_int : float → Z → float)
    (participantes : gmap Z Participante) (pk : Z) (self : Taller) :
  (capacidad self ≤ 0 →
     porcentaje_ocupacion int_truediv float_mul_int participantes pk self
     = Ok (PyInt 0)) ∧
  (0 < capacidad self →
     porcentaje_ocupacion int_truediv float_mul_int participantes pk self
     = Ok (PyFloat (float_mul_int
             (int_truediv (inscritos_count participantes pk) (capacidad self))
             100))) ∧
  (∀ e, porcentaje_ocupacion int_truediv float_mul_int participantes pk self
        ≠ Raise e).
Proof.
  unfold porcentaje_ocupacion, truediv.
  case_bool_decide as Hcap.
  - split; [done|]. split; [lia|done].
  - rewrite bool_decide_false by lia. split; [lia|]. split; done.
Qed.

(** With exact rationals standing in for floats: two enrolments out of
    a capacity of eight are 25 percent, and a capacity of zero gives the
    integer 0 without dividing. *)
Example porcentaje_ocupacion_ejemplo :
  let ps : gmap Z Participante :=
    {[ 1 := {| taller_id := 5; dni := "11111111" |};
       2 := {| taller_id := 5; dni := "22222222" |} ]} in
  let taller c := {| nombre := "Cocina"; fecha_inicio := 1; fecha_fin := 2;
                     capacidad := c; estado := EN_CURSO |} in
  let div (a b : Z) : Qc := (Qc_of_Z a / Qc_of_Z b)%Qc in
  let mul (x : Qc) (n : Z) : Qc := (x * Qc_of_Z n)%Qc in
  porcentaje_ocupacion div mul ps 5 (taller 8) = Ok (PyFloat (Qc_of_Z 25)) ∧
  porcentaje_ocupacion div mul ps 5 (taller 0) = Ok (PyInt 0).
Proof.
  split; [|done]. vm_compute. do 2 f_equal. by apply Qc_is_canon.
Qed.

(** The guard is what keeps the division safe: [/] itself raises on a
    zero divisor. *)
Lemma truediv_zero {float : Type} (int_truediv : Z → Z → float) (a : Z) :
  truediv int_truediv a 0 = Raise ZeroDivisionError.
Proof. done. Qed.

End TalleresOcupacion.

(** * Properties of the member dues rules *)

Section Ordenados.
Context {A : Type} (R : relation A).
Context `{!RelDecision R, !Transitive R, !Total R}.

(** [order_by(...).first()] returns a row of the queryset that comes
    before every other one in the ordering. *)
Lemma head_merge_sort_Some (l : list A) (x : A) :
  head (merge_sort R l) = Some x → x ∈ l ∧ ∀ y, y ∈ l → R x y.
Proof.
  intros Hhead. apply head_Some in Hhead as [resto Hsorted].
  pose proof (merge_sort_Permutation R l) as Hperm.
  pose proof (StronglySorted_merge_sort R l) as Hss.
  rewrite Hsorted in Hperm, Hss.
  apply StronglySorted_cons in Hss as [Hall _].
  split.
  - rewrite <- Hperm. left.
  - intros y Hy. rewrite <- Hperm in Hy.
    apply elem_of_cons in Hy as [->|Hy].
    + by destruct (total R x x).
    + by eapply Forall_forall in Hall.
Qed.

Lemma head_merge_sort_None (l : list A) :
  head (merge_sort R l) = None → l = [].
Proof.
  intros Hhead. pose proof (merge_sort_Permutation R l) as Hperm.
  destruct (merge_sort R l) as [|x resto]; [|done].
  symmetry in Hperm. by apply Permutation_nil_r in Hperm.
Qed.
End Ordenados.

Section FinanzasCuotas.
Import Finanzas.

#[local] Instance fecha_desc_trans : Transitive fecha_desc.
Proof. intros a b c. unfold fecha_desc. lia. Qed.

#[local] Instance fecha_desc_total : Total fecha_desc.
Proof. intros a b. unfold fecha_desc. lia. Qed.

Lemma elem_of_pagos (tabla : gmap Z PagoSocio) (socio_pk k : Z) (p : PagoSocio) :
  (k, p) ∈ pagos tabla socio_pk ↔ tabla !! k = Some p ∧ socio_id p = socio_pk.
Proof.
  unfold pagos. by rewrite elem_of_map_to_list, map_lookup_filter_Some.
Qed.

(** [get_ultima_cuota] is the date of a payment of the member that no
    other payment of the member is later than. *)
Lemma get_ultima_cuota_Some (tabla : gmap Z PagoSocio) (socio_pk d : Z) :
  get_ultima_cuota tabla socio_pk = Some d →
  ∃ k p, tabla !! k = Some p ∧ socio_id p = socio_pk ∧ fecha p = d ∧
         ∀ k' p', tabla !! k' = Some p' → socio_id p' = socio_pk →
                  fecha p' ≤ d.
Proof.
  unfold get_ultima_cuota, first, order_by_fecha_desc.
  destruct (head _) as [[k p]|] eqn:Hhead; [|done].
  intros [= <-].
  destruct (head_merge_sort_Some fecha_desc _ _ Hhead) as [Hin Hmax].
  apply elem_of_pagos in Hin as [Hrow Hsocio].
  exists k, p. split; [done|]. split; [done|]. split; [done|].
  intros k' p' Hrow' Hsocio'.
  apply (Hmax (k', p')). by apply elem_of_pagos.
Qed.

Lemma get_ultima_cuota_None (tabla : gmap Z PagoSocio) (socio_pk : Z) :
  get_ultima_cuota tabla socio_pk = None →
  ∀ k p, tabla !! k = Some p → socio_id p ≠ socio_pk.
Proof.
  unfold get_ultima_cuota, first, order_by_fecha_desc.
  destruct (head _) as [[k p]|] eqn:Hhead; [done|].
  intros _ k p Hrow Hsocio.
  pose proof (head_merge_sort_None fecha_desc _ Hhead) as Hvacio.
  assert ((k, p) ∈ pagos tabla socio_pk) as Hin by by apply elem_of_pagos.
  rewrite Hvacio in Hin. by apply elem_of_nil in Hin.
Qed.

(** C3: a member is up to date on day [hoy] exactly when either some
    payment of the member is the latest one and is dated at most 40 days
    before [hoy], or the member has no payment at all and registered at
    most 40 days before [hoy]. *)
Theorem C3_esta_al_dia (hoy : Z) (tabla : gmap Z PagoSocio) (socio_pk : Z)
    (self : Socio) :
  esta_al_dia hoy tabla socio_pk self = true ↔
    (∃ k p, tabla !! k = Some p ∧ socio_id p = socio_pk ∧
            (∀ k' p', tabla !! k' = Some p' → socio_id p' = socio_pk →
                      fecha p' ≤ fecha p) ∧
            hoy - fecha p ≤ 40)
    ∨ ((∀ k p, tabla !! k = Some p → socio_id p ≠ socio_pk) ∧
       hoy - fecha_registro self ≤ 40).
Proof.
  unfold esta_al_dia.
  destruct (get_ultima_cuota tabla socio_pk) as [d|] eqn:Hult.
  - apply get_ultima_cuota_Some in Hult as (k & p & Hrow & Hsocio & Hd & Hmax).
    rewrite bool_decide_eq_true. split.
    + intros Hdias. left. exists k, p. subst d. eauto.
    + intros [(k' & p' & Hrow' & Hsocio' & Hmax' & Hdias)|[Hnone _]].
      * specialize (Hmax k' p' Hrow' Hsocio').
        specialize (Hmax' k p Hrow Hsocio). lia.
      * by destruct (Hnone k p Hrow).
  - pose proof (get_ultima_cuota_None _ _ Hult) as Hnone.
    rewrite bool_decide_eq_true. split.
    + intros Hdias. by right.
    + intros [(k & p & Hrow & Hsocio & _)|[_ Hdias]]; [|done].
      by destruct (Hnone k p Hrow).
Qed.

(** Three payments of member 7 (and one of member 8): the latest is of
    day 990, so the member is up to date on day 1030 and not on 1031. *)
Example esta_al_dia_ejemplo :
  let tabla : gmap Z PagoSocio :=
    {[ 1 := {| socio_id := 7; fecha := 900; comprobante := "1" |};
       2 := {| socio_id := 7; fecha := 990; comprobante := "2" |};
       3 := {| socio_id := 8; fecha := 1025; comprobante := "3" |};
       4 := {| socio_id := 7; fecha := 950; comprobante := "4" |} ]} in
  let self := {| fecha_registro := 100 |} in
  get_ultima_cuota tabla 7 = Some 990 ∧
  esta_al_dia 1030 tabla 7 self = true ∧
  esta_al_dia 1031 tabla 7 self = false ∧
  esta_al_dia 140 tabla 9 self = true ∧
  esta_al_dia 141 tabla 9 self = false.
Proof. vm_compute. done. Qed.

End FinanzasCuotas.

Section FinanzasComprobante.
Import Finanzas.

#[local] Instance id_desc_trans : Transitive id_desc.
Proof. intros a b c. unfold id_desc. lia. Qed.

#[local] Instance id_desc_total : Total id_desc.
Proof. intros a b. unfold id_desc. lia. Qed.

(** [order_by('-id').first()] is the row with the largest primary key:
    the payment created last. *)
Lemma ultimo_pago_Some (tabla : gmap Z PagoSocio) (k : Z) (p : PagoSocio) :
  tabla !! k = Some p →
  (∀ k' p', tabla !! k' = Some p' → k' ≤ k) →
  first (order_by_id_desc (map_to_list tabla)) = Some (k, p).
Proof.
  intros Hrow Hmax. unfold first, order_by_id_desc.
  destruct (head _) as [[k0 p0]|] eqn:Hhead.
  - destruct (head_merge_sort_Some id_desc _ _ Hhead) as [Hin Hle].
    apply elem_of_map_to_list in Hin.
    assert ((k, p) ∈ map_to_list tabla) as Hkp by by apply elem_of_map_to_list.
    specialize (Hle _ Hkp). unfold id_desc in Hle. simpl in Hle.
    specialize (Hmax _ _ Hin).
    assert (k0 = k) as -> by lia. congruence.
  - pose proof (head_merge_sort_None id_desc _ Hhead) as Hvacio.
    apply map_to_list_empty_iff in Hvacio. subst tabla.
    by rewrite lookup_empty in Hrow.
Qed.

Lemma ultimo_pago_None :
  first (order_by_id_desc (map_to_list (∅ : gmap Z PagoSocio))) = None.
Proof. by rewrite map_to_list_empty. Qed.

(** C10, as the specification words it, fails: when the last payment's
    receipt is the text -5, the next receipt is -4, which is not the
    decimal string of a positive integer. *)
Lemma C10_counterexample :
  let tabla : gmap Z PagoSocio :=
    {[ 1 := {| socio_id := 3; fecha := 100; comprobante := "-5" |} ]} in
  get_next_comprobante tabla = "-4" ∧
  ¬ ∃ m : Z, 0 < m ∧ get_next_comprobante tabla = Python.str m.
Proof.
  intros tabla.
  assert (get_next_comprobante tabla = "-4") as Hnext by (by vm_compute).
  split; [done|]. rewrite Hnext. intros (m & Hm & Heq).
  change "-4" with (pretty (-4)) in Heq. unfold Python.str in Heq.
  apply (inj pretty) in Heq. lia.
Qed.

(** C10 (amended): [get_next_comprobante] returns the decimal string of
    an integer. With no payment it is 1; when the payment created last
    has a non-empty receipt that parses as the integer [n] it is
    [str (n + 1)], the string of a positive integer whenever [n ≥ 0];
    when that receipt is empty or does not parse it is 1 again. *)
Theorem C10_get_next_comprobante (tabla : gmap Z PagoSocio) :
  (tabla = ∅ → get_next_comprobante tabla = "1") ∧
  (∀ k p, tabla !! k = Some p →
          (∀ k' p', tabla !! k' = Some p' → k' ≤ k) →
     (∀ n, comprobante p ≠ "" → Python.int (comprobante p) = Ok n →
           get_next_comprobante tabla = Python.str (n + 1) ∧
           (0 ≤ n → ∃ m, 0 < m ∧ get_next_comprobante tabla = Python.str m)) ∧
     (comprobante p = "" ∨ (∃ e, Python.int (comprobante p) = Raise e) →
           get_next_comprobante tabla = "1")) ∧
  ∃ m : Z, get_next_comprobante tabla = Python.str m.
Proof.
  split; [|split].
  - intros ->. unfold get_next_comprobante. by rewrite ultimo_pago_None.
  - intros k p Hrow Hmax. unfold get_next_comprobante.
    rewrite (ultimo_pago_Some tabla k p Hrow Hmax). simpl. split.
    + intros n Hne Hint. rewrite bool_decide_false by done. rewrite Hint.
      split; [done|]. intros Hn. exists (n + 1). split; [lia|done].
    + intros [Hvacio|[e Hint]].
      * by rewrite bool_decide_true.
      * case_bool_decide; [done|]. by rewrite Hint.
  - unfold get_next_comprobante.
    destruct (first _) as [[k p]|]; [|by exists 1].
    case_bool_decide; [by exists 1|].
    destruct (Python.int _) as [n|e]; [by exists (n + 1)|by exists 1].
Qed.

(** The sequence as it runs: after receipt 41 comes 42; an empty table,
    an empty receipt and a receipt that is not a number start at 1. *)
Example get_next_comprobante_ejemplos :
  get_next_comprobante
    {[ 1 := {| socio_id := 3; fecha := 100; comprobante := "40" |};
       2 := {| socio_id := 4; fecha := 90; comprobante := "41" |} ]} = "42" ∧
  get_next_comprobante ∅ = "1" ∧
  get_next_comprobante
    {[ 5 := {| socio_id := 3; fecha := 100; comprobante := "" |} ]} = "1" ∧
  get_next_comprobante
    {[ 5 := {| socio_id := 3; fecha := 100; comprobante := "B-001" |} ]} = "1" ∧
  get_next_comprobante
    {[ 5 := {| socio_id := 3; fecha := 100; comprobante := "-1" |} ]} = "0".
Proof. vm_compute. done. Qed.

End FinanzasComprobante.

(** * Properties of the category delete view *)

Section FinanzasCategorias.
Import Finanzas.

(** [referenciada] says that some income or expense row holds the
    category in its protected foreign key. *)
Lemma referenciada_true (pk : Z) (bd : BD) :
  referenciada pk bd = true ↔
    (∃ k i, ingresos bd !! k = Some i ∧ ingreso_categoria_id i = pk)
    ∨ (∃ k e, egresos bd !! k = Some e ∧ egreso_categoria_id e = pk).
Proof.
  unfold referenciada. rewrite orb_true_iff, !bool_decide_eq_true. split.
  - intros [H|H]; apply map_choose in H as (k & x & Hx);
      apply map_lookup_filter_Some in Hx as [Hrow Hfk]; eauto.
  - intros [(k & i & Hrow & Hfk)|(k & e & Hrow & Hfk)]; [left|right];
      intros Hvacio;
      by eapply (map_filter_empty_not_lookup _ _ k) in Hvacio.
Qed.

Lemma categoria_delete_protegida (pk : Z) (bd : BD) :
  referenciada pk bd = true →
  ∃ detalle, categoria_delete pk bd = Raise (ProtectedError detalle).
Proof. intros Href. unfold categoria_delete. rewrite Href. eauto. Qed.

(** The method [delete] on its own: deleting a category that an income or
    expense row references raises the integrity error inside the method,
    which catches it: the database is as before (the category is still
    there), one error message is added and the answer is a redirect to
    the category list. Deleting a category nobody references removes it,
    adds one success message and redirects to the same list. *)
Lemma categoria_delete_metodo (pk : Z) (c : Categoria) (bd : BD)
    (msgs : list Message) :
  categorias bd !! pk = Some c →
  ((∃ k i, ingresos bd !! k = Some i ∧ ingreso_categoria_id i = pk)
   ∨ (∃ k e, egresos bd !! k = Some e ∧ egreso_categoria_id e = pk) →
     (∃ detalle, categoria_delete pk bd = Raise (ProtectedError detalle)) ∧
     ∃ texto,
       CategoriaDeleteView.delete pk bd msgs
       = (bd, msgs ++ [ {| level := ERROR; text := texto |} ],
          HttpResponseRedirect "categoria_list")) ∧
  (¬ ((∃ k i, ingresos bd !! k = Some i ∧ ingreso_categoria_id i = pk)
      ∨ (∃ k e, egresos bd !! k = Some e ∧ egreso_categoria_id e = pk)) →
     ∃ bd',
       CategoriaDeleteView.delete pk bd msgs
       = (bd',
          msgs ++ [ {| level := SUCCESS;
                       text := "Categoría eliminada exitosamente" |} ],
          HttpResponseRedirect "categoria_list") ∧
       categorias bd' !! pk = None ∧
       (∀ k, k ≠ pk → categorias bd' !! k = categorias bd !! k) ∧
       ingresos bd' = ingresos bd ∧ egresos bd' = egresos bd).
Proof.
  intros Hrow. split.
  - intros Href. apply referenciada_true in Href.
    split; [by apply categoria_delete_protegida|].
    unfold CategoriaDeleteView.delete, super_delete, categoria_delete.
    rewrite Hrow, Href. eauto.
  - intros Href. rewrite <- referenciada_true in Href.
    apply not_true_is_false in Href.
    unfold CategoriaDeleteView.delete, super_delete, categoria_delete.
    rewrite Hrow, Href. eexists. split; [done|]. simpl.
    split; [apply lookup_delete_eq|].
    split; [|done]. intros k Hk. by apply lookup_delete_ne.
Qed.

Example categoria_delete_metodo_ejemplo :
  let bd := {| categorias := {[ 1 := {| nombre := "Donaciones"; tipo := INGRESO |};
                                2 := {| nombre := "Alquiler"; tipo := EGRESO |} ]};
               ingresos := {[ 10 := {| ingreso_categoria_id := 1 |} ]};
               egresos := ∅ |} in
  (∃ texto, CategoriaDeleteView.delete 1 bd []
            = (bd, [ {| level := ERROR; text := texto |} ],
               HttpResponseRedirect "categoria_list")) ∧
  (∃ bd', CategoriaDeleteView.delete 2 bd []
          = (bd', [ {| level := SUCCESS;
                       text := "Categoría eliminada exitosamente" |} ],
             HttpResponseRedirect "categoria_list")
          ∧ categorias bd' !! 2 = None).
Proof.
  intros bd. split.
  - destruct (categoria_delete_metodo 1 {| nombre := "Donaciones"; tipo := INGRESO |}
                bd []) as [Hprot _]; [by vm_compute|].
    destruct Hprot as [_ Htexto]; [|exact Htexto].
    left. exists 10, {| ingreso_categoria_id := 1 |}. by vm_compute.
  - destruct (categoria_delete_metodo 2 {| nombre := "Alquiler"; tipo := EGRESO |}
                bd []) as [_ Hlibre]; [by vm_compute|].
    destruct Hlibre as (bd' & Hdel & Hnone & _).
    + intros [(k & i & Hk & Hfk)|(k & e & Hk & _)].
      * simpl in Hk. apply lookup_singleton_Some in Hk as [_ <-]. done.
      * simpl in Hk. by rewrite lookup_empty in Hk.
    + by exists bd'.
Qed.

(** A missing category is a 404 inside the view, which the same
    [except Exception] turns into the error message and the redirect. *)
Lemma categoria_delete_inexistente (pk : Z) (bd : BD) (msgs : list Message) :
  categorias bd !! pk = None →
  ∃ texto,
    CategoriaDeleteView.delete pk bd msgs
    = (bd, msgs ++ [ {| level := ERROR; text := texto |} ],
       HttpResponseRedirect "categoria_list").
Proof.
  intros Hrow. unfold CategoriaDeleteView.delete, super_delete.
  rewrite Hrow. eauto.
Qed.

(** C6: a POST to the delete view of a category that an income or
    expense row references. Where the framework's POST handler calls
    [delete] (Django before 4.0) the error is caught: the database is as
    before, one error message is added and the answer is a redirect to
    the category list. Where it calls [form_valid] (Django 4.0 and
    later) the override is never run: [ProtectedError] leaves the view,
    with no message and no redirect. For a category nobody references
    both remove it and redirect to the list, the first with the success
    message and the second with no message at all. *)
Theorem C6_categoria_delete_post (pk : Z) (c : Categoria) (bd : BD)
    (msgs : list Message) :
  categorias bd !! pk = Some c →
  ((∃ k i, ingresos bd !! k = Some i ∧ ingreso_categoria_id i = pk)
   ∨ (∃ k e, egresos bd !! k = Some e ∧ egreso_categoria_id e = pk) →
     (∃ texto,
        CategoriaDeleteView.post CategoriaDeleteView.Antes_de_4_0 pk bd msgs
        = Ok (bd, msgs ++ [ {| level := ERROR; text := texto |} ],
              HttpResponseRedirect "categoria_list")) ∧
     (∃ detalle,
        CategoriaDeleteView.post CategoriaDeleteView.Desde_4_0 pk bd msgs
        = Raise (ProtectedError detalle))) ∧
  (¬ ((∃ k i, ingresos bd !! k = Some i ∧ ingreso_categoria_id i = pk)
      ∨ (∃ k e, egresos bd !! k = Some e ∧ egreso_categoria_id e = pk)) →
     ∃ bd',
       categorias bd' !! pk = None ∧
       (∀ k, k ≠ pk → categorias bd' !! k = categorias bd !! k) ∧
       ingresos bd' = ingresos bd ∧ egresos bd' = egresos bd ∧
       CategoriaDeleteView.post CategoriaDeleteView.Antes_de_4_0 pk bd msgs
       = Ok (bd',
             msgs ++ [ {| level := SUCCESS;
                          text := "Categoría eliminada exitosamente" |} ],
             HttpResponseRedirect "categoria_list") ∧
       CategoriaDeleteView.post CategoriaDeleteView.Desde_4_0 pk bd msgs
       = Ok (bd', msgs, HttpResponseRedirect "categoria_list")).
Proof.
  intros Hrow. unfold CategoriaDeleteView.post, CategoriaDeleteView.form_valid.
  rewrite Hrow. split.
  - intros Href.
    destruct (categoria_delete_metodo pk c bd msgs Hrow) as [Hmetodo _].
    destruct (Hmetodo Href) as [[detalle Hprot] [texto Htexto]].
    split; [exists texto; by rewrite Htexto|].
    exists detalle. by rewrite Hprot.
  - intros Href.
    destruct (categoria_delete_metodo pk c bd msgs Hrow) as [_ Hmetodo].
    destruct (Hmetodo Href) as (bd' & Hdel & Hnone & Hotras & Hing & Hegr).
    exists bd'. repeat (split; [done|]). split; [by rewrite Hdel|].
    rewrite <- referenciada_true in Href. apply not_true_is_false in Href.
    unfold CategoriaDeleteView.delete, super_delete, categoria_delete in Hdel.
    rewrite Hrow, Href in Hdel. injection Hdel as <-.
    unfold categoria_delete. by rewrite Href.
Qed.

Lemma C6_categoria_delete_post_witness :
  let bd := {| categorias := {[ 1 := {| nombre := "Donaciones"; tipo := INGRESO |};
                                2 := {| nombre := "Alquiler"; tipo := EGRESO |} ]};
               ingresos := {[ 10 := {| ingreso_categoria_id := 1 |} ]};
               egresos := ∅ |} in
  (∃ texto,
     CategoriaDeleteView.post CategoriaDeleteView.Antes_de_4_0 1 bd []
     = Ok (bd, [ {| level := ERROR; text := texto |} ],
           HttpResponseRedirect "categoria_list")) ∧
  (∃ detalle,
     CategoriaDeleteView.post CategoriaDeleteView.Desde_4_0 1 bd []
     = Raise (ProtectedError detalle)).
Proof.
  intros bd.
  destruct (C6_categoria_delete_post 1 {| nombre := "Donaciones"; tipo := INGRESO |}
              bd []) as [Hprot _]; [by vm_compute|].
  apply Hprot. left. exists 10, {| ingreso_categoria_id := 1 |}. by vm_compute.
Defined.

End FinanzasCategorias.

(** * Properties of the search endpoints *)

Section Subcadenas.
Import Python.

Lemma app_String (a : ascii) (s t : string) :
  String a s +:+ t = String a (s +:+ t).
Proof. reflexivity. Qed.

Lemma prefix_spec (needle haystack : string) :
  String.prefix needle haystack = true ↔ ∃ post, haystack = needle +:+ post.
Proof.
  revert haystack. induction needle as [|a needle IH]; intros haystack.
  - split; [intros _; by exists haystack|]. by destruct haystack.
  - destruct haystack as [|b haystack].
    + split; [done|]. by intros [post Hpost].
    + simpl. destruct (ascii_dec a b) as [->|Hab].
      * rewrite IH. split; intros [post Hpost]; exists post.
        -- by rewrite app_String, <- Hpost.
        -- rewrite app_String in Hpost. by injection Hpost.
      * split; [done|]. intros [post Hpost]. rewrite app_String in Hpost.
        injection Hpost as Hba _. by destruct Hab.
Qed.

(** [contiene] is the substring test. *)
Lemma contiene_spec (needle haystack : string) :
  contiene needle haystack = true
  ↔ ∃ pre post, haystack = pre +:+ needle +:+ post.
Proof.
  split.
  - induction haystack as [|c resto IH].
    + cbn [contiene]. rewrite orb_false_r. intros [post Hpost]%prefix_spec.
      by exists "", post.
    + cbn [contiene]. intros [Hpre|Hresto]%orb_true_iff.
      * apply prefix_spec in Hpre as [post Hpost]. by exists "", post.
      * destruct (IH Hresto) as (pre & post & ->).
        by exists (String c pre), post.
  - intros (pre & post & ->). induction pre as [|c pre IH].
    + assert (String.prefix needle ("" +:+ needle +:+ post) = true) as Hpre
        by (apply prefix_spec; by exists post).
      destruct ("" +:+ needle +:+ post); cbn [contiene]; by rewrite Hpre.
    + rewrite app_String. cbn [contiene]. rewrite IH. apply orb_true_r.
Qed.

End Subcadenas.

Section Busqueda.
Import Beneficiarias.

(** What the query of [buscar_beneficiarias_api] compiles to. *)
Lemma resolver_api (term : string) :
  resolver (Q_or (Q_or (Q_icontains "nombres" term)
                       (Q_icontains "apellidos" term))
                 (Q_icontains "documento_identidad" term))
  = Ok (λ b, Python.icontains (nombres b) term
             || Python.icontains (apellidos b) term
             || Python.icontains (documento_identidad b) term).
Proof. reflexivity. Qed.

(** The query of the first [buscar_beneficiarias] of talleres/views.py
    (lines 396-436, replaced by the definition at line 1698 before any
    route is built) names a column [dni] that [Beneficiaria] does not
    have. *)
Lemma resolver_talleres (term : string) :
  resolver (Q_or (Q_or (Q_icontains "nombres" term)
                       (Q_icontains "apellidos" term))
                 (Q_icontains "dni" term))
  = Raise (FieldError "dni").
Proof. reflexivity. Qed.

(** The endpoint of the [beneficiarias] app does what the specification
    says of the search endpoints. *)
Lemma buscar_beneficiarias_api_spec (GET : gmap string string)
    (tabla : gmap Z Beneficiaria) :
  let term := GET_get GET "term" "" in
  ((String.length term < 3)%nat →
     buscar_beneficiarias_api GET tabla = Ok (JsonResponse [])) ∧
  ((3 ≤ String.length term)%nat →
     ∃ filas,
       buscar_beneficiarias_api GET tabla = Ok (JsonResponse (fila_api <$> filas)) ∧
       (length filas ≤ 10)%nat ∧
       ∀ k b, (k, b) ∈ filas →
         tabla !! k = Some b ∧
         ∃ campo, campo ∈ [nombres b; apellidos b; documento_identidad b] ∧
           ∃ pre post,
             Python.lower campo = pre +:+ Python.lower term +:+ post).
Proof.
  intros term. unfold buscar_beneficiarias_api. fold term. split.
  - intros Hcorto. by rewrite bool_decide_true.
  - intros Hlargo. rewrite bool_decide_false by lia.
    unfold objects_filter. rewrite resolver_api.
    eexists. split; [done|]. split.
    + rewrite length_take. lia.
    + intros k b Hin. apply subseteq_take in Hin.
      apply list_elem_of_filter in Hin as [Hmatch Hin].
      apply elem_of_map_to_list in Hin. split; [done|]. simpl in Hmatch.
      apply orb_true_iff in Hmatch as [Hmatch|Hdoc];
        [apply orb_true_iff in Hmatch as [Hnom|Hape]|].
      * exists (nombres b). split; [set_solver|]. by apply contiene_spec.
      * exists (apellidos b). split; [set_solver|]. by apply contiene_spec.
      * exists (documento_identidad b). split; [set_solver|].
        by apply contiene_spec.
Qed.

(** That first function, were it called, would raise on every term of
    three or more characters, whatever the table holds. *)
Lemma buscar_beneficiarias_raises (GET : gmap string string)
    (tabla : gmap Z Beneficiaria) :
  (3 ≤ String.length (GET_get GET "term" ""))%nat →
  Talleres.buscar_beneficiarias GET tabla = Raise (FieldError "dni").
Proof.
  intros Hlargo. unfold Talleres.buscar_beneficiarias.
  rewrite (bool_decide_false (_ < _)%nat) by lia.
  rewrite bool_decide_false; [done|].
  intros Hvacio. rewrite Hvacio in Hlargo. simpl in Hlargo. lia.
Qed.

(** The function the route of the [talleres] app gets (the second
    [buscar_beneficiarias], lines 1698-1732) does the same as the
    endpoint of the [beneficiarias] app. *)
Lemma buscar_beneficiarias_function_spec (GET : gmap string string)
    (tabla : gmap Z Beneficiaria) :
  let term := GET_get GET "term" "" in
  ((String.length term < 3)%nat →
     TalleresViews.buscar_beneficiarias_function GET tabla = Ok (JsonResponse [])) ∧
  ((3 ≤ String.length term)%nat →
     ∃ filas,
       TalleresViews.buscar_beneficiarias_function GET tabla
       = Ok (JsonResponse (TalleresViews.fila_data <$> filas)) ∧
       (length filas ≤ 10)%nat ∧
       ∀ k b, (k, b) ∈ filas →
         tabla !! k = Some b ∧
         ∃ campo, campo ∈ [nombres b; apellidos b; documento_identidad b] ∧
           ∃ pre post,
             Python.lower campo = pre +:+ Python.lower term +:+ post).
Proof.
  intros term. unfold TalleresViews.buscar_beneficiarias_function. fold term.
  split.
  - intros Hcorto. by rewrite bool_decide_true.
  - intros Hlargo. rewrite bool_decide_false by lia.
    unfold objects_filter. rewrite resolver_api.
    eexists. split; [done|]. split.
    + rewrite length_take. lia.
    + intros k b Hin. apply subseteq_take in Hin.
      apply list_elem_of_filter in Hin as [Hmatch Hin].
      apply elem_of_map_to_list in Hin. split; [done|]. simpl in Hmatch.
      apply orb_true_iff in Hmatch as [Hmatch|Hdoc];
        [apply orb_true_iff in Hmatch as [Hnom|Hape]|].
      * exists (nombres b). split; [set_solver|]. by apply contiene_spec.
      * exists (apellidos b). split; [set_solver|]. by apply contiene_spec.
      * exists (documento_identidad b). split; [set_solver|].
        by apply contiene_spec.
Qed.

(** C4: the two search endpoints. [api/buscar/] of the [beneficiarias]
    app answers the empty list for a term of fewer than three characters
    and otherwise at most ten rows of the table, each containing the
    term, case folded, in its names, surnames or document number. The
    route [buscar-beneficiarias/] of the [talleres] app gets the second
    function called [buscar_beneficiarias], and for every user its
    decorator lets through it answers in the same way. *)
Theorem C4_buscar_beneficiarias (GET : gmap string string)
    (tabla : gmap Z Beneficiaria) :
  let term := GET_get GET "term" "" in
  let coincide (b : Beneficiaria) : Prop :=
    ∃ campo, campo ∈ [nombres b; apellidos b; documento_identidad b] ∧
      ∃ pre post, Python.lower campo = pre +:+ Python.lower term +:+ post in
  (((String.length term < 3)%nat →
      buscar_beneficiarias_api GET tabla = Ok (JsonResponse [])) ∧
   ((3 ≤ String.length term)%nat →
      ∃ filas,
        buscar_beneficiarias_api GET tabla = Ok (JsonResponse (fila_api <$> filas)) ∧
        (length filas ≤ 10)%nat ∧
        ∀ k b, (k, b) ∈ filas → tabla !! k = Some b ∧ coincide b)) ∧
  TalleresViews.url_buscar_beneficiarias = Some TalleresViews.buscar_beneficiarias ∧
  ∀ (x : Usuarios.Usuario) (msgs : list Message),
    Usuarios.can_access_talleres x = true →
    ((String.length term < 3)%nat →
       TalleresViews.buscar_beneficiarias (Usuarios.Autenticado x) GET tabla msgs
       = Ok (JsonResponse [], msgs)) ∧
    ((3 ≤ String.length term)%nat →
       ∃ filas,
         TalleresViews.buscar_beneficiarias (Usuarios.Autenticado x) GET tabla msgs
         = Ok (JsonResponse (TalleresViews.fila_data <$> filas), msgs) ∧
         (length filas ≤ 10)%nat ∧
         ∀ k b, (k, b) ∈ filas → tabla !! k = Some b ∧ coincide b).
Proof.
  intros term coincide. split; [apply buscar_beneficiarias_api_spec|].
  split; [reflexivity|]. intros x msgs Hacceso.
  unfold TalleresViews.buscar_beneficiarias, Usuarios.permiso_talleres_required.
  simpl. rewrite Hacceso.
  destruct (buscar_beneficiarias_function_spec GET tabla) as [Hcorto Hlargo].
  split.
  - intros Hterm. by rewrite (Hcorto Hterm).
  - intros Hterm. destruct (Hlargo Hterm) as (filas & -> & Hdiez & Hfilas).
    by exists filas.
Qed.

(** The request [?term=ana] against a table that holds Ana Quispe, at
    both endpoints. *)
Example buscar_beneficiarias_ejemplo :
  let GET : gmap string string := {[ "term" := "ana" ]} in
  let ana := {| nombres := "Ana"; apellidos := "Quispe";
                documento_identidad := "45678912";
                telefono := "987654321"; correo := "" |} in
  let tabla : gmap Z Beneficiaria := {[ 1 := ana ]} in
  buscar_beneficiarias_api GET tabla = Ok (JsonResponse [fila_api (1, ana)]) ∧
  TalleresViews.buscar_beneficiarias_function GET tabla
  = Ok (JsonResponse [TalleresViews.fila_data (1, ana)]).
Proof. vm_compute. done. Qed.

End Busqueda.

(** * Properties of the export stubs *)

Section ReportesStubs.
Import Reportes.

(** C7: whatever template and context they are given, [generar_pdf] and
    [exportar_balance_financiero_excel] answer with a [text/plain]
    response whose text says the feature is temporarily disabled; the
    answer is never a PDF or a spreadsheet. *)
Theorem C7_exportaciones_deshabilitadas {Contexto : Type}
    (template_path : string) (context : Contexto) :
  (∃ content,
     generar_pdf template_path context = HttpResponse content "text/plain" ∧
     Python.contiene "temporalmente deshabilitada" content = true) ∧
  (∃ content,
     exportar_balance_financiero_excel context = HttpResponse content "text/plain" ∧
     Python.contiene "temporalmente deshabilitada" content = true) ∧
  (∀ content, generar_pdf template_path context
              ≠ HttpResponse content "application/pdf") ∧
  (∀ content, exportar_balance_financiero_excel context
              ≠ HttpResponse content
                  "application/vnd.openxmlformats-officedocument.spreadsheetml.sheet").
Proof.
  unfold generar_pdf, exportar_balance_financiero_excel.
  split; [eexists; split; [reflexivity|by vm_compute]|].
  split; [eexists; split; [reflexivity|by vm_compute]|].
  split; intros content Heq; by injection Heq.
Qed.

End ReportesStubs.

(** * Further properties of the status recomputation *)

Section TablasYListas.
Context {A : Type}.
Implicit Types (m : gmap Z A).

(** Counting in the queryset is counting in the table. *)
Lemma length_filter_map_to_list (P : Z * A → Prop) `{!∀ x, Decision (P x)} m :
  length (filter P (map_to_list m)) = size (filter P m).
Proof.
  induction m as [|i x m Hi IH] using map_ind.
  - by rewrite map_to_list_empty, map_filter_empty, map_size_empty.
  - rewrite (map_to_list_insert m i x Hi), filter_cons, map_filter_insert.
    case_decide as HP.
    + rewrite map_size_insert_None by (by apply map_lookup_filter_None; left).
      simpl. by rewrite IH.
    + by rewrite delete_id.
Qed.

Lemma size_filter_insert (P : Z * A → Prop) `{!∀ x, Decision (P x)} m i x :
  m !! i = None →
  size (filter P (<[i:=x]> m))
  = ((if decide (P (i, x)) then 1 else 0) + size (filter P m))%nat.
Proof.
  intros Hi. rewrite map_filter_insert. case_decide as HP.
  - by rewrite map_size_insert_None by (by apply map_lookup_filter_None; left).
  - by rewrite delete_id.
Qed.

End TablasYListas.

Section TalleresRepeticion.
Import Talleres.

Lemma set_estado_set_estado (e e' : Estado) (t : Taller) :
  set_estado e' (set_estado e t) = set_estado e' t.
Proof. done. Qed.

(** A second recomputation overwrites the result of the first. *)
Lemma salvo_cancelado_twice (hoy hoy' : Z) (t : Taller) :
  salvo_cancelado (nuevo_estado_comando hoy')
    (salvo_cancelado (nuevo_estado_comando hoy) t)
  = salvo_cancelado (nuevo_estado_comando hoy') t.
Proof.
  unfold salvo_cancelado.
  destruct (decide (estado t = CANCELADO)) as [Hc|Hc].
  - by rewrite !(bool_decide_false (estado t ≠ CANCELADO)) by naive_solver.
  - rewrite !(bool_decide_true (estado t ≠ CANCELADO)) by done.
    rewrite bool_decide_true by apply nuevo_estado_comando_spec. done.
Qed.

Lemma handle_dos_veces_lookup (hoy hoy' : Z) (db : gmap Z Taller) (k : Z) :
  (handle_actualizar_estados hoy' (handle_actualizar_estados hoy db).1).1 !! k
  = salvo_cancelado (nuevo_estado_comando hoy') <$> db !! k.
Proof.
  rewrite !handle_actualizar_estados_lookup.
  destruct (db !! k) as [t|]; [|done]. simpl. f_equal.
  apply salvo_cancelado_twice.
Qed.

(** X1: The status stored after a run depends on the day of that run only,
    not on the runs before it: running the management command (or the
    list view's recomputation) on day [hoy] and then on day [hoy'] leaves
    the table that a single run on day [hoy'] leaves. *)
Theorem ultima_ejecucion_decide (hoy hoy' : Z) (db : gmap Z Taller) :
  (handle_actualizar_estados hoy' (handle_actualizar_estados hoy db).1).1
  = (handle_actualizar_estados hoy' db).1 ∧
  actualizar_estados_talleres hoy' (actualizar_estados_talleres hoy db)
  = actualizar_estados_talleres hoy' db.
Proof.
  split; apply map_eq; intros k.
  - by rewrite handle_dos_veces_lookup, handle_actualizar_estados_lookup.
  - rewrite !actualizar_estados_talleres_lookup.
    destruct (db !! k) as [t|]; [|done]. simpl. f_equal.
    apply salvo_cancelado_twice.
Qed.

(** The counter of the command counts the rows of the queryset whose
    status the rule changes. *)
Lemma contador_comando (hoy : Z) (l : list (Z * Taller)) (db : gmap Z Taller)
    (n : nat) :
  (foldl (paso_comando hoy) (db, n) l).2
  = (n + length (filter (λ fila, estado fila.2 ≠ nuevo_estado_comando hoy fila.2) l))%nat.
Proof.
  revert db n. induction l as [|[pk t] l IH]; intros db n.
  - simpl. lia.
  - rewrite filter_cons. cbn [foldl]. unfold paso_comando at 2. cbn [snd].
    destruct (decide (estado t ≠ nuevo_estado_comando hoy t)) as [Hcambio|Hcambio].
    + rewrite bool_decide_true by done. rewrite IH. simpl. lia.
    + rewrite bool_decide_false by done. by rewrite IH.
Qed.

(** X2: What the management command reports: [talleres_actualizados] is the
    number of workshops that are not cancelled and whose stored status
    differs from the one their dates give on day [hoy]. *)
Theorem talleres_actualizados_cuenta (hoy : Z) (db : gmap Z Taller) :
  (handle_actualizar_estados hoy db).2
  = size (filter (λ kv : Z * Taller,
                    estado kv.2 ≠ CANCELADO ∧
                    estado kv.2 ≠ nuevo_estado_comando hoy kv.2) db).
Proof.
  unfold handle_actualizar_estados, objects_exclude_cancelado.
  rewrite contador_comando, length_filter_map_to_list, map_filter_filter.
  simpl. f_equal. apply map_filter_ext. intros i x _. simpl. tauto.
Qed.

(** X3: Running the command a second time on the same day changes no row
    and reports that 0 workshops were updated. *)
Theorem segunda_ejecucion_sin_cambios (hoy : Z) (db : gmap Z Taller) :
  handle_actualizar_estados hoy (handle_actualizar_estados hoy db).1
  = ((handle_actualizar_estados hoy db).1, 0%nat).
Proof.
  apply injective_projections; simpl.
  - apply map_eq. intros k.
    by rewrite handle_dos_veces_lookup, handle_actualizar_estados_lookup.
  - unfold handle_actualizar_estados at 1, objects_exclude_cancelado.
    rewrite contador_comando, length_filter_map_to_list, map_filter_filter.
    simpl. apply map_size_empty_iff.
    apply map_empty. intros k. apply map_lookup_filter_None. right.
    intros t' Hrow [Hest Hcambio]. simpl in *.
    rewrite handle_actualizar_estados_lookup in Hrow.
    destruct (db !! k) as [t|]; [|done]. simpl in Hrow.
    injection Hrow as <-. unfold salvo_cancelado in *.
    case_bool_decide; [|done]. by apply Hcambio.
Qed.

Lemma contadores_comando_talleres (today : Z) (l : list (Z * Taller))
    (db : gmap Z Taller) (a s : nat) :
  let r := foldl (paso_comando_talleres today) (db, (a, s)) l in
  (r.2.1 + r.2.2 = a + s + length l)%nat.
Proof.
  revert db a s. induction l as [|[pk t] l IH]; intros db a s; simpl.
  - lia.
  - case_bool_decide; rewrite IH; simpl; lia.
Qed.

(** X4: What the other management command reports: the two counters,
    [actualizados] and [sin_cambios], add up to the number of workshops
    in the table, cancelled ones included. *)
Theorem actualizados_mas_sin_cambios (today : Z) (db : gmap Z Taller) :
  let r := handle_actualizar_estados_talleres today db in
  (r.2.1 + r.2.2)%nat = size db.
Proof.
  simpl. unfold handle_actualizar_estados_talleres, objects_all.
  rewrite contadores_comando_talleres. by rewrite length_map_to_list.
Qed.

(** X5: No recomputation creates or deletes a workshop. The management
    command [actualizar_estados] and the list view, which save with
    [update_fields=['estado']], leave every row as it was but for its
    status. The script and the command [actualizar_estados_talleres],
    which save the whole instance, leave the name, the two dates and the
    capacity of every row as they were. *)
Theorem solo_cambia_estado (hoy : Z) (db : gmap Z Taller) (k : Z) :
  let solo_estado (db' : gmap Z Taller) :=
    match db !! k with
    | None => db' !! k = None
    | Some t => ∃ e, db' !! k = Some (set_estado e t)
    end in
  let mismos_datos (db' : gmap Z Taller) :=
    match db !! k with
    | None => db' !! k = None
    | Some t =>
        ∃ t', db' !! k = Some t' ∧ nombre t' = nombre t ∧
              fecha_inicio t' = fecha_inicio t ∧ fecha_fin t' = fecha_fin t ∧
              capacidad t' = capacidad t
    end in
  solo_estado (handle_actualizar_estados hoy db).1 ∧
  solo_estado (actualizar_estados_talleres hoy db) ∧
  mismos_datos (handle_actualizar_estados_talleres hoy db).1 ∧
  mismos_datos (actualizar_estados hoy db).
Proof.
  simpl. rewrite handle_actualizar_estados_lookup,
    handle_actualizar_estados_talleres_lookup, actualizar_estados_lookup,
    actualizar_estados_talleres_lookup.
  destruct (db !! k) as [t|]; [|done]. simpl.
  unfold salvo_cancelado, con_regla.
  split; [|split; [|split]]; try (by eexists).
  all: case_bool_decide; [by eexists|exists (estado t); by rewrite set_estado_id].
Qed.

(** X6: As the days go by a status never moves backwards:
    PROGRAMADO, then EN_CURSO, then FINALIZADO. *)
Theorem estado_no_retrocede (hoy hoy' : Z) (db : gmap Z Taller) (pk : Z)
    (t : Taller) :
  hoy ≤ hoy' → db !! pk = Some t → estado t ≠ CANCELADO →
  ∃ t1 t2,
    (handle_actualizar_estados hoy db).1 !! pk = Some t1 ∧
    (handle_actualizar_estados hoy' (handle_actualizar_estados hoy db).1).1 !! pk
      = Some t2 ∧
    (estado t1 = FINALIZADO → estado t2 = FINALIZADO) ∧
    (estado t1 = EN_CURSO → estado t2 ≠ PROGRAMADO) ∧
    (estado t2 = PROGRAMADO → estado t1 = PROGRAMADO).
Proof.
  intros Hdias Hrow Hest.
  rewrite handle_dos_veces_lookup, handle_actualizar_estados_lookup, Hrow. simpl.
  unfold salvo_cancelado. rewrite bool_decide_true by done.
  eexists _, _. split; [done|]. split; [done|]. simpl.
  unfold nuevo_estado_comando.
  repeat case_bool_decide; repeat split; intros; try done; lia.
Qed.

Lemma estado_no_retrocede_witness :
  let t := {| nombre := "Bordado"; fecha_inicio := 10; fecha_fin := 20;
              capacidad := 10; estado := PROGRAMADO |} in
  ∃ t1 t2,
    (handle_actualizar_estados 15 {[ 4 := t ]}).1 !! 4 = Some t1 ∧
    (handle_actualizar_estados 25 (handle_actualizar_estados 15 {[ 4 := t ]}).1).1 !! 4
      = Some t2 ∧
    (estado t1 = EN_CURSO → estado t2 ≠ PROGRAMADO).
Proof.
  intros t.
  destruct (estado_no_retrocede 15 25 {[ 4 := t ]} 4 t)
    as (t1 & t2 & H1 & H2 & _ & H3 & _).
  - lia.
  - apply lookup_singleton_eq.
  - simpl. discriminate.
  - exists t1, t2. split; [exact H1|]. split; [exact H2|exact H3].
Defined.

End TalleresRepeticion.

(** * Properties of the workshop pages and forms *)

Section TalleresFechas.
Import Talleres TallerDetailView.

(** The loop collects, in order, the days of the period that fall on
    Monday to Friday, unless it has to step past the last day there is. *)
Lemma fechas_bucle_spec (desde hasta : Z) (fechas : list Z) :
  fechas_bucle desde hasta fechas
  = if decide (desde ≤ hasta ∧ date_max ≤ hasta) then inr OverflowError
    else inl (fechas ++ filter (λ d, weekday d < 5) (seqZ desde (hasta - desde + 1))).
Proof.
  funelim (fechas_bucle desde hasta fechas).
  - cbn zeta. case_bool_decide as Hmax.
    + by rewrite decide_True by lia.
    + rewrite H. destruct (decide (fecha_actual ≤ fecha_fin0 ∧ date_max ≤ fecha_fin0))
        as [Hd|Hd].
      * by rewrite decide_True by lia.
      * rewrite decide_False by lia. f_equal.
        rewrite (seqZ_cons fecha_actual) by lia. rewrite filter_cons.
        replace (Z.succ fecha_actual) with (fecha_actual + 1) by lia.
        replace (Z.pred (fecha_fin0 - fecha_actual + 1))
          with (fecha_fin0 - (fecha_actual + 1) + 1) by lia.
        destruct (decide (weekday fecha_actual < 5)) as [Hw|Hw].
        -- rewrite bool_decide_true by done. by rewrite <- app_assoc.
        -- by rewrite bool_decide_false by done.
  - rewrite decide_False by lia.
    rewrite seqZ_nil by lia. by rewrite filter_nil, app_nil_r.
Qed.

Lemma StronglySorted_filter_seqZ (P : Z → Prop) `{!∀ d, Decision (P d)}
    (desde n : Z) :
  StronglySorted Z.lt (filter P (seqZ desde n)).
Proof.
  remember (Z.to_nat n) as k eqn:Hk. revert desde n Hk.
  induction k as [|k IH]; intros desde n Hk.
  - rewrite seqZ_nil by lia. constructor.
  - rewrite seqZ_cons by lia. rewrite filter_cons.
    assert (StronglySorted Z.lt (filter P (seqZ (Z.succ desde) (Z.pred n))))
      as Hresto by (apply IH; lia).
    case_decide; [|done]. constructor; [done|].
    apply Forall_forall. intros d [_ Hd%elem_of_seqZ]%list_elem_of_filter. lia.
Qed.

(** The occupancy percentage inside the page never raises, whatever the
    capacity. *)
Lemma porcentaje_ocupacion_Ok {float : Type} (int_truediv : Z → Z → float)
    (float_mul_int : float → Z → float) (pk : Z) (taller : Taller)
    (ps : gmap Z Participante) :
  ∃ x, Talleres.porcentaje_ocupacion int_truediv float_mul_int ps pk taller = Ok x.
Proof.
  unfold Talleres.porcentaje_ocupacion, truediv.
  case_bool_decide as Hcap; [by eexists|].
  rewrite bool_decide_false by lia. by eexists.
Qed.

(** The page of a workshop that ends before 31 December 9999. *)
Lemma get_context_data_Ok {float : Type} (int_truediv : Z → Z → float)
    (float_mul_int : float → Z → float) (hoy pk : Z) (taller : Taller)
    (ps : gmap Z Participante) (ms : gmap Z Material) :
  fecha_fin taller < date_max →
  ∃ ctx, get_context_data int_truediv float_mul_int hoy pk taller ps ms = inl ctx ∧
    fechas_taller ctx
      = filter (λ d, weekday d < 5)
          (seqZ (fecha_inicio taller) (fecha_fin taller - fecha_inicio taller + 1)) ∧
    total_sesiones ctx = fecha_fin taller - fecha_inicio taller + 1 ∧
    es_taller_actual ctx
      = bool_decide (fecha_inicio taller ≤ hoy) && bool_decide (hoy ≤ fecha_fin taller) ∧
    es_taller_pasado ctx = bool_decide (fecha_fin taller < hoy) ∧
    es_taller_futuro ctx = bool_decide (fecha_inicio taller > hoy).
Proof.
  intros Hmax. unfold get_context_data.
  destruct (porcentaje_ocupacion_Ok int_truediv float_mul_int pk taller ps)
    as [x ->].
  rewrite fechas_bucle_spec, decide_False by lia.
  eexists. split; [reflexivity|]. by repeat split.
Qed.

(** X7: The detail page is built for every workshop, whatever its capacity,
    except one: a workshop that does not end before it starts and ends
    on 31 December 9999 makes the loop over its days step past the last
    date, and the page raises [OverflowError]. *)
Theorem detalle_desborda {float : Type} (int_truediv : Z → Z → float)
    (float_mul_int : float → Z → float) (hoy pk : Z) (taller : Taller)
    (ps : gmap Z Participante) (ms : gmap Z Material) :
  if decide (fecha_inicio taller ≤ fecha_fin taller ∧ date_max ≤ fecha_fin taller)
  then get_context_data int_truediv float_mul_int hoy pk taller ps ms
       = inr OverflowError
  else ∃ ctx, get_context_data int_truediv float_mul_int hoy pk taller ps ms
              = inl ctx.
Proof.
  unfold get_context_data.
  destruct (porcentaje_ocupacion_Ok int_truediv float_mul_int pk taller ps)
    as [x ->].
  rewrite fechas_bucle_spec. case_decide; [done|by eexists].
Qed.

(** A workshop for the last three days of the year 9999. *)
Example detalle_desborda_ejemplo :
  get_context_data (λ a b, Qc_of_Z a / Qc_of_Z b)%Qc (λ x n, x * Qc_of_Z n)%Qc
    738886 4
    {| nombre := "Bordado"; fecha_inicio := 3652057; fecha_fin := 3652059;
       capacidad := 10; estado := PROGRAMADO |} ∅ ∅
  = inr OverflowError.
Proof. by vm_compute. Qed.

(** X8: The dates the detail page offers for taking attendance are exactly
    the Monday-to-Friday days from the start date to the end date, in
    increasing order; there is none when the end date precedes the start
    date, and there are never more than [total_sesiones] of them. *)
Theorem fechas_taller_spec {float : Type} (int_truediv : Z → Z → float)
    (float_mul_int : float → Z → float) (hoy pk : Z) (taller : Taller)
    (ps : gmap Z Participante) (ms : gmap Z Material) :
  fecha_fin taller < date_max →
  ∃ ctx, get_context_data int_truediv float_mul_int hoy pk taller ps ms = inl ctx ∧
    (∀ d, d ∈ fechas_taller ctx
          ↔ fecha_inicio taller ≤ d ∧ d ≤ fecha_fin taller ∧ weekday d < 5) ∧
    StronglySorted Z.lt (fechas_taller ctx) ∧
    (fecha_fin taller < fecha_inicio taller → fechas_taller ctx = []) ∧
    (Z.of_nat (length (fechas_taller ctx)) ≤ Z.max 0 (total_sesiones ctx)).
Proof.
  intros Hmax.
  destruct (get_context_data_Ok int_truediv float_mul_int hoy pk taller ps ms Hmax)
    as (ctx & Hctx & Hfechas & Htotal & _).
  exists ctx. split; [done|]. rewrite Hfechas, Htotal.
  split; [|split; [|split]].
  - intros d. rewrite list_elem_of_filter, elem_of_seqZ. lia.
  - apply StronglySorted_filter_seqZ.
  - intros Hinv. by rewrite seqZ_nil by lia.
  - pose proof (length_filter (λ d, weekday d < 5)
                  (seqZ (fecha_inicio taller)
                     (fecha_fin taller - fecha_inicio taller + 1))) as Hlen.
    rewrite length_seqZ in Hlen. lia.
Qed.

(** Day 738886 is Monday 1 January 2024: a workshop from that day to
    Sunday the 14th has the ten working days of the two weeks. *)
Lemma fechas_taller_spec_witness :
  let t := {| nombre := "Bordado"; fecha_inicio := 738886; fecha_fin := 738899;
              capacidad := 10; estado := PROGRAMADO |} in
  ∃ ctx,
    get_context_data (λ a b, Qc_of_Z a / Qc_of_Z b)%Qc
      (λ x n, x * Qc_of_Z n)%Qc 738890 4 t ∅ ∅ = inl ctx ∧
    (738893 ∈ fechas_taller ctx
     ↔ fecha_inicio t ≤ 738893 ∧ 738893 ≤ fecha_fin t ∧ weekday 738893 < 5) ∧
    (Z.of_nat (length (fechas_taller ctx)) ≤ Z.max 0 (total_sesiones ctx)).
Proof.
  intros t.
  destruct (fechas_taller_spec (λ a b, Qc_of_Z a / Qc_of_Z b)%Qc
              (λ x n, x * Qc_of_Z n)%Qc 738890 4 t ∅ ∅)
    as (ctx & H1 & H2 & _ & _ & H3).
  - reflexivity.
  - exists ctx. split; [exact H1|]. split; [exact (H2 738893)|exact H3].
Defined.

Example fechas_taller_ejemplo :
  fechas_bucle 738886 738899 []
  = inl [738886; 738887; 738888; 738889; 738890;
         738893; 738894; 738895; 738896; 738897].
Proof. reflexivity. Qed.

Lemma get_object_fila (hoy pk : Z) (db : gmap Z Taller) (t : Taller) :
  db !! pk = Some t → estado t ≠ CANCELADO →
  ∃ db', get_object hoy pk db
         = Ok (set_estado (nuevo_estado_detalle hoy t) t, db').
Proof.
  intros Hrow Hest. unfold get_object. rewrite Hrow.
  rewrite bool_decide_true by done. case_bool_decide as Hcambio.
  - by eexists.
  - assert (estado t = nuevo_estado_detalle hoy t) as Heq
      by (by destruct (decide (estado t = nuevo_estado_detalle hoy t))).
    exists db. by rewrite <- Heq, set_estado_id.
Qed.

(** X9: On the detail page of a workshop that is not cancelled the three
    flags agree with the status [get_object] has just stored, when both
    read the same day: future means PROGRAMADO, current means EN_CURSO,
    and past without future means FINALIZADO (past alone, when the dates
    are in order). *)
Theorem detalle_banderas {float : Type} (int_truediv : Z → Z → float)
    (float_mul_int : float → Z → float) (hoy pk : Z) (db : gmap Z Taller)
    (t : Taller) (ps : gmap Z Participante) (ms : gmap Z Material) :
  db !! pk = Some t → estado t ≠ CANCELADO → fecha_fin t < date_max →
  ∃ t' db' ctx,
    get_object hoy pk db = Ok (t', db') ∧
    get_context_data int_truediv float_mul_int hoy pk t' ps ms = inl ctx ∧
    (es_taller_futuro ctx = true ↔ estado t' = PROGRAMADO) ∧
    (es_taller_actual ctx = true ↔ estado t' = EN_CURSO) ∧
    (es_taller_pasado ctx = true ∧ es_taller_futuro ctx = false
       ↔ estado t' = FINALIZADO) ∧
    (fecha_inicio t ≤ fecha_fin t →
       (es_taller_pasado ctx = true ↔ estado t' = FINALIZADO)).
Proof.
  intros Hrow Hest Hmax.
  destruct (get_object_fila hoy pk db t Hrow Hest) as [db' Hobj].
  destruct (get_context_data_Ok int_truediv float_mul_int hoy pk
              (set_estado (nuevo_estado_detalle hoy t) t) ps ms Hmax)
    as (ctx & Hctx & _ & _ & Hact & Hpas & Hfut).
  eexists _, db', ctx. split; [done|]. split; [done|].
  rewrite Hact, Hpas, Hfut. simpl. unfold nuevo_estado_detalle.
  repeat case_bool_decide; simpl; repeat split; intros; try done; try lia;
    try (by destruct_and?).
Qed.

Lemma detalle_banderas_witness :
  let t := {| nombre := "Bordado"; fecha_inicio := 10; fecha_fin := 20;
              capacidad := 10; estado := PROGRAMADO |} in
  ∃ t' db' ctx,
    get_object 15 4 {[ 4 := t ]} = Ok (t', db') ∧
    get_context_data (λ a b, Qc_of_Z a / Qc_of_Z b)%Qc
      (λ x n, x * Qc_of_Z n)%Qc 15 4 t' ∅ ∅ = inl ctx ∧
    (es_taller_actual ctx = true ↔ estado t' = EN_CURSO).
Proof.
  intros t.
  destruct (detalle_banderas (λ a b, Qc_of_Z a / Qc_of_Z b)%Qc
              (λ x n, x * Qc_of_Z n)%Qc 15 4 {[ 4 := t ]} t ∅ ∅)
    as (t' & db' & ctx & H1 & H2 & _ & H3 & _).
  - apply lookup_singleton_eq.
  - simpl. discriminate.
  - reflexivity.
  - exists t', db', ctx. split; [exact H1|]. split; [exact H2|exact H3].
Defined.

End TalleresFechas.

Section TalleresLista.
Import Talleres.

(** X10: Every workshop is counted by at least one of the three period
    counters of the list page; when no workshop ends before it starts
    the three counters add up to the total exactly. *)
Theorem lista_conteos (hoy : Z) (GET : list (string * string))
    (db : gmap Z Taller) :
  let ctx := TallerListView.get_context_data hoy GET db in
  TallerListView.total_talleres ctx
    ≤ TallerListView.talleres_activos ctx + TallerListView.talleres_proximos ctx
      + TallerListView.talleres_finalizados ctx ∧
  ((∀ k t, db !! k = Some t → fecha_inicio t ≤ fecha_fin t) →
   TallerListView.total_talleres ctx
     = TallerListView.talleres_activos ctx + TallerListView.talleres_proximos ctx
       + TallerListView.talleres_finalizados ctx).
Proof.
  simpl. unfold TallerListView.count.
  induction db as [|i x m Hi IH] using map_ind.
  - rewrite !map_filter_empty, map_size_empty. split; [lia|]. intros _. lia.
  - destruct IH as [IHle IHeq].
    rewrite !size_filter_insert by done.
    rewrite map_size_insert_None by done. simpl.
    split.
    + repeat case_decide; lia.
    + intros Hord.
      assert (fecha_inicio x ≤ fecha_fin x) as Hx
        by (apply (Hord i); apply lookup_insert_eq).
      assert (∀ k t, m !! k = Some t → fecha_inicio t ≤ fecha_fin t) as Hm.
      { intros k t Hk. apply (Hord k). rewrite lookup_insert_ne; [done|].
        intros ->. by rewrite Hi in Hk. }
      specialize (IHeq Hm). repeat case_decide; lia.
Qed.

(** A workshop stored with its end before its start is counted twice on
    the days in between: as a coming one and as a finished one. *)
Example lista_conteos_invertido :
  let ctx := TallerListView.get_context_data 15 [("page", "2"); ("estado", "EN_CURSO")]
               {[ 1 := {| nombre := "Tejido"; fecha_inicio := 20; fecha_fin := 10;
                          capacidad := 8; estado := PROGRAMADO |} ]} in
  TallerListView.total_talleres ctx = 1 ∧
  TallerListView.talleres_activos ctx = 0 ∧
  TallerListView.talleres_proximos ctx = 1 ∧
  TallerListView.talleres_finalizados ctx = 1 ∧
  TallerListView.current_filters ctx = "estado=EN_CURSO".
Proof. vm_compute. done. Qed.

End TalleresLista.

Section TalleresFormularios.
Import Talleres.

Lemma taller_form_clean_fechas (cd : TallerForm.cleaned_data) (inicio fin : Z) :
  TallerForm.clean cd = [] → TallerForm.fecha_inicio cd = Some inicio →
  TallerForm.fecha_fin cd = Some fin → inicio ≤ fin.
Proof.
  unfold TallerForm.clean. intros [Hfechas _]%app_nil Hi Hf.
  rewrite Hi, Hf in Hfechas. case_bool_decide; [done|lia].
Qed.

(** X11: [TallerForm.clean] adds no error exactly when the end date is not
    before the start date (for the dates that are there) and the
    capacity is not negative: a capacity of 0 passes this check. *)
Theorem taller_form_clean (cd : TallerForm.cleaned_data) :
  TallerForm.clean cd = [] ↔
    (∀ inicio fin, TallerForm.fecha_inicio cd = Some inicio →
                   TallerForm.fecha_fin cd = Some fin → inicio ≤ fin) ∧
    (∀ c, TallerForm.capacidad cd = Some c → 0 ≤ c).
Proof.
  unfold TallerForm.clean. rewrite app_nil.
  apply Morphisms_Prop.and_iff_morphism.
  - destruct (TallerForm.fecha_inicio cd) as [inicio|],
      (TallerForm.fecha_fin cd) as [fin|]; try (split; intros; done).
    case_bool_decide as Hinv; split; intros Hx; try done.
    + specialize (Hx _ _ eq_refl eq_refl). lia.
    + intros ?? [= <-] [= <-]. lia.
  - destruct (TallerForm.capacidad cd) as [c|]; [|split; intros; done].
    destruct (decide (c < 0)) as [Hneg|Hneg].
    + rewrite !bool_decide_true by lia. split; intros Hx; [done|].
      specialize (Hx _ eq_refl). lia.
    + assert (bool_decide (c ≠ 0) && bool_decide (c ≤ 0) = false) as ->.
      { apply andb_false_iff. rewrite !bool_decide_eq_false. lia. }
      split; [|done]. intros _ ? [= <-]. lia.
Qed.

(** X12: A workshop that went through the form and the create view (or the
    update view) has the status the dates call for, also at the end:
    FINALIZADO exactly when today is after the end date. *)
Theorem formulario_valido_estado (cd : TallerForm.cleaned_data) (t : Taller)
    (hoy : Z) (db : gmap Z Taller) (msgs : list Message) (pk : Z) :
  TallerForm.clean cd = [] → TallerForm.instance cd = Some t →
  estado t ≠ CANCELADO →
  ∃ pk' db' msgs' t',
    crear_form_valid hoy t db msgs = (pk', db', msgs') ∧
    db' !! pk' = Some t' ∧
    editar_form_valid hoy pk t db !! pk = Some t' ∧
    (estado t' = PROGRAMADO ↔ hoy < fecha_inicio t) ∧
    (estado t' = EN_CURSO ↔ fecha_inicio t ≤ hoy ∧ hoy ≤ fecha_fin t) ∧
    (estado t' = FINALIZADO ↔ hoy > fecha_fin t).
Proof.
  intros Hclean Hinst Hest.
  assert (fecha_inicio t ≤ fecha_fin t) as Hord.
  { pose proof (λ inicio fin, taller_form_clean_fechas cd inicio fin Hclean)
      as Hfechas.
    unfold TallerForm.instance in Hinst.
    destruct (TallerForm.nombre cd), (TallerForm.fecha_inicio cd) as [inicio|],
      (TallerForm.fecha_fin cd) as [fin|], (TallerForm.capacidad cd),
      (TallerForm.estado cd); try done.
    injection Hinst as <-. simpl. by apply Hfechas. }
  unfold crear_form_valid, editar_form_valid, save.
  rewrite bool_decide_true by done.
  eexists _, _, _, _. split; [done|]. split; [apply lookup_insert_eq|].
  split; [apply lookup_insert_eq|]. simpl.
  unfold estado_crear. repeat case_bool_decide; repeat split; intros; try done; lia.
Qed.

Lemma formulario_valido_estado_witness :
  let t := {| nombre := "Bordado"; fecha_inicio := 10; fecha_fin := 20;
              capacidad := 10; estado := PROGRAMADO |} in
  ∃ pk' db' msgs' t',
    crear_form_valid 25 t ∅ [] = (pk', db', msgs') ∧
    db' !! pk' = Some t' ∧ (estado t' = FINALIZADO ↔ 25 > fecha_fin t).
Proof.
  intros t.
  destruct (formulario_valido_estado
              {| TallerForm.nombre := Some "Bordado";
                 TallerForm.fecha_inicio := Some 10;
                 TallerForm.fecha_fin := Some 20;
                 TallerForm.capacidad := Some 10;
                 TallerForm.estado := Some PROGRAMADO |} t 25 ∅ [] 1)
    as (pk' & db' & msgs' & t' & H1 & H2 & _ & _ & _ & H3).
  - reflexivity.
  - reflexivity.
  - simpl. discriminate.
  - exists pk', db', msgs', t'. split; [exact H1|]. split; [exact H2|exact H3].
Defined.

(** X13: The attendance form accepts a date exactly when it lies within the
    workshop's period, so it accepts every date the detail page offers;
    for a workshop whose end precedes its start it rejects every date. *)
Theorem asistencia_form_acepta_fechas_taller {float : Type}
    (int_truediv : Z → Z → float) (float_mul_int : float → Z → float)
    (hoy pk : Z) (taller : Taller) (p : Participante)
    (ps : gmap Z Participante) (ms : gmap Z TallerDetailView.Material) :
  fecha_fin taller < TallerDetailView.date_max →
  (∀ d, AsistenciaForm.clean
          {| AsistenciaForm.participante := Some (p, taller);
             AsistenciaForm.fecha := Some d |} = []
        ↔ fecha_inicio taller ≤ d ∧ d ≤ fecha_fin taller) ∧
  ∃ ctx,
    TallerDetailView.get_context_data int_truediv float_mul_int hoy pk taller ps ms
    = inl ctx ∧
    ∀ d, d ∈ TallerDetailView.fechas_taller ctx →
         AsistenciaForm.clean
           {| AsistenciaForm.participante := Some (p, taller);
              AsistenciaForm.fecha := Some d |} = [].
Proof.
  intros Hmax.
  assert (∀ d, AsistenciaForm.clean
                 {| AsistenciaForm.participante := Some (p, taller);
                    AsistenciaForm.fecha := Some d |} = []
               ↔ fecha_inicio taller ≤ d ∧ d ≤ fecha_fin taller) as Hclean.
  { intros d. unfold AsistenciaForm.clean. simpl.
    repeat case_bool_decide; simpl; split; intros; try done; lia. }
  split; [done|].
  destruct (get_context_data_Ok int_truediv float_mul_int hoy pk taller ps ms Hmax)
    as (ctx & Hctx & Hfechas & _).
  exists ctx. split; [done|]. intros d Hd. apply Hclean.
  rewrite Hfechas in Hd.
  apply list_elem_of_filter in Hd as [_ Hd%elem_of_seqZ]. lia.
Qed.

Lemma asistencia_form_acepta_fechas_taller_witness :
  let t := {| nombre := "Bordado"; fecha_inicio := 738886; fecha_fin := 738899;
              capacidad := 10; estado := PROGRAMADO |} in
  let p := {| taller_id := 4; dni := "12345678" |} in
  AsistenciaForm.clean
    {| AsistenciaForm.participante := Some (p, t);
       AsistenciaForm.fecha := Some 738900 |} ≠ [] ∧
  ∃ ctx,
    TallerDetailView.get_context_data (λ a b, Qc_of_Z a / Qc_of_Z b)%Qc
      (λ x n, x * Qc_of_Z n)%Qc 738890 4 t {[ 1 := p ]} ∅ = inl ctx ∧
    ∀ d, d ∈ TallerDetailView.fechas_taller ctx →
         AsistenciaForm.clean
           {| AsistenciaForm.participante := Some (p, t);
              AsistenciaForm.fecha := Some d |} = [].
Proof.
  intros t p.
  destruct (asistencia_form_acepta_fechas_taller (λ a b, Qc_of_Z a / Qc_of_Z b)%Qc
              (λ x n, x * Qc_of_Z n)%Qc 738890 4 t p {[ 1 := p ]} ∅)
    as (Hclean & ctx & Hctx & Hfechas).
  - reflexivity.
  - split.
    + intros Hacepta. apply Hclean in Hacepta. simpl in Hacepta. lia.
    + exists ctx. split; [exact Hctx|exact Hfechas].
Defined.

End TalleresFormularios.

(** * [int] reads back what [str] writes *)

Section IntStr.
Import Python Cadenas.

Lemma lstrip_sin_espacios (s : string) : sin_espacios s = true → lstrip s = s.
Proof.
  destruct s as [|c s]; [done|]. simpl. intros [Hc _]%andb_true_iff.
  apply negb_true_iff in Hc. by rewrite Hc.
Qed.

Lemma sin_espacios_rev_app (s t : string) :
  sin_espacios s = true → sin_espacios t = true →
  sin_espacios (String.rev_app s t) = true.
Proof.
  revert t. induction s as [|c s IH]; intros t Hs Ht; [done|].
  simpl in *. apply andb_true_iff in Hs as [Hc Hs].
  apply IH; [done|]. simpl. by rewrite Hc, Ht.
Qed.

Lemma app_empty_r (s : string) : s +:+ "" = s.
Proof. induction s as [|c s IH]; [done|]. by rewrite app_String, IH. Qed.

Lemma rev_app_rev_app (s t u : string) :
  String.rev_app (String.rev_app s t) u = String.rev_app t (s +:+ u).
Proof.
  revert t. induction s as [|c s IH]; intros t; [done|].
  simpl. rewrite IH. by rewrite app_String.
Qed.

Lemma rev_rev (s : string) : String.rev (String.rev s) = s.
Proof.
  unfold String.rev. rewrite rev_app_rev_app. simpl. apply app_empty_r.
Qed.

Lemma strip_sin_espacios (s : string) : sin_espacios s = true → strip s = s.
Proof.
  intros Hs. unfold strip. rewrite (lstrip_sin_espacios s Hs).
  rewrite lstrip_sin_espacios; [apply rev_rev|].
  by apply sin_espacios_rev_app.
Qed.

Lemma digito_pretty_N_char (d : N) :
  (d < 10)%N → digito (pretty_N_char d) = Some (Z.of_N d).
Proof.
  intros Hd.
  assert (d = 0 ∨ d = 1 ∨ d = 2 ∨ d = 3 ∨ d = 4 ∨ d = 5 ∨ d = 6
          ∨ d = 7 ∨ d = 8 ∨ d = 9)%N as Hcasos by lia.
  destruct_or!; subst d; reflexivity.
Qed.

Lemma es_espacio_pretty_N_char (d : N) : es_espacio (pretty_N_char d) = false.
Proof. unfold pretty_N_char. by repeat case_match. Qed.

Lemma sin_espacios_pretty_N_go (x : N) (s : string) :
  sin_espacios s = true → sin_espacios (pretty_N_go x s) = true.
Proof.
  revert s. induction (N.lt_wf_0 x) as [x _ IH]; intros s Hs.
  assert (x = 0 ∨ 0 < x)%N as [->|Hx] by lia; [done|].
  rewrite pretty_N_go_step by done. apply IH; [by apply N.div_lt|].
  simpl. by rewrite es_espacio_pretty_N_char, Hs.
Qed.

(** Reading the digits [str] wrote for a positive number gives the
    number back. *)
Lemma leer_digitos_pretty_N_go (x : N) (b : bool) (s : string) :
  (0 < x)%N →
  leer_digitos 0 b (pretty_N_go x s) = leer_digitos (Z.of_N x) true s.
Proof.
  revert b s. induction (N.lt_wf_0 x) as [x _ IH]; intros b s Hx.
  rewrite pretty_N_go_step by done.
  assert (x `mod` 10 < 10)%N as Hmod by (by apply N.mod_lt).
  destruct (N.eq_0_gt_0_cases (x `div` 10)) as [Hdiv|Hdiv].
  - rewrite Hdiv, pretty_N_go_0. simpl.
    rewrite digito_pretty_N_char by done. f_equal.
    pose proof (N.div_mod x 10 ltac:(lia)). lia.
  - rewrite IH by (done || by apply N.div_lt). simpl.
    rewrite digito_pretty_N_char by done. f_equal.
    pose proof (N.div_mod x 10 ltac:(lia)). lia.
Qed.

Lemma pretty_N_go_head (x : N) (s : string) :
  (0 < x)%N →
  ∃ c r, pretty_N_go x s = String c r ∧ is_Some (digito c).
Proof.
  revert s. induction (N.lt_wf_0 x) as [x _ IH]; intros s Hx.
  rewrite pretty_N_go_step by done.
  destruct (N.eq_0_gt_0_cases (x `div` 10)) as [Hdiv|Hdiv].
  - rewrite Hdiv, pretty_N_go_0. eexists _, _. split; [done|].
    rewrite digito_pretty_N_char by (by apply N.mod_lt). by eexists.
  - apply IH; [by apply N.div_lt|done].
Qed.

(** A text that starts with a digit has no sign for [int] to take off. *)
Lemma int_sin_signo (c : ascii) (r : string) :
  is_Some (digito c) → sin_espacios (String c r) = true →
  int (String c r)
  = match leer_digitos 0 false (String c r) with
    | Some n => Ok n
    | None => Raise ValueError
    end.
Proof.
  intros [d Hd] Hs. unfold int. rewrite (strip_sin_espacios _ Hs).
  destruct c as [[] [] [] [] [] [] [] []];
    try (vm_compute in Hd; discriminate Hd); reflexivity.
Qed.

Lemma int_str_pos (p : positive) :
  leer_digitos 0 false (pretty_N_go (N.pos p) "") = Some (Z.pos p) ∧
  sin_espacios (pretty_N_go (N.pos p) "") = true.
Proof.
  split; [|by apply sin_espacios_pretty_N_go].
  rewrite leer_digitos_pretty_N_go by lia. done.
Qed.

(** [int(str(n))] is [n], for every integer. *)
Lemma int_str (n : Z) : int (str n) = Ok n.
Proof.
  unfold str, pretty, pretty_Z. destruct n as [|p|p].
  - reflexivity.
  - unfold pretty, pretty_positive, pretty, pretty_N.
    rewrite decide_False by done.
    destruct (int_str_pos p) as [Hleer Hs].
    destruct (pretty_N_go_head (N.pos p) "") as (c & r & Hcr & Hc); [lia|].
    rewrite Hcr in *. rewrite int_sin_signo by done. by rewrite Hleer.
  - unfold pretty, pretty_positive, pretty, pretty_N.
    rewrite decide_False by done.
    destruct (int_str_pos p) as [Hleer Hs].
    change ("-" +:+ pretty_N_go (N.pos p) "")
      with (String "-" (pretty_N_go (N.pos p) "")).
    assert (sin_espacios (String "-" (pretty_N_go (N.pos p) "")) = true) as Hs'.
    { change (negb (es_espacio "-") && sin_espacios (pretty_N_go (N.pos p) "") = true).
      by rewrite Hs. }
    unfold int. rewrite (strip_sin_espacios _ Hs').
    cbv iota beta. by rewrite Hleer.
Qed.

Lemma str_no_vacio (n : Z) : str n ≠ "".
Proof.
  intros Hn. pose proof (int_str n) as Hint. rewrite Hn in Hint. done.
Qed.

End IntStr.

(** * Properties of the access rules *)

Section Acceso.
Import Usuarios.

Lemma is_admin_true (x : Usuario) : is_admin x = true ↔ role x = "administrador".
Proof. unfold is_admin, ADMINISTRADOR. apply bool_decide_eq_true. Qed.

Lemma is_admin_false (x : Usuario) : is_admin x = false ↔ role x ≠ "administrador".
Proof. unfold is_admin, ADMINISTRADOR. apply bool_decide_eq_false. Qed.

(** The first [buscar_beneficiarias] of talleres/views.py, the one no
    route reaches, either answers with the empty
    list or raises [FieldError]; it never gets as far as reading an
    attribute. *)
Lemma buscar_beneficiarias_casos (GET : gmap string string)
    (tabla : gmap Z Beneficiarias.Beneficiaria) :
  Talleres.buscar_beneficiarias GET tabla = Ok (JsonResponse [])
  ∨ Talleres.buscar_beneficiarias GET tabla = Raise (FieldError "dni").
Proof.
  unfold Talleres.buscar_beneficiarias.
  destruct (_ || _); [by left|by right].
Qed.

(** X14: The route [buscar-beneficiarias/] is served by the second of the two
    functions called [buscar_beneficiarias], the one that filters on
    [documento_identidad]. For a user with access to the module it
    answers the empty list for a term of fewer than three characters and
    otherwise at most ten rows of the table, each containing the term,
    case folded, in its names, surnames or document number. *)
Theorem busqueda_enrutada (x : Usuario) (GET : gmap string string)
    (tabla : gmap Z Beneficiarias.Beneficiaria) (msgs : list Message) :
  role x = "administrador" ∨ permiso_talleres x = true →
  let term := Beneficiarias.GET_get GET "term" "" in
  let r := TalleresViews.buscar_beneficiarias (Autenticado x) GET tabla msgs in
  TalleresViews.url_buscar_beneficiarias = Some TalleresViews.buscar_beneficiarias ∧
  ((String.length term < 3)%nat → r = Ok (JsonResponse [], msgs)) ∧
  ((3 ≤ String.length term)%nat →
     ∃ filas,
       r = Ok (JsonResponse (TalleresViews.fila_data <$> filas), msgs) ∧
       (length filas ≤ 10)%nat ∧
       ∀ k b, (k, b) ∈ filas →
         tabla !! k = Some b ∧
         ∃ campo,
           campo ∈ [Beneficiarias.nombres b; Beneficiarias.apellidos b;
                    Beneficiarias.documento_identidad b] ∧
           ∃ pre post,
             Python.lower campo = pre +:+ Python.lower term +:+ post).
Proof.
  intros Hacc term r. split; [reflexivity|].
  assert (can_access_talleres x = true) as Hpuede.
  { unfold can_access_talleres. apply orb_true_iff.
    destruct Hacc as [Hrol|Hperm]; [left|by right]. by apply is_admin_true. }
  clear Hacc.
  unfold r, TalleresViews.buscar_beneficiarias, permiso_talleres_required.
  simpl. rewrite Hpuede. unfold TalleresViews.buscar_beneficiarias_function.
  fold term. split.
  - intros Hcorto. by rewrite bool_decide_true.
  - intros Hlargo. rewrite bool_decide_false by lia.
    unfold Beneficiarias.objects_filter. rewrite resolver_api.
    eexists. split; [done|]. split.
    + rewrite length_take. lia.
    + intros k b Hin. apply subseteq_take in Hin.
      apply list_elem_of_filter in Hin as [Hmatch Hin].
      apply elem_of_map_to_list in Hin. split; [done|]. simpl in Hmatch.
      apply orb_true_iff in Hmatch as [Hmatch|Hdoc];
        [apply orb_true_iff in Hmatch as [Hnom|Hape]|].
      * exists (Beneficiarias.nombres b). split; [set_solver|].
        by apply contiene_spec.
      * exists (Beneficiarias.apellidos b). split; [set_solver|].
        by apply contiene_spec.
      * exists (Beneficiarias.documento_identidad b). split; [set_solver|].
        by apply contiene_spec.
Qed.

Lemma busqueda_enrutada_witness :
  let x := {| role := "empleado"; permiso_beneficiarias := false;
              permiso_finanzas := false; permiso_talleres := true;
              permiso_reportes := false |} in
  let ana := {| Beneficiarias.nombres := "Ana"; Beneficiarias.apellidos := "Quispe";
                Beneficiarias.documento_identidad := "45678912";
                Beneficiarias.telefono := "987654321";
                Beneficiarias.correo := "" |} in
  TalleresViews.url_buscar_beneficiarias = Some TalleresViews.buscar_beneficiarias ∧
  TalleresViews.buscar_beneficiarias (Autenticado x) {[ "term" := "an" ]}
    {[ 1 := ana ]} [] = Ok (JsonResponse [], []).
Proof.
  intros x ana.
  destruct (busqueda_enrutada x {[ "term" := "an" ]} {[ 1 := ana ]} [])
    as (Hurl & Hcorto & _).
  - by right.
  - split; [exact Hurl|]. apply Hcorto. vm_compute. lia.
Defined.

(** The same request [?term=ana] through the route and through the
    first function of that name, which nothing routes to. *)
Example busqueda_enrutada_ejemplo :
  let x := {| role := "empleado"; permiso_beneficiarias := false;
              permiso_finanzas := false; permiso_talleres := true;
              permiso_reportes := false |} in
  let ana := {| Beneficiarias.nombres := "Ana"; Beneficiarias.apellidos := "Quispe";
                Beneficiarias.documento_identidad := "45678912";
                Beneficiarias.telefono := "987654321";
                Beneficiarias.correo := "" |} in
  (view ← TalleresViews.url_buscar_beneficiarias;
   Some (view (Autenticado x) {[ "term" := "ana" ]} {[ 1 := ana ]} []))
  = Some (Ok (JsonResponse [TalleresViews.fila_data (1, ana)], [])) ∧
  buscar_beneficiarias (Autenticado x) {[ "term" := "ana" ]} {[ 1 := ana ]} []
  = Raise (FieldError "dni").
Proof. vm_compute. done. Qed.

(** X15: Who gets through to the routed search view: an anonymous request is
    sent to the login page and an authenticated user without access to
    the dashboard, each with one error message and without the query
    being run; nobody makes the view raise. Asking an anonymous user for
    [can_access_talleres], which it does not have, never happens. *)
Theorem busqueda_requiere_permiso (u : user) (GET : gmap string string)
    (tabla : gmap Z Beneficiarias.Beneficiaria) (msgs : list Message) :
  let r := TalleresViews.buscar_beneficiarias u GET tabla msgs in
  let negado :=
    msgs ++ [ {| level := ERROR;
                 text := "No tienes permiso para acceder al módulo de talleres." |} ] in
  (u = AnonymousUser → r = Ok (HttpResponseRedirect "login", negado)) ∧
  (∀ x, u = Autenticado x → role x ≠ "administrador" →
        permiso_talleres x = false →
        r = Ok (HttpResponseRedirect "dashboard", negado)) ∧
  (∀ x, u = Autenticado x →
        role x = "administrador" ∨ permiso_talleres x = true →
        ∃ filas, r = Ok (JsonResponse filas, msgs)) ∧
  (∀ e, r ≠ Raise e).
Proof.
  simpl. unfold TalleresViews.buscar_beneficiarias, permiso_talleres_required.
  assert (∃ filas, TalleresViews.buscar_beneficiarias_function GET tabla
                   = Ok (JsonResponse filas)) as [filas Hfilas].
  { unfold TalleresViews.buscar_beneficiarias_function.
    case_bool_decide; [by eexists|].
    unfold Beneficiarias.objects_filter. rewrite resolver_api. by eexists. }
  rewrite Hfilas.
  split; [by intros ->|]. split; [|split].
  - intros x -> Hrol Hperm. simpl. unfold can_access_talleres.
    apply is_admin_false in Hrol. by rewrite Hrol, Hperm.
  - intros x -> Hacc. simpl. unfold can_access_talleres.
    assert (is_admin x || permiso_talleres x = true) as ->; [|by eexists].
    apply orb_true_iff. destruct Hacc as [Hrol|Hperm]; [left|by right].
    by apply is_admin_true.
  - intros e. destruct u as [|x]; [done|]. simpl.
    by destruct (can_access_talleres x).
Qed.

(** X16: The class-based views guard the same door: [TalleresRequiredMixin]
    lets in exactly the users the decorator lets in and treats an
    authenticated user the same way; only the anonymous request differs,
    which the mixin sends to the dashboard and the decorator to the
    login page. *)
Theorem mixin_y_decorador (u : user) (view : vista) (msgs : list Message) :
  let negado :=
    msgs ++ [ {| level := ERROR;
                 text := "No tienes permiso para acceder al módulo de talleres." |} ] in
  (∀ x, u = Autenticado x →
        TalleresRequiredMixin.dispatch u view msgs
        = permiso_talleres_required u view msgs) ∧
  (u = AnonymousUser →
     TalleresRequiredMixin.dispatch u view msgs
       = Ok (HttpResponseRedirect "dashboard", negado) ∧
     permiso_talleres_required u view msgs
       = Ok (HttpResponseRedirect "login", negado)).
Proof.
  simpl. split.
  - intros x ->.
    unfold TalleresRequiredMixin.dispatch, TalleresRequiredMixin.test_func,
      TalleresRequiredMixin.handle_no_permission, permiso_talleres_required.
    simpl. by destruct (can_access_talleres x).
  - by intros ->.
Qed.

(** X17: The balance report sits behind three decorators: an anonymous
    request goes to the login URL with no message; an authenticated user
    reaches the report when administrator or holding both
    [permiso_reportes] and [permiso_finanzas]; lacking the first gives
    the reports message, holding the first and lacking the second gives
    the finance message, both with a redirect to the dashboard. *)
Theorem balance_requiere_dos_permisos (login_url : string) (u : user)
    (cuerpo : vista) (msgs : list Message) :
  let r := reporte_balance_financiero login_url u cuerpo msgs in
  (u = AnonymousUser → r = Ok (HttpResponseRedirect login_url, msgs)) ∧
  (∀ x, u = Autenticado x →
        role x = "administrador"
        ∨ (permiso_reportes x = true ∧ permiso_finanzas x = true) →
        r = cuerpo msgs) ∧
  (∀ x, u = Autenticado x → role x ≠ "administrador" →
        permiso_reportes x = false →
        r = Ok (HttpResponseRedirect "dashboard",
                msgs ++ [ {| level := ERROR;
                  text := "No tienes permiso para acceder a los reportes." |} ])) ∧
  (∀ x, u = Autenticado x → role x ≠ "administrador" →
        permiso_reportes x = true → permiso_finanzas x = false →
        r = Ok (HttpResponseRedirect "dashboard",
                msgs ++ [ {| level := ERROR;
                  text := "No tienes permiso para acceder al módulo de finanzas." |} ])).
Proof.
  simpl. unfold reporte_balance_financiero, login_required,
    permiso_reportes_required, permiso_finanzas_required.
  split; [by intros ->|]. split; [|split].
  - intros x -> Hacc. simpl. unfold can_access_reportes, can_access_finanzas.
    destruct Hacc as [Hrol|[Hrep Hfin]].
    + apply is_admin_true in Hrol. by rewrite Hrol.
    + rewrite Hrep, Hfin. by rewrite !orb_true_r.
  - intros x -> Hrol Hrep. simpl. unfold can_access_reportes.
    apply is_admin_false in Hrol. by rewrite Hrol, Hrep.
  - intros x -> Hrol Hrep Hfin. simpl.
    unfold can_access_reportes, can_access_finanzas.
    apply is_admin_false in Hrol. by rewrite Hrol, Hrep, Hfin.
Qed.

End Acceso.

(** * Properties of the template filters *)

Section Filtros.
Import FinanzasFilters.

(** X18: [get_item] never raises. An index from 0 to the length minus one
    reads from the front, one from minus the length to -1 reads from the
    back, any other gives [None]; so does an index that is no number; and
    the index may equally come as the text of the number. *)
Theorem get_item_spec {A : Type} (l : list A) (i : Z) :
  let n := Z.of_nat (length l) in
  (0 ≤ i < n → get_item l (ArgInt i) = l !! Z.to_nat i
               ∧ is_Some (get_item l (ArgInt i))) ∧
  (- n ≤ i < 0 → get_item l (ArgInt i) = l !! Z.to_nat (n + i)
                 ∧ is_Some (get_item l (ArgInt i))) ∧
  (i < - n ∨ n ≤ i → get_item l (ArgInt i) = None) ∧
  get_item l (ArgStr (Python.str i)) = get_item l (ArgInt i) ∧
  (∀ s e, Python.int s = Raise e → get_item l (ArgStr s) = None).
Proof.
  simpl. unfold get_item, getitem. simpl. rewrite int_str.
  split; [|split; [|split; [|split]]].
  - intros Hi. rewrite bool_decide_true by lia. split; [done|].
    apply lookup_lt_is_Some. lia.
  - intros Hi. rewrite bool_decide_false by lia.
    rewrite bool_decide_true by lia. split; [done|].
    apply lookup_lt_is_Some. lia.
  - intros [Hi|Hi].
    + rewrite bool_decide_false by lia. by rewrite bool_decide_false by lia.
    + rewrite bool_decide_true by lia. apply lookup_ge_None. lia.
  - done.
  - intros s e ->. done.
Qed.

Example get_item_ejemplos :
  get_item ["a"; "b"; "c"] (ArgStr "1") = Some "b" ∧
  get_item ["a"; "b"; "c"] (ArgInt (-1)) = Some "c" ∧
  get_item ["a"; "b"; "c"] (ArgInt 3) = None ∧
  get_item ["a"; "b"; "c"] (ArgStr "dos") = None.
Proof. repeat split; reflexivity. Qed.

(** X19: [nombre_mes] names the months 1 to 12; because the list is read at
    index [mes - 1], the numbers 0 down to -11 name a month too (0 is
    Diciembre); every other number, and every text that is no number,
    comes back as its own text. A month number given as text names the
    same month. *)
Theorem nombre_mes_spec (m : Z) :
  (1 ≤ m ≤ 12 →
     nombres_meses !! Z.to_nat (m - 1) = Some (nombre_mes (ArgInt m))) ∧
  (-11 ≤ m ≤ 0 →
     nombres_meses !! Z.to_nat (m + 11) = Some (nombre_mes (ArgInt m))) ∧
  (m < -11 ∨ 12 < m → nombre_mes (ArgInt m) = Python.str m) ∧
  nombre_mes (ArgStr (Python.str m)) = nombre_mes (ArgInt m) ∧
  (∀ s e, Python.int s = Raise e → nombre_mes (ArgStr s) = s).
Proof.
  unfold nombre_mes. rewrite int_str. unfold getitem.
  change (Z.of_nat (length nombres_meses)) with 12.
  split; [|split; [|split; [|split]]].
  - intros Hm. rewrite bool_decide_true by lia.
    destruct (nombres_meses !! Z.to_nat (m - 1)) as [nombre|] eqn:Hn; [done|].
    apply lookup_ge_None in Hn. simpl in Hn. lia.
  - intros Hm. rewrite bool_decide_false by lia.
    rewrite bool_decide_true by lia.
    replace (12 + (m - 1)) with (m + 11) by lia.
    destruct (nombres_meses !! Z.to_nat (m + 11)) as [nombre|] eqn:Hn; [done|].
    apply lookup_ge_None in Hn. simpl in Hn. lia.
  - intros [Hm|Hm].
    + rewrite bool_decide_false by lia. by rewrite bool_decide_false by lia.
    + rewrite bool_decide_true by lia.
      destruct (nombres_meses !! Z.to_nat (m - 1)) as [nombre|] eqn:Hn; [|done].
      apply lookup_lt_Some in Hn. simpl in Hn. lia.
  - simpl.
    destruct (bool_decide (0 ≤ m - 1)); [by destruct (_ !! _)|].
    destruct (bool_decide (-12 ≤ m - 1)); [by destruct (_ !! _)|done].
  - intros s e ->. done.
Qed.

Example nombre_mes_ejemplos :
  nombre_mes (ArgStr "03") = "Marzo" ∧ nombre_mes (ArgInt 12) = "Diciembre" ∧
  nombre_mes (ArgInt 0) = "Diciembre" ∧ nombre_mes (ArgInt 13) = "13" ∧
  nombre_mes (ArgStr "marzo") = "marzo".
Proof. repeat split; reflexivity. Qed.

End Filtros.

(** * Properties of the beneficiary endpoints together *)

Section BeneficiariasEndpoints.
Import Beneficiarias.

(** X20: Every row the search endpoint lists can be opened: for its
    beneficiary the detail endpoint answers 200 with the very same
    entries. A primary key that is not in the table gives 404. *)
Theorem detalle_de_cada_resultado (GET : gmap string string)
    (tabla : gmap Z Beneficiaria) (filas : list dict) :
  buscar_beneficiarias_api GET tabla = Ok (JsonResponse filas) →
  (∀ fila, fila ∈ filas →
     ∃ pk, fila !! 0%nat = Some ("id", JInt pk) ∧
           BeneficiariasDetalle.detalle_beneficiaria_api pk tabla
           = {| BeneficiariasDetalle.data := fila;
                BeneficiariasDetalle.status := 200 |}) ∧
  (∀ pk, tabla !! pk = None → BeneficiariasDetalle.status
       (BeneficiariasDetalle.detalle_beneficiaria_api pk tabla) = 404).
Proof.
  intros Hapi. split.
  - intros fila Hfila. unfold buscar_beneficiarias_api in Hapi.
    case_bool_decide; [injection Hapi as <-; by apply elem_of_nil in Hfila|].
    unfold objects_filter in Hapi. rewrite resolver_api in Hapi.
    injection Hapi as <-.
    apply list_elem_of_fmap in Hfila as [[pk b] [-> Hin]].
    apply subseteq_take, list_elem_of_filter in Hin as [_ Hin].
    apply elem_of_map_to_list in Hin.
    exists pk. split; [done|]. unfold BeneficiariasDetalle.detalle_beneficiaria_api. by rewrite Hin.
  - intros pk Hpk. unfold BeneficiariasDetalle.detalle_beneficiaria_api. by rewrite Hpk.
Qed.

Lemma detalle_de_cada_resultado_witness :
  let ana := {| nombres := "Ana"; apellidos := "Quispe";
                documento_identidad := "45678912";
                telefono := "987654321"; correo := "" |} in
  ∃ pk, BeneficiariasDetalle.detalle_beneficiaria_api pk {[ 1 := ana ]}
        = {| BeneficiariasDetalle.data := fila_api (1, ana);
             BeneficiariasDetalle.status := 200 |}.
Proof.
  intros ana.
  destruct (detalle_de_cada_resultado {[ "term" := "quis" ]} {[ 1 := ana ]}
              [fila_api (1, ana)]) as [Hfilas _].
  - by vm_compute.
  - destruct (Hfilas (fila_api (1, ana))) as (pk & _ & Hdet); [left|].
    exists pk. exact Hdet.
Defined.

End BeneficiariasEndpoints.

(** * Properties of the participant validation *)

Section Participantes.
Import ParticipanteValidacion.

(** X21: The form is stricter than the model: data the form's [clean]
    accepts never makes the model's [clean] raise, and when the model
    raises for a field the form reports that field as well. With a
    linked beneficiary the model accepts missing names; the form does
    not. *)
Theorem form_clean_implica_clean (d : datos) :
  (form_clean d = [] ↔
     falta (nombres d) = false ∧ falta (apellidos d) = false
     ∧ falta (dni d) = false) ∧
  (form_clean d = [] → clean d = None) ∧
  (∀ campo mensaje, clean d = Some (campo, mensaje) →
     ∃ mensaje', (campo, mensaje') ∈ form_clean d) ∧
  (is_Some (beneficiaria d) → clean d = None).
Proof.
  unfold form_clean, clean. split; [|split; [|split]].
  - destruct (falta (nombres d)), (falta (apellidos d)), (falta (dni d));
      simpl; split; intros H; try done; by destruct H as (?&?&?).
  - destruct (falta (nombres d)), (falta (apellidos d)), (falta (dni d));
      simpl; try done. intros _. by destruct (beneficiaria d).
  - intros campo mensaje. destruct (beneficiaria d); [done|].
    destruct (falta (nombres d)), (falta (apellidos d)), (falta (dni d));
      simpl; intros Hc; try discriminate Hc;
      injection Hc as <- <-; exists "Este campo es obligatorio."; set_solver.
  - intros [b Hb]. by rewrite Hb.
Qed.

Example clean_con_beneficiaria :
  let d := {| beneficiaria := Some 3; nombres := None;
              apellidos := Some ""; dni := None |} in
  clean d = None ∧ length (form_clean d) = 3%nat.
Proof. done. Qed.

End Participantes.

(** * Properties of registering and editing a payment *)

Section ClavesNuevas.
Context {A : Type}.

Lemma foldr_max_ge (l : list Z) (k : Z) : k ∈ l → k ≤ foldr Z.max 0 l.
Proof.
  induction l as [|x l IH]; [by intros ?%elem_of_nil|].
  intros [->|Hk]%elem_of_cons; simpl; [lia|]. specialize (IH Hk). lia.
Qed.

(** The key of a new row is above every key in use. *)
Lemma siguiente_pk_mayor (tabla : gmap Z A) (k : Z) (x : A) :
  tabla !! k = Some x → k < siguiente_pk tabla.
Proof.
  intros Hk. unfold siguiente_pk.
  assert (k ≤ foldr Z.max 0 (map_to_list tabla).*1); [|lia].
  apply foldr_max_ge, list_elem_of_fmap. exists (k, x).
  split; [done|]. by apply elem_of_map_to_list.
Qed.

Lemma siguiente_pk_libre (tabla : gmap Z A) : tabla !! siguiente_pk tabla = None.
Proof.
  destruct (tabla !! siguiente_pk tabla) as [x|] eqn:Hk; [|done].
  apply siguiente_pk_mayor in Hk. lia.
Qed.

End ClavesNuevas.

Section Comprobantes.
Import Finanzas.

Lemma get_next_comprobante_es_str (tabla : gmap Z PagoSocio) :
  ∃ m, get_next_comprobante tabla = Python.str m.
Proof.
  unfold get_next_comprobante.
  destruct (first _) as [[k p]|]; [|by exists 1].
  case_bool_decide; [by exists 1|].
  destruct (Python.int _) as [n|e]; [by exists (n + 1)|by exists 1].
Qed.

(** After a payment has been added, the proposal is read off that
    payment alone. *)
Lemma get_next_comprobante_tras_pago (tabla : gmap Z PagoSocio) (pk : Z)
    (p : PagoSocio) (m : Z) :
  (∀ k x, tabla !! k = Some x → k < pk) →
  comprobante p = Python.str m →
  get_next_comprobante (<[pk := p]> tabla) = Python.str (m + 1).
Proof.
  intros Hpk Hp. unfold get_next_comprobante.
  rewrite (ultimo_pago_Some _ pk p).
  - simpl. rewrite Hp.
    rewrite bool_decide_false by apply str_no_vacio. by rewrite int_str.
  - apply lookup_insert_eq.
  - intros k' p' Hk'. destruct (decide (k' = pk)) as [->|Hne]; [lia|].
    rewrite lookup_insert_ne in Hk' by done.
    apply Hpk in Hk'. lia.
Qed.

(** X22: The numbering goes on by one: once the number the function proposes
    has been given to a new payment (a row whose key is above the keys
    in use), the function proposes its successor. *)
Theorem comprobante_siguiente (tabla : gmap Z PagoSocio) (pk : Z)
    (p : PagoSocio) :
  (∀ k x, tabla !! k = Some x → k < pk) →
  comprobante p = get_next_comprobante tabla →
  ∃ m, get_next_comprobante tabla = Python.str m ∧
       get_next_comprobante (<[pk := p]> tabla) = Python.str (m + 1).
Proof.
  intros Hpk Hp. destruct (get_next_comprobante_es_str tabla) as [m Hm].
  exists m. split; [done|]. rewrite Hm in Hp.
  by apply get_next_comprobante_tras_pago.
Qed.

Lemma comprobante_siguiente_witness :
  let tabla : gmap Z PagoSocio :=
    {[ 1 := {| socio_id := 3; fecha := 100; comprobante := "41" |} ]} in
  ∃ m, get_next_comprobante tabla = Python.str m ∧
       get_next_comprobante
         (<[5 := {| socio_id := 4; fecha := 101; comprobante := "42" |}]> tabla)
       = Python.str (m + 1).
Proof.
  intros tabla.
  apply (comprobante_siguiente tabla 5
           {| socio_id := 4; fecha := 101; comprobante := "42" |}).
  - intros k x Hk. apply lookup_singleton_Some in Hk as [Hk _]. lia.
  - by vm_compute.
Defined.

End Comprobantes.

Section Pagos.
Import Finanzas.

(** X23: A payment registered with the receipt field left empty is stored,
    under a new key, with the proposed number; one success message is
    added; and the next proposal is that number plus one. *)
Theorem pago_nuevo_recibe_comprobante (cleaned : PagoSocio)
    (mes anio : string) (pagos : gmap Z PagoSocio) (bd : BD)
    (msgs : list Message) :
  comprobante cleaned = "" →
  ∃ st' salida m texto pk,
    PagoSocioCreateView.post cleaned mes anio false pagos bd msgs = (st', salida) ∧
    get_next_comprobante pagos = Python.str m ∧
    pagos !! pk = None ∧
    PagoSocioForm.pagos st' = <[pk := set_comprobante (Python.str m) cleaned]> pagos ∧
    get_next_comprobante (PagoSocioForm.pagos st') = Python.str (m + 1) ∧
    PagoSocioForm.msgs st' = msgs ++ [ {| level := SUCCESS; text := texto |} ] ∧
    PagoSocioForm.bd st' = bd ∧
    salida = RedirectSocioDetail (socio_id cleaned).
Proof.
  intros Hvacio.
  destruct (get_next_comprobante_es_str pagos) as [m Hm].
  pose proof (get_next_comprobante_tras_pago pagos (siguiente_pk pagos)
                (set_comprobante (get_next_comprobante pagos) cleaned) m
                (siguiente_pk_mayor pagos) Hm)
    as Hsig.
  unfold PagoSocioCreateView.post, PagoSocioCreateView.form_valid,
    PagoSocioForm.save. simpl.
  rewrite lookup_singleton_eq. rewrite bool_decide_true by done.
  rewrite lookup_insert_eq. simpl.
  eexists _, _, m, _, (siguiente_pk pagos). split; [done|]. simpl. rewrite <- Hm.
  split; [done|]. split; [apply siguiente_pk_libre|].
  split; [done|]. split; [by rewrite Hsig|]. by repeat split.
Qed.

Lemma pago_nuevo_recibe_comprobante_witness :
  ∃ st' salida,
    PagoSocioCreateView.post {| socio_id := 3; fecha := 100; comprobante := "" |}
      "4" "2025" false ∅ {| categorias := ∅; ingresos := ∅; egresos := ∅ |} []
    = (st', salida) ∧
    get_next_comprobante (PagoSocioForm.pagos st') = Python.str (1 + 1).
Proof.
  destruct (pago_nuevo_recibe_comprobante
              {| socio_id := 3; fecha := 100; comprobante := "" |}
              "4" "2025" ∅ {| categorias := ∅; ingresos := ∅; egresos := ∅ |} [])
    as (st' & salida & m & texto & pk & Hpost & Hm & _ & _ & Hsig & _).
  - reflexivity.
  - exists st', salida. split; [exact Hpost|].
    assert (m = 1) as Hm1.
    { apply (inj Python.str). rewrite <- Hm. reflexivity. }
    rewrite Hm1 in Hsig. exact Hsig.
Defined.

(** Two payments in a row on an empty table get the receipts 1 and 2,
    and the message says so. *)
Example dos_pagos_seguidos :
  let bd0 := {| categorias := ∅; ingresos := ∅; egresos := ∅ |} in
  let r1 := PagoSocioCreateView.post
              {| socio_id := 3; fecha := 100; comprobante := "" |}
              "4" "2025" false ∅ bd0 [] in
  let r2 := PagoSocioCreateView.post
              {| socio_id := 5; fecha := 101; comprobante := "" |}
              "5" "2025" false (PagoSocioForm.pagos r1.1) bd0 [] in
  comprobante <$> PagoSocioForm.pagos r2.1 !! 1 = Some "1" ∧
  comprobante <$> PagoSocioForm.pagos r2.1 !! 2 = Some "2" ∧
  text <$> PagoSocioForm.msgs r1.1
    = ["Pago por el mes de Abril 2025 registrado exitosamente con comprobante N° 1"] ∧
  text <$> PagoSocioForm.msgs r2.1
    = ["Pago por el mes de Mayo 2025 registrado exitosamente con comprobante N° 2"].
Proof. vm_compute. done. Qed.

End Pagos.

Section PagosIngreso.
Import Finanzas.

(** Exactly one row in a table: its listing is that row. *)
Lemma map_to_list_uno {A} (m : gmap Z A) (k : Z) (x : A) :
  map_to_list m = [(k, x)] → m !! k = Some x.
Proof. intros Hl. apply elem_of_map_to_list. rewrite Hl. left. Qed.

(** X24: Registering a payment together with its income leaves a category
    Cuota de Socio of type INGRESO in the table, and from then on the
    category delete view refuses to delete that category: it answers
    with an error message and leaves everything in place. *)
Theorem pago_con_ingreso_protege_categoria (cleaned : PagoSocio)
    (mes anio : string) (pagos : gmap Z PagoSocio) (bd : BD)
    (msgs : list Message) (st' : PagoSocioForm.estado) (socio : Z) :
  PagoSocioCreateView.post cleaned mes anio true pagos bd msgs
    = (st', RedirectSocioDetail socio) →
  ∃ pk c texto,
    categorias (PagoSocioForm.bd st') !! pk = Some c ∧
    nombre c = "Cuota de Socio" ∧ tipo c = INGRESO ∧
    CategoriaDeleteView.delete pk (PagoSocioForm.bd st') (PagoSocioForm.msgs st')
    = (PagoSocioForm.bd st',
       PagoSocioForm.msgs st' ++ [ {| level := ERROR; text := texto |} ],
       HttpResponseRedirect "categoria_list").
Proof.
  unfold PagoSocioCreateView.post, PagoSocioCreateView.form_valid,
    PagoSocioForm.save. simpl.
  rewrite lookup_singleton_eq, lookup_insert_eq. simpl.
  destruct (PagoSocioForm.categoria_cuota (categorias bd)) as [[cs pk]|e] eqn:Hcat;
    [|done].
  intros [= <- _].  simpl.
  assert (∃ c, cs !! pk = Some c ∧ nombre c = "Cuota de Socio" ∧ tipo c = INGRESO)
    as (c & Hc & Hnom & Htipo).
  { unfold PagoSocioForm.categoria_cuota in Hcat.
    destruct (map_to_list _) as [|[k c] [|??]] eqn:Hl; [| |done].
    - injection Hcat as <- <-. eexists. split; [apply lookup_insert_eq|done].
    - injection Hcat as <- <-. apply map_to_list_uno in Hl.
      apply map_lookup_filter_Some in Hl as [Hk [Hn Ht]]. by exists c. }
  exists pk, c. eexists. split; [done|]. split; [done|]. split; [done|].
  unfold CategoriaDeleteView.delete, super_delete, categoria_delete. simpl.
  rewrite Hc.
  assert (referenciada pk
            {| categorias := cs;
               ingresos := <[siguiente_pk (ingresos bd) :=
                               {| ingreso_categoria_id := pk |}]> (ingresos bd);
               egresos := egresos bd |} = true) as ->; [|done].
  apply referenciada_true. left. eexists _, _. simpl.
  split; [apply lookup_insert_eq|done].
Qed.

Lemma pago_con_ingreso_protege_categoria_witness :
  let bd0 := {| categorias := ∅; ingresos := ∅; egresos := ∅ |} in
  let r := PagoSocioCreateView.post
             {| socio_id := 3; fecha := 100; comprobante := "" |}
             "4" "2025" true ∅ bd0 [] in
  ∃ pk c, categorias (PagoSocioForm.bd r.1) !! pk = Some c ∧
          nombre c = "Cuota de Socio".
Proof.
  intros bd0 r.
  destruct (pago_con_ingreso_protege_categoria
              {| socio_id := 3; fecha := 100; comprobante := "" |}
              "4" "2025" ∅ bd0 [] r.1 3)
    as (pk & c & _ & Hc & Hn & _).
  - by vm_compute.
  - exists pk, c. split; [exact Hc|exact Hn].
Defined.

(** X25: What the income option does to the categories: with no category
    Cuota de Socio of type INGRESO it creates one; with exactly one it
    creates none; with two or more the request fails with
    [MultipleObjectsReturned], with no income written and the payment
    already saved. *)
Theorem pago_con_ingreso_categorias (cleaned : PagoSocio)
    (mes anio : string) (pagos : gmap Z PagoSocio) (bd : BD)
    (msgs : list Message) :
  let cuotas (cs : gmap Z Categoria) :=
    size (filter (λ kv : Z * Categoria,
                    nombre kv.2 = "Cuota de Socio" ∧ tipo kv.2 = INGRESO) cs) in
  let r := PagoSocioCreateView.post cleaned mes anio true pagos bd msgs in
  (cuotas (categorias bd) = 0%nat →
     cuotas (categorias (PagoSocioForm.bd r.1)) = 1%nat ∧
     r.2 = RedirectSocioDetail (socio_id cleaned)) ∧
  (cuotas (categorias bd) = 1%nat →
     categorias (PagoSocioForm.bd r.1) = categorias bd ∧
     r.2 = RedirectSocioDetail (socio_id cleaned)) ∧
  ((2 ≤ cuotas (categorias bd))%nat →
     r.2 = Error500 PagoSocioForm.MultipleObjectsReturned ∧
     PagoSocioForm.bd r.1 = bd ∧
     ∃ pk, pagos !! pk = None ∧ is_Some (PagoSocioForm.pagos r.1 !! pk)).
Proof.
  simpl.
  unfold PagoSocioCreateView.post, PagoSocioCreateView.form_valid,
    PagoSocioForm.save. simpl.
  rewrite lookup_singleton_eq, lookup_insert_eq. simpl.
  unfold PagoSocioForm.categoria_cuota.
  rewrite <- (length_map_to_list (filter _ (categorias bd))).
  assert (socio_id (if bool_decide (comprobante cleaned = "")
                    then set_comprobante (get_next_comprobante pagos) cleaned
                    else cleaned) = socio_id cleaned) as Hsocio
    by (by case_bool_decide).
  destruct (map_to_list (filter _ (categorias bd))) as [|[k c] [|??]] eqn:Hl; simpl;
    rewrite ?Hsocio.
  - split; [|split; intros Hn; exfalso; lia]. intros _. split; [|done].
    rewrite size_filter_insert by apply siguiente_pk_libre.
    rewrite decide_True by done.
    rewrite <- (length_map_to_list (filter _ (categorias bd))), Hl. done.
  - split; [intros Hn; exfalso; lia|]. split; [done|]. intros Hn; exfalso; lia.
  - split; [intros Hn; exfalso; lia|]. split; [intros Hn; exfalso; lia|]. intros _.
    split; [done|]. split; [by destruct bd|].
    exists (siguiente_pk pagos). split; [apply siguiente_pk_libre|].
    rewrite lookup_insert_eq. by eexists.
Qed.

(** X26: Editing a payment stores what the form sent, receipt number
    included, also when the stored payment already had a number: the
    view copies the number from [self.object] to [form.instance], which
    are one and the same object. The success message is added whatever
    follows. With [registrar_ingreso] not ticked nothing else is written
    and the answer is the redirect to the member's page. *)
Theorem editar_pago_guarda_lo_enviado (pk : Z) (fila cleaned : PagoSocio)
    (mes anio : string) (registrar_ingreso : bool) (pagos : gmap Z PagoSocio)
    (bd : BD) (msgs : list Message) :
  pagos !! pk = Some fila →
  ∃ st' salida texto,
    PagoSocioUpdateView.post pk cleaned mes anio registrar_ingreso pagos bd msgs
      = Ok (st', salida) ∧
    PagoSocioForm.pagos st' = <[pk := cleaned]> pagos ∧
    PagoSocioForm.msgs st' = msgs ++ [ {| level := SUCCESS; text := texto |} ] ∧
    (registrar_ingreso = false →
       PagoSocioForm.bd st' = bd ∧
       salida = RedirectSocioDetail (socio_id cleaned)).
Proof.
  intros Hfila. unfold PagoSocioUpdateView.post. rewrite Hfila.
  unfold PagoSocioUpdateView.form_valid, PagoSocioForm.save. simpl.
  rewrite lookup_insert_eq.
  assert (set_comprobante (comprobante cleaned) cleaned = cleaned) as Hmismo
    by (by destruct cleaned).
  assert (∀ objetos : gmap nat PagoSocio,
            objetos !! 0%nat = Some cleaned →
            alter (set_comprobante (comprobante cleaned)) 0%nat objetos !! 0%nat
            = Some cleaned) as Halter.
  { intros objetos Ho. by rewrite lookup_alter_eq, Ho; simpl; rewrite Hmismo. }
  case_bool_decide.
  - rewrite !Halter by apply lookup_insert_eq.
    destruct registrar_ingreso; [|by eexists _, _, _].
    destruct (PagoSocioForm.categoria_cuota (categorias bd)) as [[cs cat]|e];
      by eexists _, _, _.
  - rewrite !lookup_insert_eq.
    destruct registrar_ingreso; [|by eexists _, _, _].
    destruct (PagoSocioForm.categoria_cuota (categorias bd)) as [[cs cat]|e];
      by eexists _, _, _.
Qed.

Lemma editar_pago_guarda_lo_enviado_witness :
  let pagos : gmap Z PagoSocio :=
    {[ 8 := {| socio_id := 3; fecha := 100; comprobante := "7" |} ]} in
  ∃ st' salida,
    PagoSocioUpdateView.post 8 {| socio_id := 3; fecha := 100; comprobante := "99" |}
      "4" "2025" true pagos {| categorias := ∅; ingresos := ∅; egresos := ∅ |} []
      = Ok (st', salida) ∧
    comprobante <$> PagoSocioForm.pagos st' !! 8 = Some "99".
Proof.
  intros pagos.
  destruct (editar_pago_guarda_lo_enviado 8
              {| socio_id := 3; fecha := 100; comprobante := "7" |}
              {| socio_id := 3; fecha := 100; comprobante := "99" |}
              "4" "2025" true pagos
              {| categorias := ∅; ingresos := ∅; egresos := ∅ |} [])
    as (st' & salida & texto & Hpost & Hpagos & _).
  - reflexivity.
  - exists st', salida. split; [exact Hpost|]. rewrite Hpagos.
    by rewrite lookup_insert_eq.
Defined.

(** The same edit with the income box ticked: the payment is rewritten
    and, as on creation, an income and its category are written too. *)
Example editar_pago_con_ingreso :
  let pagos : gmap Z PagoSocio :=
    {[ 8 := {| socio_id := 3; fecha := 100; comprobante := "7" |} ]} in
  match PagoSocioUpdateView.post 8
          {| socio_id := 3; fecha := 100; comprobante := "99" |}
          "4" "2025" true pagos
          {| categorias := ∅; ingresos := ∅; egresos := ∅ |} [] with
  | Ok (st', salida) =>
      comprobante <$> PagoSocioForm.pagos st' !! 8 = Some "99" ∧
      size (categorias (PagoSocioForm.bd st')) = 1%nat ∧
      size (ingresos (PagoSocioForm.bd st')) = 1%nat ∧
      salida = RedirectSocioDetail 3
  | Raise _ => False
  end.
Proof. vm_compute. done. Qed.

End PagosIngreso.
